(** * ChatEpstein: the retrieval chat core of [src/chat/chatbot.py]

    A shallow embedding of the chat module: entity extraction, candidate
    retrieval, cross-encoder reranking, context assembly, citation
    extraction and the session store, with the properties the design
    document states about them.

    Conventions.
    - A Python [str] is a [string]; its characters are the code points
      below 256, and [is_space], [lower] are Python's on that range.
    - A number of the metadata is a Python [int] or [float]; a float is
      given by the text [repr] prints for it, so page [1.0] prints as
      [1.0] and page [1] as [1].
    - A Python [dict] whose iteration order is observed ([doc_groups],
      [message_store]) is an association list in insertion order; one that
      is only looked up ([doc_metadata], [citations_metadata]) is a [gmap].
    - The external collaborators (NER model, vector store, cross-encoder,
      S3 client) are parameters of the functions that call them; a call
      that may raise returns an [outcome].
    - Part I translates the code and names the vocabulary of the
      statements; Part II proves the properties. *)

From Stdlib Require Import ZArith Lia List Ascii String Sorted Permutation.
From Stdlib Require Import DecimalString DecimalZ DecimalPos.
From stdpp Require Import gmap strings list sorting.

Local Open Scope string_scope.
Local Open Scope list_scope.
Local Open Scope nat_scope.

(** * Part I: the program *)

(** ** Python strings *)

Module PyStr.

Definition code (c : ascii) : nat := nat_of_ascii c.

Definition between (lo hi : nat) (c : ascii) : bool :=
  (lo <=? code c)%nat && (code c <=? hi)%nat.

(** [str.isspace] on one character, which is also [\s] of [re] on a
    [str] pattern: TAB..CR, FS..US, space, NEL and NBSP. *)
Definition is_space (c : ascii) : bool :=
  between 9 13 c || between 28 32 c || (code c =? 133)%nat || (code c =? 160)%nat.

(** Characters that [str.lower] changes: A-Z and the Latin-1 capitals. *)
Definition is_upper (c : ascii) : bool :=
  between 65 90 c || between 192 214 c || between 216 222 c.

Definition lower_char (c : ascii) : ascii :=
  if is_upper c then ascii_of_nat (code c + 32) else c.

Fixpoint lower (s : string) : string :=
  match s with
  | EmptyString => EmptyString
  | String c s' => String (lower_char c) (lower s')
  end.

Fixpoint all_chars (p : ascii → bool) (s : string) : bool :=
  match s with
  | EmptyString => true
  | String c s' => p c && all_chars p s'
  end.

(** [s.lstrip()], [s.rstrip()] and [s.strip()] with no argument. *)
Fixpoint lstrip (s : string) : string :=
  match s with
  | String c s' => if is_space c then lstrip s' else s
  | EmptyString => EmptyString
  end.

Fixpoint rstrip (s : string) : string :=
  match s with
  | EmptyString => EmptyString
  | String c s' =>
      match rstrip s' with
      | EmptyString => if is_space c then EmptyString else String c EmptyString
      | r => String c r
      end
  end.

Definition strip (s : string) : string := rstrip (lstrip s).

(** [sep.join(parts)] *)
Fixpoint join (sep : string) (parts : list string) : string :=
  match parts with
  | [] => ""
  | [p] => p
  | p :: rest => p +:+ sep +:+ join sep rest
  end.

(** [needle in haystack] *)
Fixpoint contains (needle haystack : string) : bool :=
  String.prefix needle haystack ||
  match haystack with
  | EmptyString => false
  | String _ h' => contains needle h'
  end.

(** The newline character, written [\n] in the source. *)
Definition nl : string := String (ascii_of_nat 10) "".

(** [str(n)] for a Python [int]. *)
Definition str_int (n : Z) : string := NilEmpty.string_of_int (Z.to_int n).

(** Truthiness of an optional string: [None] and [''] are falsy. *)
Definition truthy (o : option string) : bool :=
  match o with
  | Some (String _ _) => true
  | _ => false
  end.

(** [l[-n:]] for a positive [n]: the last [n] items, or all of [l]. *)
Definition last_items {A : Type} (n : nat) (l : list A) : list A :=
  skipn (length l - n) l.

(** A digit or the minus sign: the characters of [str(n)]. *)
Definition is_int_char (c : ascii) : bool := between 48 57 c || (code c =? 45)%nat.

Definition not_underscore (c : ascii) : bool := negb (Ascii.eqb c "_").

End PyStr.

(** ** Exceptions: a call returns a value or raises *)

Module Py.

Inductive outcome (A : Type) : Type :=
| Returned (a : A)
| Raised (exn : string).

Arguments Returned {A} a.
Arguments Raised {A} exn.

Definition bind {A B : Type} (m : outcome A) (f : A → outcome B) : outcome B :=
  match m with
  | Returned a => f a
  | Raised e => Raised e
  end.

(** [try: body  except Exception: handler] *)
Definition try_except {A : Type} (body : outcome A) (handler : string → outcome A)
  : outcome A :=
  match body with
  | Returned a => Returned a
  | Raised e => handler e
  end.

#[global] Instance outcome_ret : MRet outcome := @Returned.
#[global] Instance outcome_bind : MBind outcome := fun A B f m => bind m f.

End Py.

(** ** Passages and their metadata *)

(** A Python [float] is given by the text [repr] prints for it, which is
    what an f-string prints and what tells two floats apart: digits with a
    point or an exponent, [inf] or [nan], never the text of an [int]. *)
Definition is_float_char (c : ascii) : bool :=
  PyStr.between 48 57 c
  || existsb (Ascii.eqb c) ["."; "-"; "+"; "e"; "i"; "n"; "f"; "a"]%char.

Definition is_float_repr (s : string) : bool :=
  PyStr.all_chars is_float_char s && negb (PyStr.all_chars PyStr.is_int_char s).

Record PyFloat : Type := {
  float_repr : string;
  float_repr_ok : Is_true (is_float_repr float_repr);
}.

#[global] Instance py_float_eq_dec : EqDecision PyFloat.
Proof.
  intros [a Ha] [b Hb]. destruct (decide (a = b)) as [Heq|Hne].
  - left. subst b. f_equal. apply proof_irrel.
  - right. intros [= Heq]. contradiction.
Defined.

(** A number in the metadata: the [int] that ingestion writes, or the
    [float] a store such as Pinecone hands back for it. *)
Inductive Number : Type :=
| NInt (n : Z)
| NFloat (x : PyFloat).

#[global] Instance number_eq_dec : EqDecision Number.
Proof. solve_decision. Defined.

(** [f"{n}"] *)
Definition str_number (n : Number) : string :=
  match n with
  | NInt n => PyStr.str_int n
  | NFloat x => float_repr x
  end.

(** The floats [1.0], [2.0] and [3.0], for examples. *)
Definition float_1 : PyFloat := {| float_repr := "1.0"; float_repr_ok := I |}.
Definition float_2 : PyFloat := {| float_repr := "2.0"; float_repr_ok := I |}.
Definition float_3 : PyFloat := {| float_repr := "3.0"; float_repr_ok := I |}.

(** The metadata of a retrieved passage: a key is absent ([None]) or holds
    a value; [page_number] is a number, written as an [int] at ingestion
    ([VectorStore/chunking.py], [ingest_pdfs.py]) and read back as an [int]
    or as a [float], which prints as [1.0]. *)
Record Metadata : Type := {
  md_document_id : option string;
  md_page_number : option Number;
  md_source : option string;
  md_s3_key : option string;
  md_publication_date : option string;
}.

Record Document : Type := {
  page_content : string;
  metadata : Metadata;
}.

(** The value of [metadata.get('page_number', 'N/A')]: the number, or the
    text ['N/A']. *)
Inductive page_value : Type :=
| PageNumber (n : Number)
| PageNA.

#[global] Instance page_value_eq_dec : EqDecision page_value.
Proof. solve_decision. Defined.

(** [f"{page}"] *)
Definition str_page (p : page_value) : string :=
  match p with
  | PageNumber n => str_number n
  | PageNA => "N/A"
  end.

Definition get_document_id (d : Document) : string :=
  default "Unknown" (md_document_id (metadata d)).

Definition get_page_number (d : Document) : page_value :=
  match md_page_number (metadata d) with
  | Some n => PageNumber n
  | None => PageNA
  end.

Definition get_source (d : Document) : string :=
  default "Unknown" (md_source (metadata d)).

Definition get_publication_date (d : Document) : string :=
  default "Unknown" (md_publication_date (metadata d)).

(** ** [extract_entities_from_query] *)

Module Entities.

(** One span of [doc.ents]: [ent.text] and [ent.label_]. *)
Record Ent : Type := { ent_text : string; ent_label : string }.

Definition ALLOWED_LABELS : list string := ["PERSON"; "ORG"; "GPE"].

Definition allowed (ent : Ent) : bool :=
  bool_decide (ent_label ent ∈ ALLOWED_LABELS)
  && (2 <? String.length (PyStr.strip (ent_text ent)))%nat.

Definition extract_entities_from_query (nlp : string → list Ent) (query : string)
  : list string :=
  fold_left
    (fun entities ent =>
       if allowed ent
       then entities ++ [PyStr.lower (PyStr.strip (ent_text ent))]
       else entities)
    (nlp query) [].

(** A NER outcome that tags the same name twice, as on
    ["Did Epstein call Epstein?"]; every other query has no entity. *)
Definition ner_twice (query : string) : list Ent :=
  if String.eqb query "Did Epstein call Epstein?"
  then [ {| ent_text := "Epstein"; ent_label := "PERSON" |};
         {| ent_text := "Epstein"; ent_label := "PERSON" |} ]
  else [].

End Entities.

(** ** [sorted(iterable, key=..., reverse=...)] *)

Module PySort.

Section Sorting.

Context {A K : Type}.

(** [ltb] is [<] on the keys, the only comparison [sorted] makes. *)
Variable ltb : K → K → bool.
Variable key : A → K.

(** Insert [x] in front of the items it was ahead of in the input: it stays
    ahead of those with an equal key. *)
Fixpoint insert_sorted (x : A) (l : list A) : list A :=
  match l with
  | [] => [x]
  | y :: l' =>
      if ltb (key y) (key x) then y :: insert_sorted x l' else x :: y :: l'
  end.

(** A stable ascending sort. *)
Fixpoint sort_stable (l : list A) : list A :=
  match l with
  | [] => []
  | x :: l' => insert_sorted x (sort_stable l')
  end.

(** With [reverse=True], CPython reverses the list, sorts it ascending and
    reverses the result, so that equal keys keep their input order. *)
Definition py_sorted (reverse : bool) (l : list A) : list A :=
  if reverse then rev (sort_stable (rev l)) else sort_stable l.

(** Two keys neither of which is below the other. *)
Definition same_key (k1 k2 : K) : bool := negb (ltb k1 k2) && negb (ltb k2 k1).

(** No later item has a smaller key. *)
Definition ascending (l : list A) : Prop :=
  StronglySorted (fun a b => ltb (key b) (key a) = false) l.

(** No later item has a larger key. *)
Definition descending (l : list A) : Prop :=
  StronglySorted (fun a b => ltb (key a) (key b) = false) l.

End Sorting.

End PySort.

(** ** [entity_aware_retrieval] *)

Module Retrieval.

(** The metadata filter of a similarity search. *)
Inductive Filter : Type :=
| EntitiesIn (entities : list string).   (* {"entities": {"$in": entities}} *)

(** One call of [vector_db.similarity_search]. *)
Record Call : Type := {
  call_query : string;
  call_k : Z;
  call_filter : option Filter;
}.

(** A computation that issues searches: its value and the calls it made. *)
Definition Searching (A : Type) : Type := A * list Call.

Definition ret {A : Type} (a : A) : Searching A := (a, []).

Definition then_ {A B : Type} (m : Searching A) (f : A → Searching B)
  : Searching B :=
  let '(a, calls1) := m in
  let '(b, calls2) := f a in
  (b, calls1 ++ calls2).

Section WithCollaborators.

(** The NER model, the vector store and the cross-encoder. *)
Variable nlp : string → list Entities.Ent.
Variable vector_db : string → Z → option Filter → list Document.
Variable Score : Type.
Variable score_ltb : Score → Score → bool.
Variable predict : list (string * string) → list Score.

Definition similarity_search (query : string) (k : Z) (filter : option Filter)
  : Searching (list Document) :=
  (vector_db query k filter, [{| call_query := query; call_k := k; call_filter := filter |}]).

(** Lines 169-202: the candidates handed to the reranker. *)
Definition candidates_docs (query : string) : Searching (list Document) :=
  let query_entities := Entities.extract_entities_from_query nlp query in
  match query_entities with
  | _ :: _ =>
      let entity_clean := map PyStr.lower query_entities in
      let entity_docs_max := 8%Z in
      then_ (similarity_search query entity_docs_max (Some (EntitiesIn entity_clean)))
        (fun entity_matched_docs =>
      let num_entity_matched := Z.of_nat (length entity_matched_docs) in
      let num_to_total := (8 + (entity_docs_max - num_entity_matched))%Z in
      then_ (similarity_search query num_to_total None)
        (fun normal_docs =>
      ret (entity_matched_docs ++ normal_docs)))
  | [] =>
      similarity_search query 16 None
  end.

(** Lines 207-215: the scored candidates, best first. *)
Definition reranked (query : string) (candidates : list Document)
  : list (Document * Score) :=
  let query_content := map (fun doc => (query, page_content doc)) candidates in
  let rerank_scores := predict query_content in
  PySort.py_sorted score_ltb snd true (combine candidates rerank_scores).

(** Line 218 *)
Definition final_docs (query : string) (candidates : list Document)
  : list Document :=
  map fst (firstn 8 (reranked query candidates)).

Definition entity_aware_retrieval (query : string) : Searching (list Document) :=
  then_ (candidates_docs query) (fun candidates =>
  ret (final_docs query candidates)).

End WithCollaborators.

(** A small store for examples: three passages, of which the first carries
    the entities asked for; a search returns the first [k] matches. *)
Definition passage (doc_id : string) (page : Z) (text : string) : Document :=
  {| page_content := text;
     metadata := {| md_document_id := Some doc_id;
                    md_page_number := Some (NInt page);
                    md_source := Some "DOJ";
                    md_s3_key := Some ("doj/" +:+ doc_id +:+ ".pdf");
                    md_publication_date := None |} |}.

Definition small_store (query : string) (k : Z) (filter : option Filter)
  : list Document :=
  firstn (Z.to_nat k)
    match filter with
    | Some _ => [passage "DOC-001" 3 "Epstein flew to Paris."]
    | None => [passage "DOC-001" 3 "Epstein flew to Paris.";
               passage "DOC-002" 1 "The flight log lists two passengers.";
               passage "DOC-001" 3 "He returned on Monday."]
    end.

(** The same passages as a store that hands numbers back as floats has
    them: page [3.0] and page [1.0]. *)
Definition float_passage (doc_id : string) (page : PyFloat) (text : string)
  : Document :=
  {| page_content := text;
     metadata := {| md_document_id := Some doc_id;
                    md_page_number := Some (NFloat page);
                    md_source := Some "DOJ";
                    md_s3_key := Some ("doj/" +:+ doc_id +:+ ".pdf");
                    md_publication_date := None |} |}.

Definition float_store (query : string) (k : Z) (filter : option Filter)
  : list Document :=
  firstn (Z.to_nat k)
    match filter with
    | Some _ => [float_passage "DOC-001" float_3 "Epstein flew to Paris."]
    | None => [float_passage "DOC-001" float_3 "Epstein flew to Paris.";
               float_passage "DOC-002" float_1 "The flight log lists two passengers.";
               float_passage "DOC-001" float_3 "He returned on Monday."]
    end.

(** A scorer for examples: the length of the passage. *)
Definition length_scores (pairs : list (string * string)) : list Z :=
  map (fun p => Z.of_nat (String.length p.2)) pairs.

End Retrieval.

(** ** [generate_presigned_url] *)

Module Links.

(** The S3 collaborator: the client, when one was built, answers
    [generate_presigned_url('get_object', Params={Bucket, Key}, ExpiresIn)]
    with a URL or raises. *)
Record S3 : Type := {
  s3_client : option (string → string → Z → Py.outcome string);
  bucket_name : option string;
}.

Definition generate_presigned_url (s3 : S3) (s3_key : option string) (expiration : Z)
  : Py.outcome string :=
  match s3_client s3, bucket_name s3, s3_key with
  | Some client, Some (String _ _ as bucket), Some (String _ _ as key) =>
      Py.try_except
        (url ← client bucket key expiration;
         mret url)
        (fun _ => mret "N/A")
  | _, _, _ => mret "N/A"
  end.

(** [generate_presigned_url(s3_key) if s3_key else "N/A"] *)
Definition source_url (s3 : S3) (s3_key : option string) : Py.outcome string :=
  if PyStr.truthy s3_key then generate_presigned_url s3 s3_key 3600 else mret "N/A".

(** An S3 collaborator for examples: it signs every key but one, for
    which the call fails. *)
Definition flaky_s3 : S3 :=
  {| s3_client :=
       Some (fun bucket key _ =>
               if String.eqb key "doj/DOC-002.pdf"
               then Py.Raised "ClientError"
               else Py.Returned ("https://" +:+ bucket +:+ ".s3.amazonaws.com/" +:+ key));
     bucket_name := Some "epstein-docs" |}.

End Links.

(** ** [get_docs]: grouping the retrieved passages into document blocks *)

Module Context.

(** An entry of [doc_metadata]. *)
Record DocMeta : Type := {
  source : string;
  document_id : string;
  page : page_value;
  s3_key : option string;
  url : string;
}.

(** [f"{doc_id}_{page_num}"] *)
Definition doc_page_id (doc : Document) : string :=
  get_document_id doc +:+ "_" +:+ str_page (get_page_number doc).

(** [f"{doc_id}, Page {page}"] *)
Definition citation_key (doc_id : string) (page : string) : string :=
  doc_id +:+ ", Page " +:+ page.

(** [doc_groups[key].append(doc)] on a [defaultdict(list)]: a new key goes
    last, a known key keeps its place. *)
Fixpoint group_append (key : string) (doc : Document)
  (doc_groups : list (string * list Document)) : list (string * list Document) :=
  match doc_groups with
  | [] => [(key, [doc])]
  | (k, chunks) :: rest =>
      if String.eqb k key
      then (k, chunks ++ [doc]) :: rest
      else (k, chunks) :: group_append key doc rest
  end.

(** Lines 246-251 *)
Definition doc_groups (docs : list Document) : list (string * list Document) :=
  fold_left (fun groups doc => group_append (doc_page_id doc) doc groups) docs [].

Definition divider : string :=
  PyStr.nl +:+ PyStr.nl +:+ "---" +:+ PyStr.nl +:+ PyStr.nl.

(** Lines 280-289 *)
Definition doc_text (doc_number : Z) (first_chunk : Document) (source_url : string)
  (combined_content : string) : string :=
  "=== DOCUMENT " +:+ PyStr.str_int doc_number +:+ " ===" +:+ PyStr.nl +:+
  "Source: " +:+ get_source first_chunk +:+ PyStr.nl +:+
  "Document ID: " +:+ get_document_id first_chunk +:+ PyStr.nl +:+
  "Page: " +:+ str_page (get_page_number first_chunk) +:+ PyStr.nl +:+
  "Date: " +:+ get_publication_date first_chunk +:+ PyStr.nl +:+
  "Link: " +:+ source_url +:+ PyStr.nl +:+ PyStr.nl +:+
  combined_content +:+ PyStr.nl +:+
  "=== END DOCUMENT " +:+ PyStr.str_int doc_number +:+ " ===".

(** Lines 258-292: the loop over [doc_groups.items()], with its state
    [doc_number], [doc_data] and [doc_metadata]. *)
Fixpoint format_groups (s3 : Links.S3) (groups : list (string * list Document))
  (doc_number : Z) (doc_data : list string) (doc_metadata : gmap string DocMeta)
  : Py.outcome (list string * gmap string DocMeta) :=
  match groups with
  | [] => mret (doc_data, doc_metadata)
  | (_, chunks) :: rest =>
      let combined_content := PyStr.join divider (map page_content chunks) in
      match chunks with
      | [] => Py.Raised "IndexError"
      | first_chunk :: _ =>
          let doc_id := get_document_id first_chunk in
          let page := get_page_number first_chunk in
          let s3_key := md_s3_key (metadata first_chunk) in
          source_url ← Links.source_url s3 s3_key;
          let meta := {| source := get_source first_chunk;
                         document_id := doc_id;
                         page := page;
                         s3_key := s3_key;
                         url := source_url |} in
          format_groups s3 rest (doc_number + 1)
            (doc_data ++ [doc_text doc_number first_chunk source_url combined_content])
            (<[citation_key doc_id (str_page page) := meta]> doc_metadata)
      end
  end.

(** Lines 246-295, from the retrieved [docs] on: the context text and the
    [doc_metadata] it leaves behind for [append_sources]. *)
Definition get_docs (s3 : Links.S3) (docs : list Document)
  : Py.outcome (string * gmap string DocMeta) :=
  '(doc_data, doc_metadata) ← format_groups s3 (doc_groups docs) 1 [] ∅;
  mret (PyStr.join (PyStr.nl +:+ PyStr.nl) doc_data, doc_metadata).

(** The passages whose grouping key is [k], in the order of the list. *)
Definition chunks_of (k : string) (docs : list Document) : list Document :=
  List.filter (fun doc => bool_decide (doc_page_id doc = k)) docs.

(** The pair (document_id, page_number) of a passage, as [get_docs] reads
    it. *)
Definition doc_page (doc : Document) : string * page_value :=
  (get_document_id doc, get_page_number doc).

(** [f"{doc_id}_{page_num}"] of a pair. *)
Definition page_key (pair : string * page_value) : string :=
  pair.1 +:+ "_" +:+ str_page pair.2.

(** The distinct items of a list, in the order of their first occurrence. *)
Fixpoint first_seen {K : Type} `{EqDecision K} (l : list K) : list K :=
  match l with
  | [] => []
  | x :: l' => x :: List.filter (fun y => bool_decide (y ≠ x)) (first_seen l')
  end.

(** The passages of one document page, in the order of the list. *)
Definition members (key : string * page_value) (docs : list Document)
  : list Document :=
  List.filter (fun doc => bool_decide (doc_page doc = key)) docs.

(** [blocks_of s3 n groups blocks]: [blocks] are the document blocks of
    [groups], numbered from [n] on, each with the metadata of the first
    passage of its group, the link resolved for it and the texts of the
    group joined by the divider. *)
Inductive blocks_of (s3 : Links.S3) : Z → list (list Document) → list string → Prop :=
| blocks_nil (n : Z) : blocks_of s3 n [] []
| blocks_cons (n : Z) (first_chunk : Document) (chunks : list Document)
    (link : string) (groups : list (list Document)) (blocks : list string) :
    Links.source_url s3 (md_s3_key (metadata first_chunk)) = Py.Returned link →
    blocks_of s3 (n + 1) groups blocks →
    blocks_of s3 n ((first_chunk :: chunks) :: groups)
      (doc_text n first_chunk link
         (PyStr.join divider (map page_content (first_chunk :: chunks))) :: blocks).

End Context.

(** ** The citation pattern and [append_sources] *)

Module Regex.

(** A backtracking matcher in continuation-passing style: an item consumes
    a prefix of the input and hands the rest to the items after it; when
    they fail, a greedy repetition gives back one character and retries. *)

Definition lit {R : Type} (c : ascii) (s : string) (k : string → option R)
  : option R :=
  match s with
  | String c' s' => if Ascii.eqb c' c then k s' else None
  | EmptyString => None
  end.

(** [taken] is what the repetition has consumed so far. *)
Fixpoint star_from {R : Type} (p : ascii → bool) (taken : string) (s : string)
  (k : string → string → option R) : option R :=
  match s with
  | String c s' =>
      if p c then
        match star_from p (taken +:+ String c "") s' k with
        | Some r => Some r
        | None => k taken s
        end
      else k taken s
  | EmptyString => k taken s
  end.

(** [[p]*] *)
Definition star {R : Type} (p : ascii → bool) (s : string)
  (k : string → string → option R) : option R :=
  star_from p "" s k.

(** [[p]+] *)
Definition plus {R : Type} (p : ascii → bool) (s : string)
  (k : string → string → option R) : option R :=
  star p s (fun taken rest =>
    match taken with
    | EmptyString => None
    | _ => k taken rest
    end).

(** [[A-Z0-9\-_]] *)
Definition is_id_char (c : ascii) : bool :=
  PyStr.between 65 90 c || PyStr.between 48 57 c
  || (PyStr.code c =? 45)%nat || (PyStr.code c =? 95)%nat.

(** [[^\)]] *)
Definition not_rparen (c : ascii) : bool := negb (Ascii.eqb c ")").

(** [\(([A-Z0-9\-_]+),\s*Page\s+([^\)]+)\)] tried at the start of [s]:
    the two groups and the input left after the match. *)
Definition citation_pattern (s : string) : option (string * string * string) :=
  lit "(" s (fun s =>
  plus is_id_char s (fun doc_id s =>
  lit "," s (fun s =>
  star PyStr.is_space s (fun _ s =>
  lit "P" s (fun s => lit "a" s (fun s => lit "g" s (fun s => lit "e" s (fun s =>
  plus PyStr.is_space s (fun _ s =>
  plus not_rparen s (fun page s =>
  lit ")" s (fun rest =>
  Some (doc_id, page, rest)))))))))))).

(** [re.findall]: scan from the left; after a match go on behind it,
    otherwise one character further. *)
Fixpoint findall_fuel (fuel : nat) (s : string) : list (string * string) :=
  match fuel with
  | O => []
  | S fuel' =>
      match citation_pattern s with
      | Some (doc_id, page, rest) => (doc_id, page) :: findall_fuel fuel' rest
      | None =>
          match s with
          | EmptyString => []
          | String _ s' => findall_fuel fuel' s'
          end
      end
  end.

Definition findall (s : string) : list (string * string) :=
  findall_fuel (S (String.length s)) s.

(** The text of a citation marker with its two stretches of white space:
    [(doc_id,<ws1>Page<ws2>page)]. *)
Definition marker (doc_id ws1 ws2 page : string) : string :=
  "(" +:+ doc_id +:+ "," +:+ ws1 +:+ "Page" +:+ ws2 +:+ page +:+ ")".

(** [m] is a marker with the groups [doc_id] and [page], in the words of
    the pattern. *)
Definition is_marker (m doc_id page : string) : Prop :=
  ∃ ws1 ws2,
    m = marker doc_id ws1 ws2 page
    ∧ PyStr.all_chars is_id_char doc_id = true ∧ doc_id ≠ ""
    ∧ PyStr.all_chars PyStr.is_space ws1 = true
    ∧ PyStr.all_chars PyStr.is_space ws2 = true ∧ ws2 ≠ ""
    ∧ PyStr.all_chars not_rparen page = true ∧ page ≠ "".

(** [m] occurs in [text]. *)
Definition occurs_in (m text : string) : Prop :=
  ∃ before after, text = before +:+ m +:+ after.

Definition has_marker (text : string) : Prop :=
  ∃ m doc_id page, occurs_in m text ∧ is_marker m doc_id page.

End Regex.

Module Citations.

Import Context.

(** Lines 316-322 *)
Definition unique_citations (citations : list (string * string)) : list string :=
  snd (fold_left
         (fun '(seen, unique) '(doc_id, page) =>
            let key := citation_key doc_id page in
            if bool_decide (key ∈ (seen : gset string))
            then (seen, unique)
            else ({[key]} ∪ seen, unique ++ [key]))
         citations (∅, [])).

Definition sources_header : string :=
  PyStr.nl +:+ PyStr.nl +:+ "---" +:+ PyStr.nl +:+ PyStr.nl +:+
  "**Sources:**" +:+ PyStr.nl +:+ PyStr.nl.

(** Lines 329-340: what one resolved citation adds to [sources_text]. *)
Definition source_line (meta : DocMeta) : string :=
  let page_text :=
    match page meta with
    | PageNA => ""
    | p => ", Page " +:+ str_page p
    end in
  "- **" +:+ document_id meta +:+ page_text +:+ " - " +:+ source meta +:+ "**" +:+
  (match url meta with
   | EmptyString => ""
   | u => if String.eqb u "N/A" then "" else " - [View Document](" +:+ u +:+ ")"
   end) +:+
  PyStr.nl.

(** Lines 301-342: the augmented answer and [citations_metadata]. *)
Definition append_sources (doc_metadata : gmap string DocMeta) (llm_answer : string)
  : string * gmap string string :=
  let citations := Regex.findall llm_answer in
  match citations with
  | [] => (llm_answer, ∅)
  | _ :: _ =>
      let '(sources_text, citations_metadata) :=
        fold_left
          (fun '(sources_text, citations_metadata) key =>
             match doc_metadata !! key with
             | Some meta =>
                 (sources_text +:+ source_line meta,
                  <[key := url meta]> citations_metadata)
             | None => (sources_text, citations_metadata)
             end)
          (unique_citations citations) (sources_header, ∅) in
      (llm_answer +:+ sources_text, citations_metadata)
  end.

(** The citation key of a match of the pattern. *)
Definition key_of (found : string * string) : string :=
  citation_key found.1 found.2.

(** The entries of the Sources section for the keys [keys]: those the index
    knows, in the order of [keys], each with its metadata. *)
Definition listed (doc_metadata : gmap string DocMeta) (keys : list string)
  : list (string * DocMeta) :=
  omap (fun key => (fun meta => (key, meta)) <$> doc_metadata !! key) keys.

(** The lines of the Sources section. *)
Definition lines_text (entries : list (string * DocMeta)) : string :=
  foldr (fun entry text => source_line entry.2 +:+ text) "" entries.

(** An index for examples, with the one page [A, Page 1]. *)
Definition small_index : gmap string DocMeta :=
  {[ "A, Page 1" := {| source := "DOJ"; document_id := "A"; page := PageNumber (NInt 1);
                       s3_key := None; url := "N/A" |} ]}.

End Citations.

(** ** The session store *)

Module Sessions.

Record Message : Type := { role : string; content : string }.

(** [message_store]: session id to the messages of its history, in the
    order the sessions were inserted. *)
Definition Store : Type := list (string * list Message).

Definition MAX_SESSIONS : nat := 50.

(** [session_id in message_store] *)
Definition has_session (session_id : string) (message_store : Store) : bool :=
  existsb (String.eqb session_id) (map fst message_store).

(** [message_store[session_id]] *)
Fixpoint messages_of (session_id : string) (message_store : Store)
  : option (list Message) :=
  match message_store with
  | [] => None
  | (k, msgs) :: rest =>
      if String.eqb k session_id then Some msgs else messages_of session_id rest
  end.

(** Assignment to the messages of an existing session: its place is kept. *)
Fixpoint set_messages (session_id : string) (msgs : list Message)
  (message_store : Store) : Store :=
  match message_store with
  | [] => []
  | (k, old) :: rest =>
      if String.eqb k session_id
      then (k, msgs) :: rest
      else (k, old) :: set_messages session_id msgs rest
  end.

(** Lines 357-361: the eviction loop; [next(iter(message_store))] is the
    first entry. *)
Fixpoint evict (session_id : string) (message_store : Store) (sessions_deleted : nat)
  : Store * nat :=
  match message_store with
  | [] => (message_store, sessions_deleted)
  | _oldest_session :: rest =>
      if negb (has_session session_id message_store)
         && (MAX_SESSIONS <=? length message_store)%nat
      then evict session_id rest (S sessions_deleted)
      else (message_store, sessions_deleted)
  end.

(** Lines 354-381: the store afterwards, the messages of the returned
    history and the number of sessions deleted by this call. *)
Definition get_session_history (session_id : string) (message_store : Store)
  : Store * list Message * nat :=
  let '(message_store, sessions_deleted) := evict session_id message_store 0 in
  let message_store :=
    if has_session session_id message_store
    then message_store
    else message_store ++ [(session_id, [])] in
  let history := default [] (messages_of session_id message_store) in
  let history := PyStr.last_items 4 history in
  (set_messages session_id history message_store, history, sessions_deleted).

(** [history.add_message(m)] on the history object a call returned, which
    is the one the store holds: [self.messages.append(m)]. *)
Definition add_message (session_id : string) (m : Message) (message_store : Store)
  : Store :=
  match messages_of session_id message_store with
  | Some msgs => set_messages session_id (msgs ++ [m]) message_store
  | None => message_store
  end.

Definition human (text : string) : Message := {| role := "human"; content := text |}.
Definition ai (text : string) : Message := {| role := "ai"; content := text |}.

(** One turn of the wrapped chain: fetch the history, then record the
    user's message and the answer. *)
Definition turn (session_id : string) (user assistant : string)
  (message_store : Store) : Store :=
  let '(message_store, _, _) := get_session_history session_id message_store in
  add_message session_id (ai assistant)
    (add_message session_id (human user) message_store).

(** Sessions requested one after the other, with the deletions counted. *)
Fixpoint use_sessions (session_ids : list string) (message_store : Store)
  (deleted : nat) : Store * nat :=
  match session_ids with
  | [] => (message_store, deleted)
  | sid :: rest =>
      let '(message_store, _, n) := get_session_history sid message_store in
      use_sessions rest message_store (deleted + n)
  end.

(** A store of sessions that hold no message yet. *)
Definition fresh (session_ids : list string) : Store :=
  map (fun sid => (sid, [])) session_ids.

(** The stores the chain can be in: it starts empty, and is only changed by
    fetching a history and by appending to one. *)
Inductive reachable : Store → Prop :=
| reach_empty : reachable []
| reach_get (sid : string) (store : Store) :
    reachable store → reachable (get_session_history sid store).1.1
| reach_add (sid : string) (m : Message) (store : Store) :
    reachable store → reachable (add_message sid m store).

(** Session ids [s1], [s2], ..., [sn]. *)
Definition numbered_sessions (n : nat) : list string :=
  map (fun i => "s" +:+ PyStr.str_int (Z.of_nat i)) (seq 1 n).

End Sessions.

(** ** More vocabulary for the citation pattern *)

Module Markers.

(** [[^(]] *)
Definition not_lparen (c : ascii) : bool := negb (Ascii.eqb c "(").

Definition not_comma (c : ascii) : bool := negb (Ascii.eqb c ",").

(** The first character, if any, is outside the class [p]. *)
Definition stops (p : ascii → bool) (s : string) : Prop :=
  match s with
  | EmptyString => True
  | String c _ => p c = false
  end.

(** The part of a string before its first comma; all of it if it has
    none. *)
Fixpoint before_comma (s : string) : string :=
  match s with
  | EmptyString => EmptyString
  | String c s' => if Ascii.eqb c "," then EmptyString else String c (before_comma s')
  end.

(** A document id the pattern can read: one or more of [A-Z0-9-_]. *)
Definition citable_id (doc_id : string) : Prop :=
  PyStr.all_chars Regex.is_id_char doc_id = true ∧ doc_id ≠ "".

(** The marker the prompt asks the model to write for a key:
    [(doc_id, Page page)]. *)
Definition marker_of (doc_id page : string) : string :=
  "(" +:+ Context.citation_key doc_id page +:+ ")".

End Markers.

(** ** Vocabulary for the citation index *)

Module Index.

(** The key under which [get_docs] files the group of a passage. *)
Definition key_of_chunk (doc : Document) : string :=
  Context.citation_key (get_document_id doc) (str_page (get_page_number doc)).

(** The key of a document page. *)
Definition key_of_page (pair : string * page_value) : string :=
  Context.citation_key pair.1 (str_page pair.2).

(** The key of a group: that of its first passage. *)
Definition group_key (chunks : list Document) : string :=
  match chunks with
  | first_chunk :: _ => key_of_chunk first_chunk
  | [] => ""
  end.

(** The entry [get_docs] writes for a group whose first passage is
    [first_chunk] and whose link resolved to [link]. *)
Definition entry_of (first_chunk : Document) (link : string) : Context.DocMeta :=
  {| Context.source := get_source first_chunk;
     Context.document_id := get_document_id first_chunk;
     Context.page := get_page_number first_chunk;
     Context.s3_key := md_s3_key (metadata first_chunk);
     Context.url := link |}.

End Index.

(** ** [api.py]: the [/chat] endpoint *)

Module Api.

Record ChatRequest : Type := { message : string; session_id : string }.

(** What one run of the chain leaves behind: the answer, the
    [citations_metadata] it filled and the token counts of the callback. *)
Record Run : Type := {
  run_answer : string;
  run_citations : gmap string string;
  run_total_tokens : Z;
  run_prompt_tokens : Z;
  run_completion_tokens : Z;
}.

(** [rag_chain.invoke({"input": message}, config={... session_id})] *)
Definition Chain : Type := string → string → Py.outcome Run.

Record ChatResponse : Type := {
  answer : string;
  citations : gmap string string;
  tokens_used : Z;
  prompt_tokens : Z;
  completion_tokens : Z;
  response_session_id : string;
}.

(** The request as it reaches the server: the [message] and [session_id]
    of its body and its [X-API-Key] header, each given or not, and the
    address it comes from. *)
Record Incoming : Type := {
  body_message : option string;
  body_session_id : option string;
  header_x_api_key : option string;
  remote_address : string;
}.

(** A reply is the response of the function, an [HTTPException] it raised,
    or a refusal by what runs before it: 422 from the validation of the
    request, 429 from the handler of [RateLimitExceeded]. *)
Inductive Reply : Type :=
| Replied (response : ChatResponse)
| HTTPException (status_code : Z) (detail : string)
| Refused (status_code : Z).

(** Lines 37-39 and 115-116: the body must give a [message] of 1 to 2000
    characters, [session_id] defaults to ["default"], and the header is
    required. *)
Definition validate (incoming : Incoming) : option (ChatRequest * string) :=
  match body_message incoming, header_x_api_key incoming with
  | Some message, Some x_api_key =>
      if (1 <=? String.length message) && (String.length message <=? 2000)
      then Some ({| message := message;
                    session_id := default "default" (body_session_id incoming) |},
                 x_api_key)
      else None
  | _, _ => None
  end.

(** Lines 110-111 *)
Definition rate_limits : list string := ["300/hour"; "10/minute"].

(** Lines 123-154, the body of the function: the reply, and the
    invocations of the chain it made. [expected_key] is
    [os.getenv("BACKEND_API_KEY")]; [rag_chain] is [None] until the startup
    event has run. *)
Definition chat_body (expected_key : option string) (rag_chain : option Chain)
  (x_api_key : string) (chat_request : ChatRequest)
  : Reply * list (string * string) :=
  match expected_key with
  | Some (String _ _ as expected) =>
      if negb (String.eqb x_api_key expected)
      then (HTTPException 403 "Invalid API key", [])
      else
        match rag_chain with
        | None => (HTTPException 503 "RAG chain not initialized", [])
        | Some chain =>
            let invoked := [(message chat_request, session_id chat_request)] in
            match chain (message chat_request) (session_id chat_request) with
            | Py.Returned run =>
                (Replied {| answer := run_answer run;
                            citations := run_citations run;
                            tokens_used := run_total_tokens run;
                            prompt_tokens := run_prompt_tokens run;
                            completion_tokens := run_completion_tokens run;
                            response_session_id := session_id chat_request |},
                 invoked)
            | Py.Raised e =>
                (HTTPException 500 ("Error processing request: " +:+ e), invoked)
            end
        end
  | _ => (HTTPException 500 "Server configuration error", [])
  end.

(** Lines 109-154, the endpoint: the function is called with a validated
    request, and its decorators ask the limiter first. [limiter] is
    slowapi's verdict on a request from an address under the limits given;
    its counters are the library's. *)
Definition chat (limiter : list string → string → bool)
  (expected_key : option string) (rag_chain : option Chain) (incoming : Incoming)
  : Reply * list (string * string) :=
  match validate incoming with
  | None => (Refused 422, [])
  | Some (chat_request, x_api_key) =>
      if limiter rate_limits (remote_address incoming)
      then chat_body expected_key rag_chain x_api_key chat_request
      else (Refused 429, [])
  end.

(** A limiter for examples: one address has used up its requests. *)
Definition busy_limiter (limits : list string) (address : string) : bool :=
  negb (String.eqb address "203.0.113.7").

(** A chain for examples: it answers every message. *)
Definition echo_chain : Chain :=
  fun message _ =>
    Py.Returned {| run_answer := message; run_citations := ∅;
                   run_total_tokens := 0; run_prompt_tokens := 0;
                   run_completion_tokens := 0 |}.

End Api.

(** ** [pathlib.Path] on POSIX paths, as far as the scripts use it *)

Module Paths.

(** [s.split(c)] *)
Fixpoint split (c : ascii) (s : string) : list string :=
  match s with
  | EmptyString => [""]
  | String x s' =>
      if Ascii.eqb x c then "" :: split c s'
      else
        match split c s' with
        | part :: parts => String x part :: parts
        | [] => [String x ""]
        end
  end.

(** The components of a path: empty ones and ["."] are dropped. *)
Definition parts (path : string) : list string :=
  List.filter (fun x => negb (String.eqb x "") && negb (String.eqb x "."))
    (split "/" path).

(** [Path(path).name]: the last component, [''] when there is none. *)
Definition name (path : string) : string := List.last (parts path) "".

(** [s.rfind('.')]: the index of the last dot. *)
Fixpoint rfind_dot (s : string) : option nat :=
  match s with
  | EmptyString => None
  | String x s' =>
      match rfind_dot s' with
      | Some i => Some (S i)
      | None => if Ascii.eqb x "." then Some 0 else None
      end
  end.

(** [0 < i < len(name) - 1] for the last dot [i] of [name]. *)
Definition suffix_at (name : string) : option nat :=
  match rfind_dot name with
  | Some i =>
      if (0 <? i) && (i + 1 <? String.length name) then Some i else None
  | None => None
  end.

(** [Path(path).suffix] *)
Definition suffix (path : string) : string :=
  let name := name path in
  match suffix_at name with
  | Some i => String.substring i (String.length name - i) name
  | None => ""
  end.

(** [Path(path).stem] *)
Definition stem (path : string) : string :=
  let name := name path in
  match suffix_at name with
  | Some i => String.substring 0 i name
  | None => name
  end.

Definition not_slash (c : ascii) : bool := negb (Ascii.eqb c "/").

(** [s.endswith(suffix)] *)
Definition ends_with (suffix s : string) : bool :=
  (String.length suffix <=? String.length s)
  && String.eqb
       (String.substring (String.length s - String.length suffix)
          (String.length suffix) s)
       suffix.

End Paths.

(** ** [s3/GoogleDrive/OrganizeS3Data.py] and [s3/DOJ/OrganizeDataDOJ.py] *)

Module Organize.

Definition categories : list string :=
  ["images"; "pdfs"; "videos"; "documents"; "other"].

Definition image_extensions : list string :=
  [".jpg"; ".jpeg"; ".png"; ".gif"; ".bmp"; ".tiff"; ".webp"].
Definition pdf_extensions : list string := [".pdf"].
Definition video_extensions : list string :=
  [".mp4"; ".avi"; ".mov"; ".wmv"; ".flv"; ".mkv"].
Definition doc_extensions : list string :=
  [".doc"; ".docx"; ".txt"; ".rtf"; ".odt"; ".csv"; ".xls"; ".xlsx"].

(** [get_file_type], the same in both scripts. *)
Definition get_file_type (filename : string) : string :=
  let extension := PyStr.lower (Paths.suffix filename) in
  if bool_decide (extension ∈ image_extensions) then "images"
  else if bool_decide (extension ∈ pdf_extensions) then "pdfs"
  else if bool_decide (extension ∈ video_extensions) then "videos"
  else if bool_decide (extension ∈ doc_extensions) then "documents"
  else "other".

(** [OrganizeS3Data.process_file], lines 59-63: the key a file is copied
    to. *)
Definition new_s3_key (organized_prefix s3_key : string) : string :=
  let filename := Paths.name s3_key in
  let category := get_file_type filename in
  organized_prefix +:+ category +:+ "/" +:+ filename.

(** [OrganizeS3Data.get_all_files_in_prefix], lines 91-102. A page of the
    listing has its ['Contents'] or lacks the key. *)
Definition get_all_files_in_prefix (organized_prefix : string)
  (pages : list (option (list string))) : list string :=
  fold_left
    (fun files page =>
       match page with
       | Some contents =>
           fold_left
             (fun files key =>
                if negb (PyStr.contains organized_prefix key)
                then files ++ [key] else files)
             contents files
       | None => files
       end)
    pages [].

(** [OrganizeDataDOJ.process_file], lines 48-57: the key a member of the
    zip of data set [dataset_num] is uploaded to; a directory is skipped. *)
Definition doj_s3_key (dataset_num : Z) (file_path : string) : option string :=
  if Paths.ends_with "/" file_path then None
  else
    let category := get_file_type file_path in
    let filename := Paths.name file_path in
    Some ("organized/" +:+ category +:+ "/dataset" +:+ PyStr.str_int dataset_num
          +:+ "_" +:+ filename).

(** The keys of a listing: the ['Contents'] of its pages, in order. *)
Definition listed_keys (pages : list (option (list string))) : list string :=
  concat (map (default []) pages).

End Organize.

(** ** [VectorStore/ingest_pdfs.py] *)

Module Ingest.

(** [\d] on the code points below 256. *)
Definition is_digit (c : ascii) : bool := PyStr.between 48 57 c.

(** [\d{n}] at the start of [s]: the digits and the rest. *)
Fixpoint digits (n : nat) (s : string) : option (string * string) :=
  match n with
  | O => Some ("", s)
  | S n' =>
      match s with
      | String c s' =>
          if is_digit c then
            match digits n' s' with
            | Some (d, rest) => Some (String c d, rest)
            | None => None
            end
          else None
      | EmptyString => None
      end
  end.

(** [[-_]] at the start of [s]. *)
Definition separator (s : string) : option string :=
  match s with
  | String c s' => if Ascii.eqb c "-" || Ascii.eqb c "_" then Some s' else None
  | EmptyString => None
  end.

(** [(\d{4})[-_](\d{2})[-_](\d{2})] at the start of [s]: groups 1 and 2. *)
Definition dashed_date (s : string) : option (string * string) :=
  '(year, s) ← digits 4 s;
  s ← separator s;
  '(month, s) ← digits 2 s;
  s ← separator s;
  '(_, _) ← digits 2 s;
  Some (year, month).

(** [(\d{4})(\d{2})(\d{2})] at the start of [s]: groups 1 and 2. *)
Definition compact_date (s : string) : option (string * string) :=
  '(year, s) ← digits 4 s;
  '(month, s) ← digits 2 s;
  '(_, _) ← digits 2 s;
  Some (year, month).

(** [(19\d{2}|20\d{2})] at the start of [s]. *)
Definition year_only (s : string) : option string :=
  match s with
  | String "1" (String "9" s') =>
      '(d, _) ← digits 2 s'; Some ("19" +:+ d)
  | String "2" (String "0" s') =>
      '(d, _) ← digits 2 s'; Some ("20" +:+ d)
  | _ => None
  end.

(** [re.search]: the match at the leftmost position that has one. *)
Fixpoint search {A : Type} (pattern : string → option A) (s : string) : option A :=
  match pattern s with
  | Some found => Some found
  | None =>
      match s with
      | EmptyString => None
      | String _ s' => search pattern s'
      end
  end.

Definition extract_date_from_filename (filename : string) : option string :=
  match search dashed_date filename with
  | Some (year, month) => Some (year +:+ "-" +:+ month)
  | None =>
      match search compact_date filename with
      | Some (year, month) => Some (year +:+ "-" +:+ month)
      | None =>
          match search year_only filename with
          | Some year => Some year
          | None => None
          end
      end
  end.

(** [process_pdf], line 114: [document_id = Path(s3_key).stem], the same
    in the image and text pipelines. *)
Definition document_id_of (s3_key : string) : string := Paths.stem s3_key.

(** A PDF as [pdfplumber] shows it: opening it gives the pages or raises;
    [extract_text] of a page gives a text, [None], or raises. *)
Definition Pdf : Type := Py.outcome (list (Py.outcome (option string))).

Record PageData : Type := {
  text : string;
  page_number : Z;
  total_pages : Z;
}.

(** [if text and text.strip()] *)
Definition has_text (text : option string) : bool :=
  match text with
  | Some t => PyStr.truthy (Some t) && PyStr.truthy (Some (PyStr.strip t))
  | None => false
  end.

(** Lines 88-96 under the [try] of line 84: an exception ends the loop and
    what was collected is returned. *)
Fixpoint pages_loop (total_pages page_num : Z)
  (pages : list (Py.outcome (option string))) (pages_data : list PageData)
  : list PageData :=
  match pages with
  | [] => pages_data
  | Py.Raised _ :: _ => pages_data
  | Py.Returned extracted :: rest =>
      pages_loop total_pages (page_num + 1) rest
        (if has_text extracted
         then pages_data ++ [{| text := default "" extracted;
                                page_number := page_num;
                                total_pages := total_pages |}]
         else pages_data)
  end.

Definition extract_text_from_pdf (pdf : Pdf) : list PageData :=
  match pdf with
  | Py.Returned pages => pages_loop (Z.of_nat (length pages)) 1 pages []
  | Py.Raised _ => []
  end.

(** The pages read before the first one whose extraction raises. *)
Fixpoint before_failure (pages : list (Py.outcome (option string)))
  : list (option string) :=
  match pages with
  | Py.Returned extracted :: rest => extracted :: before_failure rest
  | _ => []
  end.

(** [l[:n]] *)
Definition slice_to {A : Type} (n : Z) (l : list A) : list A :=
  if (0 <=? n)%Z then firstn (Z.to_nat n) l
  else firstn (Z.to_nat (Z.of_nat (length l) + n)) l.

(** [ingest_from_s3], lines 180-188: the keys of the PDFs to process. *)
Definition pdf_keys (pages : list (option (list string))) (limit : option Z)
  : list string :=
  let pdf_keys :=
    fold_left
      (fun pdf_keys page =>
         match page with
         | Some contents =>
             fold_left
               (fun pdf_keys key =>
                  if Paths.ends_with ".pdf" (PyStr.lower key)
                  then pdf_keys ++ [key] else pdf_keys)
               contents pdf_keys
         | None => pdf_keys
         end)
      pages [] in
  match limit with
  | Some n => if (n =? 0)%Z then pdf_keys else slice_to n pdf_keys
  | None => pdf_keys
  end.

End Ingest.

(** ** [VectorStore/chunking.py] *)

Module Chunking.

(** The values the metadata of a chunk holds. *)
Inductive Value : Type :=
| VStr (s : string)
| VInt (n : Z)
| VStrs (l : list string).

#[global] Instance value_eq_dec : EqDecision Value.
Proof. solve_decision. Defined.

(** A chunk: [{"text": ..., "metadata": {...}}]. *)
Record Chunk : Type := {
  chunk_text_of : string;
  chunk_metadata : gmap string Value;
}.

Section Chunker.

(** [self.chunk_size], [self.splitter.split_text] and [self.nlp]. *)
Variable chunk_size : Z.
Variable split_text : string → list string.
Variable nlp : string → list Entities.Ent.

(** Lines 29-41. For the empty text the code returns an empty dict, which
    its callers only iterate and test for emptiness, like the empty list. *)
Definition extract_entities (text : string) : list string :=
  match text with
  | EmptyString => []
  | _ =>
      fold_left
        (fun entities ent => entities ++ [PyStr.strip (Entities.ent_text ent)])
        (nlp text) []
  end.

(** The [update] of lines 67-72 and 111-116. *)
Definition with_chunk_fields (idx : Z) (chunk : string) (total_chunks : Z)
  (metadata : gmap string Value) : gmap string Value :=
  <["entities" := VStrs (map PyStr.lower (extract_entities chunk))]>
    (<["total_chunks" := VInt total_chunks]>
       (<["text_length" := VInt (Z.of_nat (String.length chunk))]>
          (<["chunk_index" := VInt idx]> metadata))).

(** Lines 43-84 *)
Definition chunk_text (text : string) (metadata : option (gmap string Value))
  : list Chunk :=
  if negb (PyStr.truthy (Some text)) || negb (PyStr.truthy (Some (PyStr.strip text)))
  then []
  else
    let chunks := split_text text in
    imap
      (fun idx chunk =>
         {| chunk_text_of := chunk;
            chunk_metadata :=
              with_chunk_fields (Z.of_nat idx) chunk (Z.of_nat (length chunks))
                (default ∅ metadata) |})
      chunks.

(** Lines 86-124 *)
Definition chunk_page (page_text : string) (page_number : Z)
  (base_metadata : option (gmap string Value)) : list Chunk :=
  let metadata := <["page_number" := VInt page_number]> (default ∅ base_metadata) in
  let total_pages := default (VInt 1) (base_metadata ≫= lookup "total_pages") in
  if bool_decide (total_pages = VInt 1)
     && (Z.of_nat (String.length page_text) <=? chunk_size * 2)%Z
  then [ {| chunk_text_of := page_text;
            chunk_metadata := with_chunk_fields 0 page_text 1 metadata |} ]
  else chunk_text page_text (Some metadata).

End Chunker.

(** The keys [chunk_page] writes. *)
Definition chunk_fields : list string :=
  ["page_number"; "chunk_index"; "text_length"; "total_chunks"; "entities"].

(** A tagger for examples: it finds nothing. *)
Definition no_entities (text : string) : list Entities.Ent := [].

(** A splitter for examples: the lines of the text. *)
Definition split_lines (text : string) : list string :=
  List.filter (fun line => negb (String.eqb line ""))
    (Paths.split (ascii_of_nat 10) text).

End Chunking.

(** ** [VectorStore/upload_text.py] *)

Module Upload.

Import Chunking.

(** One call of [vector_db.add_documents(documents, ids=ids)]. *)
Record AddCall : Type := {
  documents : list (string * gmap string Value);
  ids : list string;
}.

Section Uploader.

(** How an f-string prints a metadata value, [hashlib.md5(...).hexdigest()]
    of the UTF-8 bytes of a text, and the vector store. *)
Variable format_value : Value → string.
Variable md5_hexdigest : string → string.
Variable add_documents : AddCall → Py.outcome unit.

(** Line 20 *)
Definition unique_input (s3_key : string) (page_number : Value) (chunk_text : string)
  : string :=
  s3_key +:+ "_p" +:+ format_value page_number +:+ "_" +:+ chunk_text.

Definition generate_id (s3_key : string) (page_number : Value) (chunk_text : string)
  : string :=
  md5_hexdigest (unique_input s3_key page_number chunk_text).

(** Lines 48-51: [chunk["metadata"]["page_number"]] raises [KeyError] for a
    chunk without page number. *)
Fixpoint chunk_ids (s3_key : string) (chunks : list Chunk) : Py.outcome (list string) :=
  match chunks with
  | [] => mret []
  | chunk :: rest =>
      match chunk_metadata chunk !! "page_number" with
      | Some page_number =>
          ids ← chunk_ids s3_key rest;
          mret (generate_id s3_key page_number (chunk_text_of chunk) :: ids)
      | None => Py.Raised "KeyError: 'page_number'"
      end
  end.

(** Lines 23-56: what the call returns or raises, and the calls of
    [add_documents] it made. *)
Definition upload_chunks_to_chroma (chunks : list Chunk) (s3_key : string)
  : Py.outcome Z * list AddCall :=
  match chunks with
  | [] => (mret 0%Z, [])
  | _ :: _ =>
      let documents := map (fun c => (chunk_text_of c, chunk_metadata c)) chunks in
      match chunk_ids s3_key chunks with
      | Py.Raised e => (Py.Raised e, [])
      | Py.Returned ids =>
          let call := {| documents := documents; ids := ids |} in
          match add_documents call with
          | Py.Returned _ => (mret (Z.of_nat (length chunks)), [call])
          | Py.Raised e => (Py.Raised e, [call])
          end
      end
  end.

End Uploader.

(** Formatting for examples: a string as it is, an int in decimal, a list
    by its length. *)
Definition format_simple (v : Value) : string :=
  match v with
  | VStr s => s
  | VInt n => PyStr.str_int n
  | VStrs l => "list of " +:+ PyStr.str_int (Z.of_nat (length l))
  end.

End Upload.

(** ** [VectorStore/ingest_pdfs.py]: one PDF from the bucket to the store *)

Module Pdfs.

Import Chunking Upload.

Section Pipeline.

(** [self.source_dict], the chunker of line 67 with its splitter and
    tagger, and the vector store with its ids. *)
Variable source_dict : gmap string string.
Variable split_text : string → list string.
Variable nlp : string → list Entities.Ent.
Variable format_value : Value → string.
Variable md5_hexdigest : string → string.
Variable add_documents : AddCall → Py.outcome unit.

(** Lines 132-139 *)
Definition base_metadata_of (s3_key source_name : string) (total_pages : Z)
  : gmap string Value :=
  let document_id := Ingest.document_id_of s3_key in
  let file_name := Paths.name s3_key in
  let publication_date := Ingest.extract_date_from_filename file_name in
  <["publication_date" :=
      VStr (if PyStr.truthy publication_date then default "" publication_date
            else "Unknown")]>
    (<["total_pages" := VInt total_pages]>
       (<["file_name" := VStr file_name]>
          (<["s3_key" := VStr s3_key]>
             (<["source" := VStr source_name]>
                (<["document_id" := VStr document_id]> ∅))))).

(** Lines 142-148 *)
Definition all_chunks_of (base_metadata : gmap string Value)
  (pages_data : list Ingest.PageData) : list Chunk :=
  fold_left
    (fun all_chunks page_data =>
       all_chunks
       ++ chunk_page 1024 split_text nlp (Ingest.text page_data)
            (Ingest.page_number page_data) (Some base_metadata))
    pages_data [].

(** [process_pdf], lines 103-162: what it returns and the calls of
    [add_documents] it made. [download] is the object read from the bucket
    and opened, or the exception of [get_object]; every exception under
    the [try] of line 117 makes the result 0. *)
Definition process_pdf (download : Py.outcome Ingest.Pdf) (s3_key source : string)
  : Z * list AddCall :=
  match download with
  | Py.Raised _ => (0%Z, [])
  | Py.Returned pdf =>
      match Ingest.extract_text_from_pdf pdf with
      | [] => (0%Z, [])
      | (first_page :: _) as pages_data =>
          match source_dict !! source with
          | None => (0%Z, [])
          | Some source_name =>
              let base_metadata :=
                base_metadata_of s3_key source_name (Ingest.total_pages first_page) in
              match all_chunks_of base_metadata pages_data with
              | [] => (0%Z, [])
              | (_ :: _) as all_chunks =>
                  match upload_chunks_to_chroma format_value md5_hexdigest
                          add_documents all_chunks s3_key with
                  | (Py.Returned chunks_added, calls) => (chunks_added, calls)
                  | (Py.Raised _, calls) => (0%Z, calls)
                  end
              end
          end
      end
  end.

(** [ingest_text.py], lines 34-56, and [ingest_images.py], lines 36-61:
    the stripped text, or [''] when decoding or OCR raises. *)
Definition extract_text (decoded : Py.outcome string) : string :=
  match decoded with
  | Py.Returned text => PyStr.strip text
  | Py.Raised _ => ""
  end.

(** Lines 84-92 of [ingest_text.py] and 91-99 of [ingest_images.py] *)
Definition page_metadata_of (document_type s3_key source_name : string)
  (publication_date : option string) : gmap string Value :=
  <["publication_date" :=
      VStr (if PyStr.truthy publication_date then default "" publication_date
            else "Unknown")]>
    (<["total_pages" := VInt 1]>
       (<["document_type" := VStr document_type]>
          (<["file_name" := VStr (Paths.name s3_key)]>
             (<["s3_key" := VStr s3_key]>
                (<["source" := VStr source_name]>
                   (<["document_id" := VStr (Ingest.document_id_of s3_key)]> ∅)))))).

(** [process_text] and [process_image], which differ in the extraction
    and in [document_type]. [download] is the object read from the bucket
    and decoded or read by OCR, or the exception of [get_object]. *)
Definition process_page (document_type : string)
  (download : Py.outcome (Py.outcome string)) (s3_key source : string)
  : Z * list AddCall :=
  match download with
  | Py.Raised _ => (0%Z, [])
  | Py.Returned decoded =>
      let text := extract_text decoded in
      if negb (PyStr.truthy (Some text)) then (0%Z, [])
      else
        let publication_date :=
          Ingest.extract_date_from_filename (Paths.name s3_key) in
        match source_dict !! source with
        | None => (0%Z, [])
        | Some source_name =>
            let base_metadata :=
              page_metadata_of document_type s3_key source_name publication_date in
            match chunk_page 1024 split_text nlp text 1 (Some base_metadata) with
            | [] => (0%Z, [])
            | (_ :: _) as chunks =>
                match upload_chunks_to_chroma format_value md5_hexdigest
                        add_documents chunks s3_key with
                | (Py.Returned chunks_added, calls) => (chunks_added, calls)
                | (Py.Raised _, calls) => (0%Z, calls)
                end
            end
        end
  end.

Definition process_text := process_page "text".
Definition process_image := process_page "image".

End Pipeline.

(** A store for examples: it accepts every call. *)
Definition accepting (call : AddCall) : Py.outcome unit := Py.Returned ().

End Pdfs.

(** * Part II: properties *)

(** ** Facts about strings *)

Section StringFacts.

Lemma str_app_cons (c : ascii) (s t : string) :
  String c s +:+ t = String c (s +:+ t).
Proof. reflexivity. Qed.

Lemma str_app_nil_l (t : string) : "" +:+ t = t.
Proof. reflexivity. Qed.

Lemma str_app_nil_r (s : string) : s +:+ "" = s.
Proof.
  induction s as [|c s IH]; [reflexivity | now rewrite str_app_cons, IH].
Qed.

Lemma str_app_assoc (a b c : string) : (a +:+ b) +:+ c = a +:+ b +:+ c.
Proof.
  induction a as [|x a IH]; [reflexivity | now rewrite !str_app_cons, IH].
Qed.

Lemma str_length_app (a b : string) :
  String.length (a +:+ b) = (String.length a + String.length b)%nat.
Proof.
  induction a as [|x a IH]; [reflexivity |].
  rewrite str_app_cons. simpl. now rewrite IH.
Qed.

Lemma length_lower (s : string) :
  String.length (PyStr.lower s) = String.length s.
Proof. induction s as [|c s IH]; simpl; [reflexivity | now rewrite IH]. Qed.

Lemma lower_char_not_upper (c : ascii) :
  PyStr.is_upper (PyStr.lower_char c) = false.
Proof.
  destruct c as [[] [] [] [] [] [] [] []]; vm_compute; reflexivity.
Qed.

Lemma lower_no_upper (s : string) :
  PyStr.all_chars (fun c => negb (PyStr.is_upper c)) (PyStr.lower s) = true.
Proof.
  induction s as [|c s IH]; simpl; [reflexivity |].
  now rewrite lower_char_not_upper, IH.
Qed.

Lemma lower_idem (s : string) : PyStr.lower (PyStr.lower s) = PyStr.lower s.
Proof.
  induction s as [|c s IH]; simpl; [reflexivity |].
  unfold PyStr.lower_char at 1. now rewrite lower_char_not_upper, IH.
Qed.

End StringFacts.

(** Push [+:+] below the characters of a literal prefix. *)
Ltac str_norm :=
  repeat (rewrite str_app_cons || rewrite str_app_nil_l).
Ltac str_norm_in H :=
  repeat (rewrite str_app_cons in H || rewrite str_app_nil_l in H).

(** ** Facts about list slices *)

Section SliceFacts.

Context {A : Type}.

Lemma last_items_length (n : nat) (l : list A) :
  length (PyStr.last_items n l) = Nat.min n (length l).
Proof. unfold PyStr.last_items. rewrite length_skipn. lia. Qed.

Lemma last_items_short (n : nat) (l : list A) :
  length l ≤ n → PyStr.last_items n l = l.
Proof.
  intros H. unfold PyStr.last_items.
  replace (length l - n) with 0 by lia. reflexivity.
Qed.

Lemma last_items_app (n : nat) (l t : list A) :
  PyStr.last_items (n + length t) (l ++ t) = PyStr.last_items n l ++ t.
Proof.
  unfold PyStr.last_items. rewrite length_app, skipn_app.
  replace (length l + length t - (n + length t)) with (length l - n) by lia.
  replace (length l - n - length l) with 0 by lia. reflexivity.
Qed.

Lemma last_items_suffix (n : nat) (l : list A) :
  ∃ dropped, l = dropped ++ PyStr.last_items n l.
Proof.
  exists (firstn (length l - n) l). unfold PyStr.last_items.
  now rewrite firstn_skipn.
Qed.

End SliceFacts.

(** ** The session store *)

Section SessionFacts.

Import Sessions.

Lemma has_session_false (sid : string) (store : Store) :
  has_session sid store = false ↔ ¬ In sid (map fst store).
Proof.
  unfold has_session. split.
  - intros H Hin.
    assert (existsb (String.eqb sid) (map fst store) = true) as E.
    { apply existsb_exists. exists sid. split; [exact Hin | apply String.eqb_refl]. }
    congruence.
  - intros H. destruct (existsb _ _) eqn:E; [|reflexivity].
    apply existsb_exists in E as (x & Hx & Heq).
    apply String.eqb_eq in Heq. subst x. contradiction.
Qed.

Lemma has_session_true (sid : string) (store : Store) :
  has_session sid store = true ↔ In sid (map fst store).
Proof.
  destruct (has_session sid store) eqn:E.
  - split; [|reflexivity]. intros _.
    unfold has_session in E. apply existsb_exists in E as (x & Hx & Heq).
    apply String.eqb_eq in Heq. now subst x.
  - apply has_session_false in E. split; [discriminate | contradiction].
Qed.

Lemma messages_of_none (sid : string) (store : Store) :
  has_session sid store = false → messages_of sid store = None.
Proof.
  rewrite has_session_false.
  induction store as [|[k msgs] rest IH]; simpl; [reflexivity |].
  intros H. destruct (String.eqb_spec k sid) as [->|Hne].
  - exfalso. apply H. now left.
  - apply IH. intros Hin. apply H. now right.
Qed.

Lemma messages_of_some (sid : string) (store : Store) :
  has_session sid store = true → ∃ msgs, messages_of sid store = Some msgs.
Proof.
  rewrite has_session_true.
  induction store as [|[k msgs] rest IH]; simpl; [contradiction |].
  intros H. destruct (String.eqb_spec k sid) as [->|Hne]; [eauto |].
  destruct H as [H|H]; [contradiction | auto].
Qed.

Lemma messages_of_app_new (sid : string) (store : Store) (msgs : list Message) :
  has_session sid store = false →
  messages_of sid (store ++ [(sid, msgs)]) = Some msgs.
Proof.
  rewrite has_session_false.
  induction store as [|[k old] rest IH]; simpl.
  - now rewrite String.eqb_refl.
  - intros H. destruct (String.eqb_spec k sid) as [->|Hne].
    + exfalso. apply H. now left.
    + apply IH. intros Hin. apply H. now right.
Qed.

Lemma set_messages_same (sid : string) (store : Store) (msgs : list Message) :
  messages_of sid store = Some msgs → set_messages sid msgs store = store.
Proof.
  induction store as [|[k old] rest IH]; simpl; [reflexivity |].
  destruct (String.eqb_spec k sid) as [->|Hne].
  - now intros [= ->].
  - intros H. now rewrite IH.
Qed.

Lemma set_messages_keys (sid : string) (store : Store) (msgs : list Message) :
  map fst (set_messages sid msgs store) = map fst store.
Proof.
  induction store as [|[k old] rest IH]; simpl; [reflexivity |].
  destruct (String.eqb k sid); simpl; [reflexivity | now rewrite IH].
Qed.

Lemma set_messages_length (sid : string) (store : Store) (msgs : list Message) :
  length (set_messages sid msgs store) = length store.
Proof.
  rewrite <- (length_map fst (set_messages sid msgs store)), set_messages_keys.
  apply length_map.
Qed.

Lemma messages_of_set (sid : string) (store : Store) (msgs : list Message) :
  has_session sid store = true →
  messages_of sid (set_messages sid msgs store) = Some msgs.
Proof.
  rewrite has_session_true.
  induction store as [|[k old] rest IH]; simpl; [contradiction |].
  intros H. destruct (String.eqb_spec k sid) as [->|Hne]; simpl.
  - now rewrite String.eqb_refl.
  - destruct (String.eqb_spec k sid) as [->|_]; [contradiction |].
    destruct H as [H|H]; [contradiction | auto].
Qed.

Lemma has_session_set (sid sid' : string) (store : Store) (msgs : list Message) :
  has_session sid' (set_messages sid msgs store) = has_session sid' store.
Proof. unfold has_session. now rewrite set_messages_keys. Qed.

(** The eviction loop leaves a known session's store alone. *)
Lemma evict_known (sid : string) (store : Store) (n : nat) :
  has_session sid store = true → evict sid store n = (store, n).
Proof.
  intros H. destruct store as [|entry rest]; [reflexivity |].
  cbn [evict]. now rewrite H.
Qed.

(** For an unseen session it drops entries from the front, oldest first,
    until fewer than [MAX_SESSIONS] are left. *)
Lemma evict_new (sid : string) (store : Store) (n : nat) :
  has_session sid store = false →
  evict sid store n =
    (skipn (length store - (MAX_SESSIONS - 1)) store,
     n + (length store - (MAX_SESSIONS - 1))).
Proof.
  revert n. induction store as [|entry rest IH]; intros n H.
  - simpl. f_equal. lia.
  - assert (has_session sid rest = false) as Hrest.
    { apply has_session_false. apply has_session_false in H.
      intros Hin. apply H. simpl. now right. }
    cbn [evict]. rewrite H. cbn [negb andb].
    destruct (Nat.leb_spec MAX_SESSIONS (length (entry :: rest))) as [Hle|Hlt].
    + rewrite (IH _ Hrest). unfold MAX_SESSIONS in *. simpl length in *.
      replace (S (length rest) - (50 - 1)) with (S (length rest - (50 - 1))) by lia.
      simpl skipn. f_equal. lia.
    + unfold MAX_SESSIONS in *. simpl length in *.
      replace (S (length rest) - (50 - 1)) with 0 by lia.
      simpl. f_equal. lia.
Qed.

(** A request for a known session deletes nothing, keeps every session in
    its place and returns the last four messages of its history. *)
Lemma get_session_history_known (sid : string) (store : Store) (msgs : list Message) :
  messages_of sid store = Some msgs →
  get_session_history sid store =
    (set_messages sid (PyStr.last_items 4 msgs) store, PyStr.last_items 4 msgs, 0).
Proof.
  intros Hm.
  assert (has_session sid store = true) as Hk.
  { destruct (has_session sid store) eqn:E; [reflexivity |].
    apply messages_of_none in E. congruence. }
  unfold get_session_history. rewrite (evict_known _ _ _ Hk), Hk, Hm. reflexivity.
Qed.

(** A request for an unseen session deletes from the front until 49 are
    left and puts the new session last. *)
Lemma get_session_history_new (sid : string) (store : Store) :
  has_session sid store = false →
  get_session_history sid store =
    (skipn (length store - (MAX_SESSIONS - 1)) store ++ [(sid, [])], [],
     length store - (MAX_SESSIONS - 1)).
Proof.
  intros Hn. unfold get_session_history. rewrite (evict_new _ _ _ Hn).
  set (kept := skipn _ store).
  assert (has_session sid kept = false) as Hkept.
  { apply has_session_false. apply has_session_false in Hn.
    intros Hin. apply Hn. subst kept.
    rewrite <- (firstn_skipn (length store - (MAX_SESSIONS - 1)) store).
    rewrite map_app. apply in_or_app. now right. }
  rewrite Hkept, (messages_of_app_new _ _ _ Hkept). simpl.
  change (PyStr.last_items 4 (@nil Message)) with (@nil Message).
  rewrite (set_messages_same sid (kept ++ [(sid, [])]) []).
  - reflexivity.
  - now apply messages_of_app_new.
Qed.

Lemma get_session_history_bound (sid : string) (store : Store) :
  length store ≤ MAX_SESSIONS →
  length (get_session_history sid store).1.1 ≤ MAX_SESSIONS.
Proof.
  intros Hlen. destruct (has_session sid store) eqn:E.
  - destruct (messages_of_some _ _ E) as [msgs Hm].
    rewrite (get_session_history_known _ _ _ Hm). simpl.
    now rewrite set_messages_length.
  - rewrite (get_session_history_new _ _ E). simpl.
    rewrite length_app, length_skipn. unfold MAX_SESSIONS in *. simpl. lia.
Qed.

(** Distinct sessions requested while the store has room are all kept, in
    the order of their creation. *)
Lemma use_sessions_room (ids created : list string) (deleted : nat) :
  NoDup (created ++ ids) →
  length (created ++ ids) ≤ MAX_SESSIONS →
  use_sessions ids (fresh created) deleted = (fresh (created ++ ids), deleted).
Proof.
  revert created. induction ids as [|sid ids IH]; intros created Hnd Hlen.
  - simpl. now rewrite app_nil_r.
  - assert (has_session sid (fresh created) = false) as Hnew.
    { apply has_session_false. unfold fresh. rewrite map_map. simpl. rewrite map_id.
      apply NoDup_app in Hnd as (_ & Hdisj & _).
      intros Hin. apply (Hdisj sid); [now apply list_elem_of_In | left]. }
    simpl. rewrite (get_session_history_new _ _ Hnew).
    assert (length (fresh created) - (MAX_SESSIONS - 1) = 0) as ->.
    { unfold fresh. rewrite length_map. rewrite length_app in Hlen. simpl in Hlen.
      unfold MAX_SESSIONS in *. lia. }
    rewrite skipn_O. replace (deleted + 0) with deleted by lia.
    replace (fresh created ++ [(sid, [])]) with (fresh (created ++ [sid])).
    + rewrite IH.
      * now rewrite <- app_assoc.
      * now rewrite <- app_assoc.
      * now rewrite <- app_assoc.
    + unfold fresh. now rewrite map_app.
Qed.

Lemma use_sessions_app (ids1 ids2 : list string) (store : Store) (deleted : nat) :
  use_sessions (ids1 ++ ids2) store deleted =
    let '(store1, deleted1) := use_sessions ids1 store deleted in
    use_sessions ids2 store1 deleted1.
Proof.
  revert store deleted. induction ids1 as [|sid ids1 IH]; intros store deleted.
  - reflexivity.
  - simpl. destruct (get_session_history sid store) as [[store' h] n]. apply IH.
Qed.

Lemma add_message_keys (sid : string) (m : Message) (store : Store) :
  map fst (add_message sid m store) = map fst store.
Proof.
  unfold add_message. destruct (messages_of sid store); [|reflexivity].
  apply set_messages_keys.
Qed.

Lemma reachable_bound (store : Store) :
  reachable store → length store ≤ MAX_SESSIONS.
Proof.
  induction 1 as [|sid store _ IH|sid m store _ IH].
  - simpl. unfold MAX_SESSIONS. lia.
  - now apply get_session_history_bound.
  - rewrite <- (length_map fst), add_message_keys, length_map. exact IH.
Qed.

(** C5. From the empty store, 51 distinct session ids requested one after
    the other cause exactly one deletion, that of the session created
    first. A request for an unseen id on a full store deletes from the
    front of the creation order, one session per iteration, until the new
    one fits (one deletion at capacity 50); requests and appends for a
    known session delete nothing and keep the creation order, so an old
    session is not protected by being used; and no reachable store holds
    more than 50 sessions. *)
Theorem session_store_evicts_in_creation_order :
  (∀ ids : list string,
      NoDup ids → length ids = 51 →
      ∃ first rest, ids = first :: rest ∧ use_sessions ids [] 0 = (fresh rest, 1)) ∧
  (∀ (sid : string) (store : Store),
      has_session sid store = false → MAX_SESSIONS ≤ length store →
      get_session_history sid store =
        (skipn (length store - 49) store ++ [(sid, [])], [], length store - 49)) ∧
  (∀ (sid : string) (oldest : string * list Message) (rest : Store),
      has_session sid (oldest :: rest) = false →
      length (oldest :: rest) = MAX_SESSIONS →
      get_session_history sid (oldest :: rest) = (rest ++ [(sid, [])], [], 1)) ∧
  (∀ (sid : string) (store : Store),
      has_session sid store = true →
      map fst (get_session_history sid store).1.1 = map fst store ∧
      (get_session_history sid store).2 = 0 ∧
      ∀ m, map fst (add_message sid m store) = map fst store) ∧
  (∀ store : Store, reachable store → length store ≤ 50).
Proof.
  split; [|split; [|split; [|split]]].
  - intros ids Hnd Hlen.
    destruct ids as [|first rest]; [discriminate |].
    exists first, rest. split; [reflexivity |].
    destruct (exists_last (l := first :: rest)) as (l50 & x & Hsplit); [discriminate |].
    rewrite Hsplit in *. rewrite length_app in Hlen. simpl in Hlen.
    rewrite use_sessions_app.
    change (@nil (string * list Message)) with (fresh []).
    rewrite use_sessions_room; simpl app.
    + apply NoDup_app in Hnd as (_ & Hdisj & _).
      assert (has_session x (fresh l50) = false) as Hnew.
      { apply has_session_false. unfold fresh. rewrite map_map. simpl. rewrite map_id.
        intros Hin. apply (Hdisj x); [now apply list_elem_of_In | left]. }
      simpl. rewrite (get_session_history_new _ _ Hnew).
      replace (length (fresh l50) - (MAX_SESSIONS - 1)) with 1
        by (unfold fresh, MAX_SESSIONS; rewrite length_map; lia).
      destruct l50 as [|y l50]; [simpl in Hlen; lia |].
      injection Hsplit as -> ->. simpl. unfold fresh. now rewrite map_app.
    + now apply NoDup_app in Hnd as (? & _).
    + unfold MAX_SESSIONS. lia.
  - intros sid store Hnew _. now rewrite (get_session_history_new _ _ Hnew).
  - intros sid oldest rest Hnew Hlen.
    rewrite (get_session_history_new _ _ Hnew), Hlen. reflexivity.
  - intros sid store Hk.
    destruct (messages_of_some _ _ Hk) as [msgs Hm].
    rewrite (get_session_history_known _ _ _ Hm). simpl.
    split; [apply set_messages_keys | split; [reflexivity |]].
    intros m. apply add_message_keys.
  - apply reachable_bound.
Qed.

Lemma session_store_evicts_in_creation_order_witness :
  use_sessions (numbered_sessions 51) [] 0 = (fresh (tl (numbered_sessions 51)), 1)
  ∧ get_session_history "s51" (fresh (numbered_sessions 50)) =
      (fresh (tl (numbered_sessions 50)) ++ [("s51", [])], [], 1)
  ∧ (get_session_history "s1" (fresh (numbered_sessions 50))).2 = 0.
Proof.
  destruct session_store_evicts_in_creation_order
    as (H51 & _ & Hcap & Hknown & _).
  split; [|split].
  - destruct (H51 (numbered_sessions 51)) as (first & rest & Heq & Hrun).
    + apply (bool_decide_unpack _). vm_compute. reflexivity.
    + reflexivity.
    + rewrite Hrun, Heq. reflexivity.
  - apply (Hcap "s51" ("s1", []) (fresh (tl (numbered_sessions 50)))).
    + vm_compute. reflexivity.
    + vm_compute. reflexivity.
  - apply (Hknown "s1" (fresh (numbered_sessions 50))).
    vm_compute. reflexivity.
Defined.

(** *** Truncation of a history *)

Lemma get_session_history_history (sid : string) (store : Store) :
  (get_session_history sid store).1.2 =
    PyStr.last_items 4 (default [] (messages_of sid store))
  ∧ messages_of sid (get_session_history sid store).1.1 =
      Some (get_session_history sid store).1.2.
Proof.
  destruct (has_session sid store) eqn:E.
  - destruct (messages_of_some _ _ E) as [msgs Hm].
    rewrite (get_session_history_known _ _ _ Hm), Hm. simpl.
    split; [reflexivity | now apply messages_of_set].
  - rewrite (get_session_history_new _ _ E), (messages_of_none _ _ E). simpl.
    split; [reflexivity |]. apply messages_of_app_new.
    apply has_session_false. apply has_session_false in E.
    intros Hin. apply E.
    rewrite <- (firstn_skipn (length store - (MAX_SESSIONS - 1)) store).
    rewrite map_app. apply in_or_app. now right.
Qed.

Lemma add_message_messages (sid : string) (m : Message) (store : Store)
  (msgs : list Message) :
  messages_of sid store = Some msgs →
  messages_of sid (add_message sid m store) = Some (msgs ++ [m]).
Proof.
  intros Hm. unfold add_message. rewrite Hm. apply messages_of_set.
  destruct (has_session sid store) eqn:E; [reflexivity |].
  apply messages_of_none in E. congruence.
Qed.

Lemma turn_messages (sid q a : string) (store : Store) :
  messages_of sid (turn sid q a store) =
    Some (PyStr.last_items 4 (default [] (messages_of sid store)) ++ [human q; ai a]).
Proof.
  unfold turn. destruct (get_session_history_history sid store) as [Hh Hs].
  destruct (get_session_history sid store) as [[store' history] n]. simpl in *.
  rewrite (add_message_messages _ _ _ (history ++ [human q])).
  - now rewrite <- app_assoc, Hh.
  - now apply add_message_messages.
Qed.

(** C6, as amended. A history is cut to its last 4 entries when it is
    fetched, not when a message is appended to it: an append keeps every
    stored entry. After three question/answer turns of one session the
    fetched history is exactly the last four entries. *)
Theorem history_truncated_when_fetched :
  (∀ (sid : string) (store : Store),
      (get_session_history sid store).1.2 =
        PyStr.last_items 4 (default [] (messages_of sid store))
      ∧ length (get_session_history sid store).1.2 ≤ 4
      ∧ messages_of sid (get_session_history sid store).1.1 =
          Some (get_session_history sid store).1.2) ∧
  (∀ (sid : string) (m : Message) (store : Store) (msgs : list Message),
      messages_of sid store = Some msgs →
      messages_of sid (add_message sid m store) = Some (msgs ++ [m])) ∧
  (∀ (sid : string) (store : Store) (q1 a1 q2 a2 q3 a3 : string),
      (get_session_history sid
         (turn sid q3 a3 (turn sid q2 a2 (turn sid q1 a1 store)))).1.2 =
        [human q2; ai a2; human q3; ai a3]).
Proof.
  split; [|split].
  - intros sid store. destruct (get_session_history_history sid store) as [Hh Hs].
    split; [exact Hh | split; [|exact Hs]].
    rewrite Hh, last_items_length. lia.
  - intros sid m store msgs. apply add_message_messages.
  - intros sid store q1 a1 q2 a2 q3 a3.
    destruct (get_session_history_history sid
                (turn sid q3 a3 (turn sid q2 a2 (turn sid q1 a1 store)))) as [-> _].
    rewrite !turn_messages. simpl default.
    set (h1 := PyStr.last_items 4 (default [] (messages_of sid store))).
    rewrite (last_items_app 2 _ [human q3; ai a3]).
    rewrite (last_items_app 2 _ [human q2; ai a2]).
    rewrite (last_items_app 0 _ [human q2; ai a2]).
    unfold PyStr.last_items at 1. rewrite Nat.sub_0_r, skipn_all. reflexivity.
Qed.

Lemma history_truncated_when_fetched_witness :
  messages_of "s"
    (add_message "s" (ai "e") [("s", [human "a"; ai "b"; human "c"; ai "d"])]) =
    Some ([human "a"; ai "b"; human "c"; ai "d"] ++ [ai "e"]).
Proof.
  destruct history_truncated_when_fetched as (_ & Happend & _).
  apply Happend. vm_compute. reflexivity.
Defined.

(** C6 as stated fails: after the appends of three turns the stored history
    holds six entries, not its last four. *)
Lemma history_after_append_counterexample :
  let store := turn "s" "q3" "a3" (turn "s" "q2" "a2" (turn "s" "q1" "a1" [])) in
  ∃ msgs, messages_of "s" store = Some msgs
          ∧ length msgs = 6
          ∧ msgs ≠ PyStr.last_items 4 msgs.
Proof.
  eexists. split; [vm_compute; reflexivity |].
  split; [reflexivity | discriminate].
Qed.

End SessionFacts.

(** ** Entity extraction *)

Section EntityFacts.

Import Entities.

Variable nlp : string → list Ent.

Lemma fold_left_collect {X Y : Type} (keep : X → bool) (f : X → Y)
  (l : list X) (acc : list Y) :
  fold_left (fun out x => if keep x then out ++ [f x] else out) l acc =
    acc ++ map f (List.filter keep l).
Proof.
  revert acc. induction l as [|x l IH]; intros acc; simpl.
  - now rewrite app_nil_r.
  - rewrite IH. destruct (keep x); simpl; [now rewrite <- app_assoc | reflexivity].
Qed.

Lemma extract_entities_filter_map (query : string) :
  extract_entities_from_query nlp query =
    map (fun ent => PyStr.lower (PyStr.strip (ent_text ent)))
        (List.filter allowed (nlp query)).
Proof. unfold extract_entities_from_query. now rewrite fold_left_collect. Qed.

(** C9, as amended. The extractor returns a list, one entry per accepted
    entity in the order the NER model reports them, so a name tagged twice
    is returned twice. Each entry is the trimmed, lower-cased text of an
    entity labelled PERSON, ORG or GPE whose trimmed text is longer than 2
    characters; it contains no upper-case letter. When the NER model
    reports no entity, as on the empty query, the list is empty. *)
Theorem extracted_entities_lowercase_filtered (query : string) :
  extract_entities_from_query nlp query =
    map (fun ent => PyStr.lower (PyStr.strip (ent_text ent)))
        (List.filter allowed (nlp query))
  ∧ (∀ e, In e (extract_entities_from_query nlp query) →
       ∃ ent, In ent (nlp query)
         ∧ In (ent_label ent) ["PERSON"; "ORG"; "GPE"]
         ∧ 2 < String.length (PyStr.strip (ent_text ent))
         ∧ e = PyStr.lower (PyStr.strip (ent_text ent))
         ∧ PyStr.all_chars (fun c => negb (PyStr.is_upper c)) e = true
         ∧ 2 < String.length e)
  ∧ (∀ ent, In ent (nlp query) →
       In (ent_label ent) ["PERSON"; "ORG"; "GPE"] →
       2 < String.length (PyStr.strip (ent_text ent)) →
       In (PyStr.lower (PyStr.strip (ent_text ent)))
          (extract_entities_from_query nlp query))
  ∧ (nlp query = [] → extract_entities_from_query nlp query = []).
Proof.
  rewrite extract_entities_filter_map.
  split; [reflexivity | split; [|split]].
  - intros e He. apply in_map_iff in He as (ent & <- & Hent).
    apply filter_In in Hent as (Hin & Hok).
    unfold allowed in Hok. apply andb_prop in Hok as (Hlabel & Hlen).
    apply bool_decide_eq_true, list_elem_of_In in Hlabel.
    apply Nat.ltb_lt in Hlen.
    exists ent. repeat split; try assumption.
    + apply lower_no_upper.
    + now rewrite length_lower.
  - intros ent Hin Hlabel Hlen. apply in_map_iff. exists ent.
    split; [reflexivity |]. apply filter_In. split; [exact Hin |].
    unfold allowed. apply andb_true_intro. split.
    + apply bool_decide_eq_true, list_elem_of_In. exact Hlabel.
    + now apply Nat.ltb_lt.
  - intros ->. reflexivity.
Qed.

End EntityFacts.

Lemma extracted_entities_lowercase_filtered_witness :
  Entities.extract_entities_from_query Entities.ner_twice "" = []
  ∧ In "epstein"
       (Entities.extract_entities_from_query Entities.ner_twice
          "Did Epstein call Epstein?").
Proof.
  split.
  - apply (extracted_entities_lowercase_filtered Entities.ner_twice "").
    reflexivity.
  - destruct (extracted_entities_lowercase_filtered Entities.ner_twice
                "Did Epstein call Epstein?") as (_ & _ & Hkept & _).
    apply (Hkept {| Entities.ent_text := "Epstein"; Entities.ent_label := "PERSON" |}).
    + simpl. left. reflexivity.
    + simpl. left. reflexivity.
    + vm_compute. lia.
Defined.

(** C9 as stated fails: the result is a list and may repeat an entity. *)
Lemma extracted_entities_duplicate_counterexample :
  Entities.extract_entities_from_query Entities.ner_twice "Did Epstein call Epstein?" =
    ["epstein"; "epstein"]
  ∧ ¬ NoDup (Entities.extract_entities_from_query Entities.ner_twice
               "Did Epstein call Epstein?").
Proof.
  split; [vm_compute; reflexivity |].
  intros Hnd. vm_compute in Hnd.
  inversion Hnd as [|x l Hnotin _]. apply Hnotin. left.
Qed.

(** ** Sorting *)

Section SortFacts.

Import PySort.

Context {A K : Type}.
Variable ltb : K → K → bool.
Variable key : A → K.

(** [<] on the keys is a strict weak order, as it is on floats that are
    numbers. *)
Hypothesis ltb_irrefl : ∀ x, ltb x x = false.
Hypothesis ltb_trans : ∀ x y z, ltb x y = true → ltb y z = true → ltb x z = true.
Hypothesis ltb_incomparable :
  ∀ x y z, ltb x y = false → ltb y z = false → ltb x z = false.

Lemma ltb_asym (x y : K) : ltb x y = true → ltb y x = false.
Proof.
  intros Hxy. destruct (ltb y x) eqn:Hyx; [|reflexivity].
  pose proof (ltb_trans _ _ _ Hxy Hyx) as Hxx. rewrite ltb_irrefl in Hxx. discriminate.
Qed.

Lemma insert_sorted_perm (x : A) (l : list A) :
  Permutation (insert_sorted ltb key x l) (x :: l).
Proof.
  induction l as [|y l IH]; simpl; [reflexivity |].
  destruct (ltb (key y) (key x)); [|reflexivity].
  rewrite IH. apply perm_swap.
Qed.

Lemma sort_stable_perm (l : list A) : Permutation (sort_stable ltb key l) l.
Proof.
  induction l as [|x l IH]; simpl; [reflexivity |].
  rewrite insert_sorted_perm. now apply perm_skip.
Qed.

Lemma insert_sorted_ascending (x : A) (l : list A) :
  ascending ltb key l → ascending ltb key (insert_sorted ltb key x l).
Proof.
  unfold ascending. induction l as [|y l IH]; intros Hs; simpl.
  - repeat constructor.
  - apply StronglySorted_inv in Hs as [Hl Hy].
    destruct (ltb (key y) (key x)) eqn:Hyx.
    + constructor; [now apply IH |].
      rewrite Forall_forall. intros z Hz.
      apply list_elem_of_In in Hz.
      apply (Permutation_in _ (insert_sorted_perm x l)) in Hz as [<-|Hz].
      * now apply ltb_asym.
      * rewrite Forall_forall in Hy. apply Hy. now apply list_elem_of_In.
    + constructor; [now constructor |].
      constructor; [exact Hyx |].
      rewrite Forall_forall in Hy |- *. intros z Hz.
      apply (ltb_incomparable _ (key y)); [now apply Hy | exact Hyx].
Qed.

Lemma sort_stable_ascending (l : list A) : ascending ltb key (sort_stable ltb key l).
Proof.
  induction l as [|x l IH]; simpl; [constructor | now apply insert_sorted_ascending].
Qed.

(** Items with one key keep their order when an item is inserted. *)
Lemma insert_sorted_stable (k0 : K) (x : A) (l : list A) :
  List.filter (fun a => same_key ltb (key a) k0) (insert_sorted ltb key x l) =
  List.filter (fun a => same_key ltb (key a) k0) (x :: l).
Proof.
  induction l as [|y l IH]; [reflexivity |].
  cbn [insert_sorted]. destruct (ltb (key y) (key x)) eqn:Hyx; [|reflexivity].
  cbn [List.filter] in *. rewrite IH.
  destruct (same_key ltb (key x) k0) eqn:Hx, (same_key ltb (key y) k0) eqn:Hy;
    try reflexivity.
  exfalso. unfold same_key in Hx, Hy.
  apply andb_prop in Hx as (_ & Hx), Hy as (Hy & _).
  apply negb_true_iff in Hx, Hy.
  rewrite (ltb_incomparable _ _ _ Hy Hx) in Hyx. discriminate.
Qed.

Lemma sort_stable_stable (k0 : K) (l : list A) :
  List.filter (fun a => same_key ltb (key a) k0) (sort_stable ltb key l) =
  List.filter (fun a => same_key ltb (key a) k0) l.
Proof.
  induction l as [|x l IH]; [reflexivity |].
  cbn [sort_stable]. rewrite insert_sorted_stable. cbn [List.filter].
  now rewrite IH.
Qed.

Lemma ascending_rev (l : list A) : ascending ltb key l → descending ltb key (rev l).
Proof.
  unfold ascending, descending. induction 1 as [|x l Hl IH Hx]; simpl.
  - constructor.
  - apply StronglySorted_app_2.
    + intros a b Ha Hb. apply list_elem_of_singleton in Hb as ->.
      rewrite Forall_forall in Hx. apply Hx.
      apply list_elem_of_In. apply in_rev. now apply list_elem_of_In.
    + exact IH.
    + repeat constructor.
Qed.

(** [sorted(l, key=key, reverse=True)]: the same items, largest key first,
    equal keys in their input order. *)
Lemma py_sorted_reverse_spec (l : list A) :
  descending ltb key (py_sorted ltb key true l)
  ∧ Permutation (py_sorted ltb key true l) l
  ∧ ∀ k0, List.filter (fun a => same_key ltb (key a) k0) (py_sorted ltb key true l) =
          List.filter (fun a => same_key ltb (key a) k0) l.
Proof.
  unfold py_sorted. split; [|split].
  - apply ascending_rev, sort_stable_ascending.
  - rewrite <- Permutation_rev, sort_stable_perm. symmetry. apply Permutation_rev.
  - intros k0. rewrite filter_rev, sort_stable_stable, <- filter_rev.
    now rewrite rev_involutive.
Qed.

Lemma descending_firstn (n : nat) (l : list A) :
  descending ltb key l → descending ltb key (firstn n l).
Proof.
  unfold descending. intros Hs. rewrite <- (firstn_skipn n l) in Hs.
  now apply StronglySorted_app_1_l in Hs.
Qed.

Lemma descending_split (n : nat) (l : list A) (a b : A) :
  descending ltb key l → In a (firstn n l) → In b (skipn n l) →
  ltb (key a) (key b) = false.
Proof.
  unfold descending. intros Hs Ha Hb. rewrite <- (firstn_skipn n l) in Hs.
  apply (StronglySorted_app_1_elem_of _ _ _ _ _ Hs); now apply list_elem_of_In.
Qed.

End SortFacts.

(** ** Candidate retrieval and reranking *)

Section RetrievalFacts.

Import Retrieval.

Variable nlp : string → list Entities.Ent.
Variable vector_db : string → Z → option Filter → list Document.
Variable Score : Type.
Variable score_ltb : Score → Score → bool.
Variable predict : list (string * string) → list Score.

(** The store returns at most the [k] results it is asked for. *)
Hypothesis vector_db_at_most_k :
  ∀ query k filter, (0 ≤ k)%Z → (Z.of_nat (length (vector_db query k filter)) ≤ k)%Z.

(** C2. When entities were extracted from the query, the retriever issues
    an entity-filtered search with k = 8 and then an unfiltered search with
    k = 8 + (8 - number of entity hits), which is never below 8. The
    candidates handed to the reranker are the entity hits, all of them,
    followed by the general hits, with nothing removed; there are at most
    16 of them. *)
Theorem entity_query_candidates (query : string) :
  Entities.extract_entities_from_query nlp query ≠ [] →
  let entity_clean :=
    map PyStr.lower (Entities.extract_entities_from_query nlp query) in
  let entity_matched := vector_db query 8 (Some (EntitiesIn entity_clean)) in
  let num_to_total := (8 + (8 - Z.of_nat (length entity_matched)))%Z in
  let normal := vector_db query num_to_total None in
  let calls :=
    [ {| call_query := query; call_k := 8;
         call_filter := Some (EntitiesIn entity_clean) |};
      {| call_query := query; call_k := num_to_total; call_filter := None |} ] in
  candidates_docs nlp vector_db query = (entity_matched ++ normal, calls)
  ∧ entity_aware_retrieval nlp vector_db Score score_ltb predict query =
      (final_docs Score score_ltb predict query (entity_matched ++ normal), calls)
  ∧ length entity_matched ≤ 8
  ∧ (8 ≤ num_to_total)%Z
  ∧ length (entity_matched ++ normal) ≤ 16
  ∧ firstn (length entity_matched) (entity_matched ++ normal) = entity_matched.
Proof.
  intros Hents. cbv zeta.
  set (entity_clean := map PyStr.lower _).
  set (entity_matched := vector_db query 8 _).
  set (normal := vector_db query _ None).
  assert (candidates_docs nlp vector_db query =
            (entity_matched ++ normal,
             [ {| call_query := query; call_k := 8;
                  call_filter := Some (EntitiesIn entity_clean) |};
               {| call_query := query;
                  call_k := (8 + (8 - Z.of_nat (length entity_matched)))%Z;
                  call_filter := None |} ])) as Hcand.
  { unfold candidates_docs.
    destruct (Entities.extract_entities_from_query nlp query) as [|e es] eqn:E;
      [contradiction | reflexivity]. }
  assert (length entity_matched ≤ 8) as Hlen.
  { pose proof (vector_db_at_most_k query 8 (Some (EntitiesIn entity_clean))) as H.
    fold entity_matched in H. lia. }
  split; [exact Hcand |].
  split; [unfold entity_aware_retrieval; now rewrite Hcand |].
  split; [exact Hlen |].
  split; [lia |].
  split.
  - rewrite length_app.
    pose proof (vector_db_at_most_k query
                  (8 + (8 - Z.of_nat (length entity_matched)))%Z None) as H.
    fold normal in H. lia.
  - rewrite firstn_app, firstn_all, Nat.sub_diag. simpl. apply app_nil_r.
Qed.

(** C8. When no entity was extracted from the query, the retriever issues
    exactly one search, unfiltered and with k = 16, and its results are the
    candidates as they are. *)
Theorem plain_query_candidates (query : string) :
  Entities.extract_entities_from_query nlp query = [] →
  candidates_docs nlp vector_db query =
    (vector_db query 16 None,
     [ {| call_query := query; call_k := 16; call_filter := None |} ])
  ∧ entity_aware_retrieval nlp vector_db Score score_ltb predict query =
      (final_docs Score score_ltb predict query (vector_db query 16 None),
       [ {| call_query := query; call_k := 16; call_filter := None |} ]).
Proof.
  intros Hnone.
  assert (candidates_docs nlp vector_db query =
            (vector_db query 16 None,
             [ {| call_query := query; call_k := 16; call_filter := None |} ]))
    as Hcand.
  { unfold candidates_docs. now rewrite Hnone. }
  split; [exact Hcand |].
  unfold entity_aware_retrieval. now rewrite Hcand.
Qed.

End RetrievalFacts.

Lemma small_store_at_most_k (query : string) (k : Z) (filter : option Retrieval.Filter) :
  (0 ≤ k)%Z → (Z.of_nat (length (Retrieval.small_store query k filter)) ≤ k)%Z.
Proof.
  intros Hk. unfold Retrieval.small_store. rewrite length_firstn. lia.
Qed.

Lemma entity_query_candidates_witness :
  (Retrieval.candidates_docs Entities.ner_twice Retrieval.small_store
     "Did Epstein call Epstein?").2 =
    [ {| Retrieval.call_query := "Did Epstein call Epstein?";
         Retrieval.call_k := 8;
         Retrieval.call_filter :=
           Some (Retrieval.EntitiesIn ["epstein"; "epstein"]) |};
      {| Retrieval.call_query := "Did Epstein call Epstein?";
         Retrieval.call_k := 15;
         Retrieval.call_filter := None |} ]
  ∧ length (Retrieval.candidates_docs Entities.ner_twice Retrieval.small_store
              "Did Epstein call Epstein?").1 ≤ 16.
Proof.
  destruct (entity_query_candidates Entities.ner_twice Retrieval.small_store
              Z Z.ltb Retrieval.length_scores small_store_at_most_k
              "Did Epstein call Epstein?")
    as (Hcand & _ & _ & _ & Hlen & _).
  - vm_compute. discriminate.
  - rewrite Hcand. split; [vm_compute; reflexivity | exact Hlen].
Defined.

Lemma plain_query_candidates_witness :
  Retrieval.candidates_docs Entities.ner_twice Retrieval.small_store "Who is he?" =
    (Retrieval.small_store "Who is he?" 16 None,
     [ {| Retrieval.call_query := "Who is he?";
          Retrieval.call_k := 16;
          Retrieval.call_filter := None |} ]).
Proof.
  apply (plain_query_candidates Entities.ner_twice Retrieval.small_store
           Z Z.ltb Retrieval.length_scores "Who is he?").
  vm_compute. reflexivity.
Defined.

Section RerankFacts.

Import Retrieval PySort.

Variable Score : Type.
Variable score_ltb : Score → Score → bool.
Variable predict : list (string * string) → list Score.

(** [<] on scores is a strict weak order: the scores are numbers. *)
Hypothesis score_irrefl : ∀ x, score_ltb x x = false.
Hypothesis score_trans :
  ∀ x y z, score_ltb x y = true → score_ltb y z = true → score_ltb x z = true.
Hypothesis score_incomparable :
  ∀ x y z, score_ltb x y = false → score_ltb y z = false → score_ltb x z = false.

(** The cross-encoder returns one score per pair. *)
Hypothesis predict_length : ∀ pairs, length (predict pairs) = length pairs.

Lemma reranked_length (query : string) (candidates : list Document) :
  length (reranked Score score_ltb predict query candidates) = length candidates.
Proof.
  unfold reranked.
  rewrite (Permutation_length
             (proj1 (proj2 (py_sorted_reverse_spec score_ltb snd
                              score_irrefl score_trans score_incomparable _)))).
  rewrite length_combine, predict_length, length_map. lia.
Qed.

(** C3. The reranker's output is in descending order of score; candidates
    of equal score keep their input order; it has min(8, number of
    candidates) entries, none for no candidate; and nothing it leaves out
    scores higher than anything it keeps. *)
Theorem reranker_sorted_stable_top8 (query : string) (candidates : list Document) :
  let scored :=
    combine candidates (predict (map (fun doc => (query, page_content doc)) candidates)) in
  let top := firstn 8 (reranked Score score_ltb predict query candidates) in
  let dropped := skipn 8 (reranked Score score_ltb predict query candidates) in
  final_docs Score score_ltb predict query candidates = map fst top
  ∧ descending score_ltb snd top
  ∧ (∀ s, ∃ later,
        List.filter (fun c => same_key score_ltb c.2 s) scored =
        List.filter (fun c => same_key score_ltb c.2 s) top ++ later)
  ∧ Permutation scored (top ++ dropped)
  ∧ (∀ a b, In a top → In b dropped → score_ltb a.2 b.2 = false)
  ∧ length (final_docs Score score_ltb predict query candidates) =
      Nat.min 8 (length candidates)
  ∧ (candidates = [] → final_docs Score score_ltb predict query candidates = []).
Proof.
  cbv zeta.
  set (scored := combine candidates _).
  pose proof (py_sorted_reverse_spec score_ltb snd
                score_irrefl score_trans score_incomparable scored)
    as (Hdesc & Hperm & Hstable).
  fold (reranked Score score_ltb predict query candidates) in Hdesc, Hperm, Hstable.
  split; [reflexivity |].
  split; [now apply descending_firstn |].
  split.
  { intros s. rewrite <- Hstable.
    exists (List.filter (fun c => same_key score_ltb c.2 s)
              (skipn 8 (reranked Score score_ltb predict query candidates))).
    now rewrite <- List.filter_app, firstn_skipn. }
  split; [now rewrite firstn_skipn |].
  split; [intros a b; now apply (descending_split score_ltb snd) |].
  split.
  - unfold final_docs. rewrite length_map, length_firstn, reranked_length. reflexivity.
  - intros ->. reflexivity.
Qed.

End RerankFacts.

Lemma reranker_sorted_stable_top8_witness :
  Retrieval.final_docs Z Z.ltb Retrieval.length_scores "Who is he?"
    (Retrieval.small_store "Who is he?" 16 None) =
    [ Retrieval.passage "DOC-002" 1 "The flight log lists two passengers.";
      Retrieval.passage "DOC-001" 3 "Epstein flew to Paris.";
      Retrieval.passage "DOC-001" 3 "He returned on Monday." ]
  ∧ length (Retrieval.final_docs Z Z.ltb Retrieval.length_scores "Who is he?"
              (Retrieval.small_store "Who is he?" 16 None)) = 3.
Proof.
  split; [vm_compute; reflexivity |].
  apply (reranker_sorted_stable_top8 Z Z.ltb Retrieval.length_scores).
  - exact Z.ltb_irrefl.
  - intros x y z Hxy Hyz. apply Z.ltb_lt in Hxy, Hyz. apply Z.ltb_lt. lia.
  - intros x y z Hxy Hyz. apply Z.ltb_ge in Hxy, Hyz. apply Z.ltb_ge. lia.
  - intros pairs. unfold Retrieval.length_scores. apply length_map.
Defined.

(** ** Link resolution *)

Section LinkFacts.

Import Links.

Lemma generate_presigned_url_returns (s3 : S3) (key : option string) (expiration : Z) :
  ∃ link, generate_presigned_url s3 key expiration = Py.Returned link.
Proof.
  unfold generate_presigned_url.
  destruct (s3_client s3) as [client|]; [|eauto].
  destruct (bucket_name s3) as [[|b bucket]|]; [eauto| |eauto].
  destruct key as [[|c key]|]; [eauto| |eauto].
  destruct (client (String b bucket) (String c key) expiration) eqn:E; simpl; eauto.
Qed.

Lemma source_url_returns (s3 : S3) (key : option string) :
  ∃ link, source_url s3 key = Py.Returned link.
Proof.
  unfold source_url. destruct (PyStr.truthy key); [|eauto].
  apply generate_presigned_url_returns.
Qed.

End LinkFacts.

(** ** First occurrences *)

Section FirstSeenFacts.

Import Context.

Context {K : Type} `{EqDecision K}.

Lemma first_seen_In (x : K) (l : list K) : In x (first_seen l) ↔ In x l.
Proof.
  induction l as [|y l IH]; simpl; [reflexivity |].
  rewrite filter_In, IH, bool_decide_eq_true.
  destruct (decide (x = y)) as [->|Hne]; [tauto |].
  split; [tauto |]. intros [Heq|Hin]; [now left | now right].
Qed.

Lemma first_seen_NoDup (l : list K) : NoDup (first_seen l).
Proof.
  induction l as [|y l IH]; simpl; [constructor |].
  constructor.
  - rewrite list_elem_of_In, filter_In, bool_decide_eq_true. tauto.
  - apply NoDup_ListNoDup, List.NoDup_filter, NoDup_ListNoDup, IH.
Qed.

Lemma first_seen_length (l : list K) : length (first_seen l) ≤ length l.
Proof.
  induction l as [|y l IH]; simpl; [lia |].
  pose proof (List.filter_length_le (fun z => bool_decide (z ≠ y)) (first_seen l)).
  lia.
Qed.

Lemma first_seen_snoc (l : list K) (x : K) :
  first_seen (l ++ [x]) =
    if bool_decide (x ∈ l) then first_seen l else first_seen l ++ [x].
Proof.
  induction l as [|y l IH].
  - reflexivity.
  - cbn [app first_seen]. rewrite IH.
    destruct (decide (x ∈ l)) as [Hin|Hnin].
    + rewrite (bool_decide_eq_true_2 _ Hin).
      rewrite bool_decide_eq_true_2; [reflexivity | now right].
    + rewrite (bool_decide_eq_false_2 _ Hnin), List.filter_app. cbn [List.filter].
      destruct (decide (x = y)) as [->|Hne].
      * rewrite bool_decide_eq_false_2 by tauto.
        rewrite bool_decide_eq_true_2 by now left.
        now rewrite app_nil_r.
      * rewrite (bool_decide_eq_true_2 _ Hne).
        rewrite bool_decide_eq_false_2; [reflexivity |].
        intros Hin. apply elem_of_cons in Hin as [Heq|Hin]; [congruence | contradiction].
Qed.

End FirstSeenFacts.

Section FirstSeenMap.

Import Context.

Lemma first_seen_map {K L : Type} `{EqDecision K} `{EqDecision L}
  (f : K → L) (l : list K) :
  (∀ x y, In x l → In y l → f x = f y → x = y) →
  first_seen (map f l) = map f (first_seen l).
Proof.
  induction l as [|x l IH]; intros Hinj; simpl; [reflexivity |].
  rewrite IH by (intros a b Ha Hb; apply Hinj; now right).
  f_equal.
  assert (∀ l', (∀ y, In y l' → In y l) →
            List.filter (fun z => bool_decide (z ≠ f x)) (map f l') =
            map f (List.filter (fun y => bool_decide (y ≠ x)) l')) as Hcomm.
  { induction l' as [|y l' IH']; intros Hsub; simpl; [reflexivity |].
    rewrite IH' by (intros z Hz; apply Hsub; now right).
    destruct (decide (y = x)) as [->|Hne].
    - rewrite !bool_decide_eq_false_2; [reflexivity | tauto | tauto].
    - rewrite !bool_decide_eq_true_2; [reflexivity | exact Hne |].
      intros Heq. apply Hne. apply Hinj; [right; apply Hsub; now left | now left | exact Heq]. }
  apply Hcomm. intros y Hy. exact (proj1 (first_seen_In y l) Hy).
Qed.

End FirstSeenMap.

(** ** Grouping the passages *)

Section GroupFacts.

Import Context.

Lemma group_append_new (k : string) (d : Document) (f : string → list Document)
  (ks : list string) :
  k ∉ ks →
  group_append k d (map (fun k' => (k', f k')) ks) =
    map (fun k' => (k', f k')) ks ++ [(k, [d])].
Proof.
  induction ks as [|k0 ks IH]; intros Hnew; simpl; [reflexivity |].
  apply not_elem_of_cons in Hnew as [Hne Hnew].
  destruct (String.eqb_spec k0 k) as [->|_]; [contradiction |].
  now rewrite IH.
Qed.

Lemma group_append_known (k : string) (d : Document) (f g : string → list Document)
  (ks : list string) :
  NoDup ks → k ∈ ks →
  (∀ k', k' ∈ ks → g k' = if bool_decide (k' = k) then f k' ++ [d] else f k') →
  group_append k d (map (fun k' => (k', f k')) ks) = map (fun k' => (k', g k')) ks.
Proof.
  induction ks as [|k0 ks IH]; intros Hnd Hin Hg; [now apply elem_of_nil in Hin |].
  apply NoDup_cons in Hnd as [Hk0 Hnd]. simpl.
  destruct (String.eqb_spec k0 k) as [->|Hne].
  - rewrite (Hg k) by left. rewrite bool_decide_eq_true_2 by reflexivity.
    f_equal. apply map_ext_in. intros k' Hk'. apply list_elem_of_In in Hk'.
    rewrite (Hg k') by now right.
    rewrite bool_decide_eq_false_2; [reflexivity | congruence].
  - rewrite (Hg k0) by left. rewrite (bool_decide_eq_false_2 _ Hne).
    f_equal. apply IH; [exact Hnd | | intros k' Hk'; apply Hg; now right].
    apply elem_of_cons in Hin as [Heq|Hin]; [congruence | exact Hin].
Qed.

Lemma chunks_of_absent (k : string) (docs : list Document) :
  k ∉ map doc_page_id docs → chunks_of k docs = [].
Proof.
  unfold chunks_of.
  induction docs as [|d docs IH]; intros Hk; simpl; [reflexivity |].
  apply not_elem_of_cons in Hk as [Hne Hk].
  rewrite bool_decide_eq_false_2 by congruence. now apply IH.
Qed.

(** [doc_groups] holds one entry per grouping key, in the order the keys
    first occur, with the passages of that key in their order. *)
Lemma doc_groups_spec (docs : list Document) :
  doc_groups docs =
    map (fun k => (k, chunks_of k docs)) (first_seen (map doc_page_id docs)).
Proof.
  unfold doc_groups. induction docs as [|d docs IH] using rev_ind; [reflexivity |].
  rewrite fold_left_app. cbn [fold_left]. rewrite IH, map_app. cbn [map].
  rewrite first_seen_snoc.
  destruct (decide (doc_page_id d ∈ map doc_page_id docs)) as [Hin|Hnew].
  - rewrite (bool_decide_eq_true_2 _ Hin).
    apply group_append_known.
    + apply first_seen_NoDup.
    + now apply list_elem_of_In, first_seen_In, list_elem_of_In.
    + intros k' _. unfold chunks_of. rewrite List.filter_app. simpl.
      destruct (decide (k' = doc_page_id d)) as [->|Hne].
      * now rewrite !bool_decide_eq_true_2 by reflexivity.
      * rewrite (bool_decide_eq_false_2 _ Hne).
        rewrite bool_decide_eq_false_2 by congruence. apply app_nil_r.
  - rewrite (bool_decide_eq_false_2 _ Hnew).
    rewrite group_append_new
      by (rewrite list_elem_of_In, first_seen_In, <- list_elem_of_In; exact Hnew).
    rewrite map_app. cbn [map]. f_equal.
    + apply map_ext_in. intros k' Hk'. f_equal.
      unfold chunks_of. rewrite List.filter_app. simpl.
      rewrite bool_decide_eq_false_2; [now rewrite app_nil_r |].
      intros Heq. apply Hnew. rewrite Heq.
      now apply list_elem_of_In, (first_seen_In k'), Hk'.
    + unfold chunks_of at 1. rewrite List.filter_app.
      fold (chunks_of (doc_page_id d) docs).
      rewrite (chunks_of_absent _ _ Hnew). simpl.
      now rewrite bool_decide_eq_true_2 by reflexivity.
Qed.

End GroupFacts.

(** ** The grouping key determines the document page *)

Section KeyFacts.

Import Context.

Lemma all_chars_app (p : ascii → bool) (a b : string) :
  PyStr.all_chars p (a +:+ b) = PyStr.all_chars p a && PyStr.all_chars p b.
Proof.
  induction a as [|c a IH]; [reflexivity |].
  rewrite str_app_cons. simpl. now rewrite IH, andb_assoc.
Qed.

Lemma all_chars_weaken (p q : ascii → bool) (s : string) :
  (∀ c, p c = true → q c = true) →
  PyStr.all_chars p s = true → PyStr.all_chars q s = true.
Proof.
  intros Hpq. induction s as [|c s IH]; simpl; [reflexivity |].
  intros H. apply andb_prop in H as [Hc Hs].
  now rewrite (Hpq _ Hc), IH.
Qed.

(** A string is cut in one way only at its last underscore. *)
Lemma split_at_last_underscore (a b r1 r2 : string) :
  PyStr.all_chars PyStr.not_underscore r1 = true →
  PyStr.all_chars PyStr.not_underscore r2 = true →
  a +:+ "_" +:+ r1 = b +:+ "_" +:+ r2 →
  a = b ∧ r1 = r2.
Proof.
  intros H1 H2. revert b.
  induction a as [|c a IH]; intros [|c' b] Heq; str_norm_in Heq.
  - injection Heq as ->. now split.
  - exfalso. injection Heq as <- ->.
    rewrite all_chars_app in H1. apply andb_prop in H1 as [_ H1].
    discriminate.
  - exfalso. injection Heq as -> <-.
    rewrite all_chars_app in H2. apply andb_prop in H2 as [_ H2].
    discriminate.
  - injection Heq as -> Heq.
    destruct (IH _ Heq) as [-> ->]. now split.
Qed.

Lemma str_uint_chars (d : Decimal.uint) :
  PyStr.all_chars PyStr.is_int_char (NilEmpty.string_of_uint d) = true.
Proof. induction d; simpl; try rewrite IHd; reflexivity. Qed.

Lemma str_int_chars (n : Z) : PyStr.all_chars PyStr.is_int_char (PyStr.str_int n) = true.
Proof.
  unfold PyStr.str_int. destruct (Z.to_int n) as [d|d]; simpl.
  - apply str_uint_chars.
  - apply str_uint_chars.
Qed.

Lemma str_int_inj (n m : Z) : PyStr.str_int n = PyStr.str_int m → n = m.
Proof.
  unfold PyStr.str_int. intros Heq.
  apply (f_equal NilEmpty.int_of_string) in Heq.
  rewrite !NilEmpty.isi in Heq. injection Heq as Heq.
  apply (f_equal Z.of_int) in Heq. now rewrite !DecimalZ.of_to in Heq.
Qed.

Lemma int_char_not_underscore (c : ascii) :
  PyStr.is_int_char c = true → PyStr.not_underscore c = true.
Proof.
  destruct c as [[] [] [] [] [] [] [] []]; vm_compute; congruence.
Qed.

Lemma float_repr_chars (x : PyFloat) :
  PyStr.all_chars is_float_char (float_repr x) = true
  ∧ PyStr.all_chars PyStr.is_int_char (float_repr x) = false.
Proof.
  pose proof (float_repr_ok x) as Hok. apply Is_true_true in Hok.
  unfold is_float_repr in Hok. apply andb_prop in Hok as [Hchars Hint].
  now apply negb_true_iff in Hint.
Qed.

(** The text of a page is made of the characters of an int, of a float or
    of [N/A]: a property of all three holds of every page text. *)
Lemma str_page_class (q : ascii → bool) (p : page_value) :
  (∀ c, PyStr.is_int_char c = true → q c = true) →
  (∀ c, is_float_char c = true → q c = true) →
  PyStr.all_chars q "N/A" = true →
  PyStr.all_chars q (str_page p) = true.
Proof.
  intros Hint Hfloat Hna. destruct p as [[n|x]|]; simpl.
  - apply (all_chars_weaken PyStr.is_int_char); [exact Hint | apply str_int_chars].
  - apply (all_chars_weaken is_float_char); [exact Hfloat | apply float_repr_chars].
  - exact Hna.
Qed.

Lemma str_page_no_underscore (p : page_value) :
  PyStr.all_chars PyStr.not_underscore (str_page p) = true.
Proof.
  apply str_page_class; [apply int_char_not_underscore | | reflexivity].
  intros c. destruct c as [[] [] [] [] [] [] [] []]; vm_compute; congruence.
Qed.

Lemma float_repr_inj (x y : PyFloat) : float_repr x = float_repr y → x = y.
Proof.
  destruct x as [a Ha], y as [b Hb]. simpl. intros ->. f_equal. apply proof_irrel.
Qed.

Lemma str_number_inj (n m : Number) : str_number n = str_number m → n = m.
Proof.
  destruct n as [n|x], m as [m|y]; simpl; intros Heq.
  - f_equal. now apply str_int_inj.
  - pose proof (str_int_chars n) as H. rewrite Heq in H.
    destruct (float_repr_chars y) as [_ Hy]. congruence.
  - pose proof (str_int_chars m) as H. rewrite <- Heq in H.
    destruct (float_repr_chars x) as [_ Hx]. congruence.
  - f_equal. now apply float_repr_inj.
Qed.

Lemma str_page_inj (p q : page_value) : str_page p = str_page q → p = q.
Proof.
  destruct p as [n|], q as [m|]; simpl; intros Heq.
  - f_equal. now apply str_number_inj.
  - exfalso. destruct n as [n|x]; simpl in Heq.
    + pose proof (str_int_chars n) as H. rewrite Heq in H. discriminate.
    + destruct (float_repr_chars x) as [H _]. rewrite Heq in H. discriminate.
  - exfalso. destruct m as [m|x]; simpl in Heq.
    + pose proof (str_int_chars m) as H. rewrite <- Heq in H. discriminate.
    + destruct (float_repr_chars x) as [H _]. rewrite <- Heq in H. discriminate.
  - reflexivity.
Qed.

Lemma page_key_inj (p q : string * page_value) : page_key p = page_key q → p = q.
Proof.
  destruct p as [id1 p1], q as [id2 p2]. unfold page_key. simpl. intros Heq.
  apply split_at_last_underscore in Heq as [-> Hpage];
    try apply str_page_no_underscore.
  apply str_page_inj in Hpage. now subst.
Qed.

(** Two passages get the same grouping key exactly when they have the same
    document id and page number. *)
Lemma doc_page_id_inj (d1 d2 : Document) :
  doc_page_id d1 = doc_page_id d2 ↔ doc_page d1 = doc_page d2.
Proof.
  split.
  - intros Heq. now apply page_key_inj.
  - intros Heq. change (page_key (doc_page d1) = page_key (doc_page d2)).
    now rewrite Heq.
Qed.

Lemma chunks_of_members (pair : string * page_value) (docs : list Document) :
  chunks_of (page_key pair) docs = members pair docs.
Proof.
  unfold chunks_of, members. apply List.filter_ext. intros d.
  destruct (decide (doc_page d = pair)) as [Heq|Hne].
  - rewrite !bool_decide_eq_true_2; [reflexivity | exact Heq |].
    now rewrite <- Heq.
  - rewrite !bool_decide_eq_false_2; [reflexivity | exact Hne |].
    intros Heq. apply Hne. now apply page_key_inj.
Qed.

(** The groups are the document pages of the passages: one group per
    distinct (document_id, page_number), in the order of first occurrence,
    holding the passages of that page in their order. *)
Lemma doc_groups_pages (docs : list Document) :
  map snd (doc_groups docs) =
    map (fun pair => members pair docs) (first_seen (map doc_page docs)).
Proof.
  rewrite doc_groups_spec, map_map. simpl.
  change (map doc_page_id docs) with (map (fun d => page_key (doc_page d)) docs).
  rewrite <- (map_map doc_page page_key).
  rewrite first_seen_map by (intros x y _ _; apply page_key_inj).
  rewrite map_map. apply map_ext. intros pair. apply chunks_of_members.
Qed.

Lemma members_nonempty (pair : string * page_value) (docs : list Document) :
  In pair (map doc_page docs) → members pair docs ≠ [].
Proof.
  intros Hin. apply in_map_iff in Hin as (d & Hd & Hin).
  assert (In d (members pair docs)) as Hmem.
  { unfold members. apply filter_In. split; [exact Hin |].
    now apply bool_decide_eq_true. }
  intros Hnil. now rewrite Hnil in Hmem.
Qed.

End KeyFacts.

(** ** Context assembly *)

Section ContextFacts.

Import Context.

Variable s3 : Links.S3.

Lemma format_groups_blocks (groups : list (string * list Document)) (n : Z)
  (doc_data : list string) (doc_metadata : gmap string DocMeta) :
  Forall (fun chunks => chunks ≠ []) (map snd groups) →
  ∃ blocks doc_metadata',
    format_groups s3 groups n doc_data doc_metadata =
      Py.Returned (doc_data ++ blocks, doc_metadata')
    ∧ blocks_of s3 n (map snd groups) blocks.
Proof.
  revert n doc_data doc_metadata.
  induction groups as [|[k chunks] groups IH]; intros n doc_data doc_metadata Hne.
  - exists [], doc_metadata. split; [simpl; now rewrite app_nil_r | constructor].
  - apply Forall_cons in Hne as [Hchunks Hne]. simpl in Hchunks.
    destruct chunks as [|first_chunk chunks]; [contradiction |].
    destruct (source_url_returns s3 (md_s3_key (metadata first_chunk))) as [link Hlink].
    cbn [format_groups]. rewrite Hlink. cbn [mbind Py.outcome_bind Py.bind].
    edestruct (IH (n + 1)%Z) as (blocks & md' & Hrun & Hblocks); [exact Hne |].
    rewrite Hrun. eexists (_ :: blocks), md'. split.
    + now rewrite <- app_assoc.
    + cbn [map snd]. now constructor.
Qed.

Lemma blocks_of_lookup (n : Z) (groups : list (list Document)) (blocks : list string) :
  blocks_of s3 n groups blocks →
  length blocks = length groups
  ∧ ∀ (i : nat) (group : list Document),
      groups !! i = Some group →
      ∃ first_chunk chunks link,
        group = first_chunk :: chunks
        ∧ Links.source_url s3 (md_s3_key (metadata first_chunk)) = Py.Returned link
        ∧ blocks !! i =
            Some (doc_text (n + Z.of_nat i) first_chunk link
                    (PyStr.join divider (map page_content group))).
Proof.
  induction 1 as [n|n first_chunk chunks link groups blocks Hlink _ [IHlen IH]].
  - split; [reflexivity |]. intros i group Hi. discriminate.
  - split; [simpl; now rewrite IHlen |].
    intros [|i] group Hi; simpl in Hi.
    + injection Hi as <-. exists first_chunk, chunks, link.
      rewrite Z.add_0_r. now repeat split.
    + destruct (IH i group Hi) as (f & c & l & -> & Hl & Hb).
      exists f, c, l. repeat split; [exact Hl |].
      simpl. rewrite Hb. do 2 f_equal. lia.
Qed.

(** [get_docs] returns, with the blocks of the document pages. *)
Lemma get_docs_blocks (docs : list Document) :
  ∃ blocks doc_metadata,
    get_docs s3 docs =
      Py.Returned (PyStr.join (PyStr.nl +:+ PyStr.nl) blocks, doc_metadata)
    ∧ blocks_of s3 1
        (map (fun pair => members pair docs) (first_seen (map doc_page docs))) blocks.
Proof.
  destruct (format_groups_blocks (doc_groups docs) 1 [] ∅)
    as (blocks & md & Hrun & Hblocks).
  { rewrite doc_groups_pages, Forall_forall. intros chunks Hin.
    apply list_elem_of_In, in_map_iff in Hin as (pair & <- & Hpair).
    now apply members_nonempty, first_seen_In. }
  rewrite doc_groups_pages in Hblocks.
  exists blocks, md. split; [|exact Hblocks].
  unfold get_docs. rewrite Hrun. reflexivity.
Qed.

(** C4. The context is the blocks joined by an empty line, and holds
    exactly one document block per distinct (document_id, page_number) of
    the reranked passages, hence at most 8 for at most 8 passages. The
    blocks come in the order in which the pages first occur. The block at
    position [i] is headed and closed with the number [i + 1], names the
    document id and the page of its pair, an int page as [3] and a float
    page as [3.0], carries the source, date and link of the first passage
    of the page, and holds the texts of all the passages of that page, in
    their order, with a line of three dashes between two of them. *)
Theorem context_one_block_per_document_page (docs : list Document) :
  let pairs := first_seen (map doc_page docs) in
  ∃ blocks doc_metadata,
    get_docs s3 docs =
      Py.Returned (PyStr.join (PyStr.nl +:+ PyStr.nl) blocks, doc_metadata)
    ∧ length blocks = length pairs
    ∧ NoDup pairs
    ∧ (∀ pair, In pair pairs ↔ In pair (map doc_page docs))
    ∧ (length docs ≤ 8 → length blocks ≤ 8)
    ∧ ∀ (i : nat) (pair : string * page_value),
        pairs !! i = Some pair →
        ∃ first_chunk chunks link,
          members pair docs = first_chunk :: chunks
          ∧ Links.source_url s3 (md_s3_key (metadata first_chunk)) = Py.Returned link
          ∧ blocks !! i =
              Some ("=== DOCUMENT " +:+ PyStr.str_int (Z.of_nat i + 1) +:+ " ==="
                    +:+ PyStr.nl +:+
                    "Source: " +:+ get_source first_chunk +:+ PyStr.nl +:+
                    "Document ID: " +:+ pair.1 +:+ PyStr.nl +:+
                    "Page: " +:+ str_page pair.2 +:+ PyStr.nl +:+
                    "Date: " +:+ get_publication_date first_chunk +:+ PyStr.nl +:+
                    "Link: " +:+ link +:+ PyStr.nl +:+ PyStr.nl +:+
                    PyStr.join (PyStr.nl +:+ PyStr.nl +:+ "---" +:+ PyStr.nl +:+ PyStr.nl)
                      (map page_content (first_chunk :: chunks)) +:+ PyStr.nl +:+
                    "=== END DOCUMENT " +:+ PyStr.str_int (Z.of_nat i + 1) +:+ " ===").
Proof.
  cbv zeta.
  destruct (get_docs_blocks docs) as (blocks & md & Hrun & Hblocks).
  apply blocks_of_lookup in Hblocks as [Hlen Hlookup].
  rewrite length_map in Hlen.
  exists blocks, md. split; [exact Hrun |].
  split; [exact Hlen |].
  split; [apply first_seen_NoDup |].
  split; [intros pair; apply first_seen_In |].
  split.
  { intros Hdocs. rewrite Hlen.
    pose proof (first_seen_length (map doc_page docs)) as H.
    rewrite length_map in H. lia. }
  intros i pair Hi.
  destruct (Hlookup i (members pair docs)) as (f & c & l & Hm & Hl & Hb).
  { rewrite list_lookup_fmap, Hi. reflexivity. }
  exists f, c, l. rewrite <- Hm. repeat split; [exact Hl |].
  assert (doc_page f = pair) as Hpair.
  { assert (In f (members pair docs)) as Hin by (rewrite Hm; now left).
    unfold members in Hin. apply filter_In in Hin as [_ Hin].
    now apply bool_decide_eq_true in Hin. }
  rewrite Hb, <- Hpair, Z.add_comm. reflexivity.
Qed.

(** C7. Resolving a link never raises: when the client, the bucket or the
    object key is missing, or the client's call fails, the link is the
    sentinel ["N/A"]; and assembling the context returns for every list of
    passages, each block carrying the link resolved for its group. *)
Theorem link_failure_never_aborts :
  (∀ (key : option string) (expiration : Z),
      ∃ link, Links.generate_presigned_url s3 key expiration = Py.Returned link
        ∧ (Links.s3_client s3 = None ∨ PyStr.truthy (Links.bucket_name s3) = false
           ∨ PyStr.truthy key = false → link = "N/A")
        ∧ (∀ client bucket k exn,
             Links.s3_client s3 = Some client → Links.bucket_name s3 = Some bucket →
             key = Some k → client bucket k expiration = Py.Raised exn →
             link = "N/A"))
  ∧ (∀ key : option string,
      ∃ link, Links.source_url s3 key = Py.Returned link
        ∧ (Links.s3_client s3 = None ∨ PyStr.truthy (Links.bucket_name s3) = false
           ∨ PyStr.truthy key = false → link = "N/A")
        ∧ (∀ client bucket k exn,
             Links.s3_client s3 = Some client → Links.bucket_name s3 = Some bucket →
             key = Some k → client bucket k 3600%Z = Py.Raised exn →
             link = "N/A"))
  ∧ (∀ docs : list Document,
      ∃ blocks doc_metadata,
        get_docs s3 docs =
          Py.Returned (PyStr.join (PyStr.nl +:+ PyStr.nl) blocks, doc_metadata)
        ∧ blocks_of s3 1
            (map (fun pair => members pair docs) (first_seen (map doc_page docs)))
            blocks).
Proof.
  assert (∀ (key : option string) (expiration : Z),
      ∃ link, Links.generate_presigned_url s3 key expiration = Py.Returned link
        ∧ (Links.s3_client s3 = None ∨ PyStr.truthy (Links.bucket_name s3) = false
           ∨ PyStr.truthy key = false → link = "N/A")
        ∧ (∀ client bucket k exn,
             Links.s3_client s3 = Some client → Links.bucket_name s3 = Some bucket →
             key = Some k → client bucket k expiration = Py.Raised exn →
             link = "N/A")) as Hgen.
  { intros key expiration. unfold Links.generate_presigned_url.
    destruct (Links.s3_client s3) as [client|] eqn:Hc.
    2:{ exists "N/A". split; [reflexivity | split; [reflexivity |]]. discriminate. }
    destruct (Links.bucket_name s3) as [[|b bucket]|] eqn:Hb.
    1,3: (exists "N/A"; split; [reflexivity | split; [reflexivity |]];
          intros; destruct key as [[|]|]; reflexivity).
    destruct key as [[|c key]|].
    1,3: (exists "N/A"; split; [reflexivity | split; [reflexivity |]];
          intros; reflexivity).
    destruct (client (String b bucket) (String c key) expiration) as [u|exn] eqn:Hcall.
    - exists u. split; [reflexivity | split].
      + intros [H|[H|H]]; discriminate.
      + intros client' bucket' k' exn' [= <-] [= <-] [= <-] Hraise. congruence.
    - exists "N/A". split; [reflexivity | split; reflexivity]. }
  split; [exact Hgen | split].
  - intros key. unfold Links.source_url.
    destruct (PyStr.truthy key) eqn:Hkey.
    + destruct (Hgen key 3600%Z) as (link & Hl & Hf & Hr).
      exists link. split; [exact Hl | split; [|exact Hr]].
      intros [H|[H|H]]; [apply Hf; now left | apply Hf; right; now left | discriminate].
    + exists "N/A". split; [reflexivity | split; reflexivity].
  - apply get_docs_blocks.
Qed.

End ContextFacts.

Lemma context_one_block_per_document_page_witness :
  ∃ doc_metadata,
    Context.get_docs Links.flaky_s3 (Retrieval.float_store "Who is he?" 16 None) =
      Py.Returned ("=== DOCUMENT 1 ===
Source: DOJ
Document ID: DOC-001
Page: 3.0
Date: Unknown
Link: https://epstein-docs.s3.amazonaws.com/doj/DOC-001.pdf

Epstein flew to Paris.

---

He returned on Monday.
=== END DOCUMENT 1 ===

=== DOCUMENT 2 ===
Source: DOJ
Document ID: DOC-002
Page: 1.0
Date: Unknown
Link: N/A

The flight log lists two passengers.
=== END DOCUMENT 2 ===", doc_metadata).
Proof.
  destruct (context_one_block_per_document_page Links.flaky_s3
              (Retrieval.float_store "Who is he?" 16 None))
    as (blocks & md & Hrun & Hlen & _ & _ & _ & Hblock).
  exists md. rewrite Hrun. do 2 f_equal.
  destruct (Hblock 0 ("DOC-001", PageNumber (NFloat float_3)))
    as (f0 & c0 & l0 & Hm0 & Hl0 & Hb0).
  { vm_compute. reflexivity. }
  destruct (Hblock 1 ("DOC-002", PageNumber (NFloat float_1)))
    as (f1 & c1 & l1 & Hm1 & Hl1 & Hb1).
  { vm_compute. reflexivity. }
  vm_compute in Hm0. injection Hm0 as <- <-.
  vm_compute in Hl0. injection Hl0 as <-.
  vm_compute in Hm1. injection Hm1 as <- <-.
  vm_compute in Hl1. injection Hl1 as <-.
  vm_compute in Hlen.
  destruct blocks as [|b0 [|b1 [|b2 blocks]]]; try discriminate Hlen.
  injection Hb0 as ->. injection Hb1 as ->.
  vm_compute. reflexivity.
Defined.

Lemma link_failure_never_aborts_witness :
  Links.source_url Links.flaky_s3 (Some "doj/DOC-002.pdf") = Py.Returned "N/A".
Proof.
  destruct (link_failure_never_aborts Links.flaky_s3)
    as (_ & Hsource & _).
  destruct (Hsource (Some "doj/DOC-002.pdf")) as (link & Hl & _ & Hraised).
  rewrite Hl. f_equal.
  apply (Hraised _ "epstein-docs" "doj/DOC-002.pdf" "ClientError" eq_refl eq_refl eq_refl).
  reflexivity.
Defined.

(** ** The citation pattern *)

Section RegexFacts.

Import Regex.

Context {R : Type}.

Lemma lit_sound (c : ascii) (s : string) (k : string → option R) (r : R) :
  lit c s k = Some r → ∃ rest, s = String c rest ∧ k rest = Some r.
Proof.
  destruct s as [|c' s]; simpl; [discriminate |].
  destruct (Ascii.eqb_spec c' c) as [->|_]; [eauto | discriminate].
Qed.

Lemma lit_complete (c : ascii) (rest : string) (k : string → option R) :
  lit c (String c rest) k = k rest.
Proof. simpl. now rewrite Ascii.eqb_refl. Qed.

(** What a greedy repetition hands on is a split of its input whose first
    part is in the class. *)
Lemma star_from_sound (p : ascii → bool) (taken s : string)
  (k : string → string → option R) (r : R) :
  star_from p taken s k = Some r →
  ∃ a rest, s = a +:+ rest ∧ PyStr.all_chars p a = true
            ∧ k (taken +:+ a) rest = Some r.
Proof.
  revert taken. induction s as [|c s IH]; intros taken H; simpl in H.
  - exists "", "". rewrite (str_app_nil_r taken). now repeat split.
  - destruct (p c) eqn:Hc.
    + destruct (star_from p (taken +:+ String c "") s k) as [r'|] eqn:Hrec.
      * injection H as ->. apply IH in Hrec as (a & rest & -> & Ha & Hk).
        exists (String c a), rest. rewrite str_app_assoc in Hk.
        split; [reflexivity | split; [simpl; now rewrite Hc, Ha | exact Hk]].
      * exists "", (String c s). rewrite (str_app_nil_r taken). now repeat split.
    + exists "", (String c s). rewrite (str_app_nil_r taken). now repeat split.
Qed.

(** It fails only when every such split fails. *)
Lemma star_from_complete (p : ascii → bool) (taken a rest : string)
  (k : string → string → option R) (r : R) :
  PyStr.all_chars p a = true →
  k (taken +:+ a) rest = Some r →
  ∃ r', star_from p taken (a +:+ rest) k = Some r'.
Proof.
  revert taken. induction a as [|c a IH]; intros taken Ha Hk.
  - rewrite str_app_nil_r in Hk. rewrite str_app_nil_l.
    destruct rest as [|c rest]; simpl; [eauto |].
    destruct (p c); [|eauto].
    destruct (star_from p (taken +:+ String c "") rest k); eauto.
  - simpl in Ha. apply andb_prop in Ha as [Hc Ha].
    rewrite str_app_cons. simpl. rewrite Hc.
    destruct (IH (taken +:+ String c "") Ha) as [r' Hr'].
    + now rewrite str_app_assoc.
    + rewrite Hr'. eauto.
Qed.

Lemma star_sound (p : ascii → bool) (s : string)
  (k : string → string → option R) (r : R) :
  star p s k = Some r →
  ∃ a rest, s = a +:+ rest ∧ PyStr.all_chars p a = true ∧ k a rest = Some r.
Proof. apply star_from_sound. Qed.

Lemma star_complete (p : ascii → bool) (a rest : string)
  (k : string → string → option R) (r : R) :
  PyStr.all_chars p a = true → k a rest = Some r →
  ∃ r', star p (a +:+ rest) k = Some r'.
Proof. apply (star_from_complete p ""). Qed.

Lemma plus_sound (p : ascii → bool) (s : string)
  (k : string → string → option R) (r : R) :
  plus p s k = Some r →
  ∃ a rest, s = a +:+ rest ∧ PyStr.all_chars p a = true ∧ a ≠ ""
            ∧ k a rest = Some r.
Proof.
  intros H. apply star_sound in H as (a & rest & -> & Ha & Hk).
  exists a, rest. destruct a as [|c a]; [discriminate |]. now repeat split.
Qed.

Lemma plus_complete (p : ascii → bool) (a rest : string)
  (k : string → string → option R) (r : R) :
  PyStr.all_chars p a = true → a ≠ "" → k a rest = Some r →
  ∃ r', plus p (a +:+ rest) k = Some r'.
Proof.
  intros Ha Hne Hk. apply (star_complete p a rest _ r Ha).
  destruct a as [|c a]; [contradiction | exact Hk].
Qed.

End RegexFacts.

Section PatternFacts.

Import Regex.

(** A match of the pattern at the start of [s] is a marker there. *)
Lemma citation_pattern_sound (s doc_id page rest : string) :
  citation_pattern s = Some (doc_id, page, rest) →
  ∃ m, s = m +:+ rest ∧ is_marker m doc_id page.
Proof.
  unfold citation_pattern. intros H.
  apply lit_sound in H as (s1 & -> & H).
  apply plus_sound in H as (id & s2 & -> & Hid & Hidne & H).
  apply lit_sound in H as (s3 & -> & H).
  apply star_sound in H as (ws1 & s4 & -> & Hws1 & H).
  apply lit_sound in H as (s5 & -> & H).
  apply lit_sound in H as (s6 & -> & H).
  apply lit_sound in H as (s7 & -> & H).
  apply lit_sound in H as (s8 & -> & H).
  apply plus_sound in H as (ws2 & s9 & -> & Hws2 & Hws2ne & H).
  apply plus_sound in H as (pg & s10 & -> & Hpg & Hpgne & H).
  apply lit_sound in H as (s11 & -> & H).
  injection H as <- <- <-.
  exists (marker id ws1 ws2 pg). split.
  - unfold marker. now rewrite !str_app_assoc.
  - exists ws1, ws2. now repeat split.
Qed.

(** Where a marker starts, the pattern matches. *)
Lemma citation_pattern_complete (m doc_id page rest : string) :
  is_marker m doc_id page →
  ∃ found, citation_pattern (m +:+ rest) = Some found.
Proof.
  intros (ws1 & ws2 & -> & Hid & Hidne & Hws1 & Hws2 & Hws2ne & Hpg & Hpgne).
  unfold marker, citation_pattern. rewrite !str_app_assoc. str_norm.
  rewrite lit_complete.
  assert (∀ id : string, ∃ r,
            plus not_rparen (page +:+ String ")" rest)
              (fun page s => lit ")" s (fun rest => Some (id, page, rest))) = Some r)
    as Hpage.
  { intros id. eapply plus_complete; [exact Hpg | exact Hpgne |].
    rewrite lit_complete. reflexivity. }
  assert (∀ id : string, ∃ r,
            plus PyStr.is_space (ws2 +:+ page +:+ String ")" rest)
              (fun _ s => plus not_rparen s
                 (fun page s => lit ")" s (fun rest => Some (id, page, rest)))) = Some r)
    as Hspace.
  { intros id. destruct (Hpage id) as [r Hr].
    eapply plus_complete; [exact Hws2 | exact Hws2ne | exact Hr]. }
  assert (∀ id : string, ∃ r,
            star PyStr.is_space
              (ws1 +:+ String "P" (String "a" (String "g" (String "e"
                 (ws2 +:+ page +:+ String ")" rest)))))
              (fun _ s =>
                 lit "P" s (fun s => lit "a" s (fun s => lit "g" s (fun s => lit "e" s
                   (fun s => plus PyStr.is_space s
                      (fun _ s => plus not_rparen s
                         (fun page s => lit ")" s
                            (fun rest => Some (id, page, rest))))))))) = Some r)
    as Hword.
  { intros id. destruct (Hspace id) as [r Hr].
    eapply star_complete; [exact Hws1 |].
    rewrite !lit_complete. exact Hr. }
  destruct (Hword doc_id) as [r Hr].
  eapply plus_complete; [exact Hid | exact Hidne |].
  rewrite lit_complete. exact Hr.
Qed.

Lemma marker_length (m doc_id page : string) :
  is_marker m doc_id page → 0 < String.length m.
Proof.
  intros (ws1 & ws2 & -> & _). unfold marker. str_norm. simpl. lia.
Qed.

Lemma findall_fuel_sound (fuel : nat) (s doc_id page : string) :
  In (doc_id, page) (findall_fuel fuel s) →
  ∃ m, occurs_in m s ∧ is_marker m doc_id page.
Proof.
  revert s. induction fuel as [|fuel IH]; intros s Hin; simpl in Hin; [contradiction |].
  destruct (citation_pattern s) as [[[id pg] rest]|] eqn:Hmatch.
  - apply citation_pattern_sound in Hmatch as (m & -> & Hm).
    destruct Hin as [[= -> ->]|Hin].
    + exists m. split; [|exact Hm]. exists "", rest. reflexivity.
    + apply IH in Hin as (m' & (before & after & ->) & Hm').
      exists m'. split; [|exact Hm'].
      exists (m +:+ before), after. now rewrite str_app_assoc.
  - destruct s as [|c s]; [contradiction |].
    apply IH in Hin as (m' & (before & after & ->) & Hm').
    exists m'. split; [|exact Hm']. exists (String c before), after. reflexivity.
Qed.

Lemma findall_fuel_complete (fuel : nat) (before m after doc_id page : string) :
  is_marker m doc_id page →
  String.length (before +:+ m +:+ after) < fuel →
  findall_fuel fuel (before +:+ m +:+ after) ≠ [].
Proof.
  intros Hm. revert fuel. induction before as [|c before IH]; intros fuel Hfuel.
  - rewrite str_app_nil_l in *. destruct fuel as [|fuel]; [lia |].
    cbn [findall_fuel].
    destruct (citation_pattern_complete _ _ _ after Hm) as [[[id pg] rest] ->].
    discriminate.
  - destruct fuel as [|fuel]; [lia |]. rewrite str_app_cons in *.
    cbn [findall_fuel String.length] in *.
    destruct (citation_pattern (String c (before +:+ m +:+ after)))
      as [[[id pg] rest]|]; [discriminate |].
    apply IH. lia.
Qed.

(** The fuel of [findall] is enough: more of it changes nothing. *)
Lemma findall_fuel_enough (fuel1 fuel2 : nat) (s : string) :
  String.length s < fuel1 → String.length s < fuel2 →
  findall_fuel fuel1 s = findall_fuel fuel2 s.
Proof.
  revert fuel2 s. induction fuel1 as [|fuel1 IH]; intros fuel2 s H1 H2; [lia |].
  destruct fuel2 as [|fuel2]; [lia |]. simpl.
  destruct (citation_pattern s) as [[[id pg] rest]|] eqn:Hmatch.
  - apply citation_pattern_sound in Hmatch as (m & -> & Hm).
    apply marker_length in Hm. rewrite str_length_app in H1, H2.
    f_equal. apply IH; lia.
  - destruct s as [|c s]; [reflexivity |]. simpl in H1, H2. apply IH; lia.
Qed.

(** [re.findall] as the scan it is. *)
Lemma findall_unfold (s : string) :
  findall s =
    match citation_pattern s with
    | Some (doc_id, page, rest) => (doc_id, page) :: findall rest
    | None =>
        match s with
        | EmptyString => []
        | String _ s' => findall s'
        end
    end.
Proof.
  unfold findall at 1. simpl.
  destruct (citation_pattern s) as [[[id pg] rest]|] eqn:Hmatch.
  - apply citation_pattern_sound in Hmatch as (m & -> & Hm).
    apply marker_length in Hm.
    f_equal. apply findall_fuel_enough; [rewrite str_length_app |]; lia.
  - destruct s as [|c s]; [reflexivity |]. apply findall_fuel_enough; simpl; lia.
Qed.

Lemma findall_sound (s doc_id page : string) :
  In (doc_id, page) (findall s) →
  ∃ m, occurs_in m s ∧ is_marker m doc_id page.
Proof. apply findall_fuel_sound. Qed.

Lemma findall_nonempty (s : string) : findall s ≠ [] ↔ has_marker s.
Proof.
  split.
  - intros Hne. destruct (findall s) as [|[id pg] l] eqn:E; [contradiction |].
    destruct (findall_sound s id pg) as (m & Hocc & Hm); [rewrite E; now left |].
    now exists m, id, pg.
  - intros (m & id & pg & (before & after & ->) & Hm).
    apply (findall_fuel_complete _ _ _ _ _ _ Hm). lia.
Qed.

End PatternFacts.

(** ** Citation extraction *)

Section CitationFacts.

Import Context Citations.

Lemma unique_citations_fold (citations : list (string * string)) (pre : list string) :
  fold_left
    (fun '(seen, unique) '(doc_id, page) =>
       let key := citation_key doc_id page in
       if bool_decide (key ∈ (seen : gset string))
       then (seen, unique)
       else ({[key]} ∪ seen, unique ++ [key]))
    citations (list_to_set (first_seen pre), first_seen pre) =
  (list_to_set (first_seen (pre ++ map key_of citations)),
   first_seen (pre ++ map key_of citations)).
Proof.
  revert pre. induction citations as [|[doc_id pg] citations IH]; intros pre.
  - simpl. now rewrite app_nil_r.
  - cbn [fold_left map]. change (key_of (doc_id, pg)) with (citation_key doc_id pg).
    set (key := citation_key doc_id pg).
    replace (pre ++ key :: map key_of citations)
      with ((pre ++ [key]) ++ map key_of citations) by now rewrite <- app_assoc.
    rewrite <- IH, first_seen_snoc.
    destruct (decide (key ∈ pre)) as [Hin|Hnew].
    + rewrite (bool_decide_eq_true_2 _ Hin).
      rewrite bool_decide_eq_true_2; [reflexivity |].
      now apply elem_of_list_to_set, list_elem_of_In, first_seen_In, list_elem_of_In.
    + rewrite (bool_decide_eq_false_2 _ Hnew).
      rewrite bool_decide_eq_false_2.
      * rewrite list_to_set_app_L. simpl.
        do 2 f_equal. rewrite (right_id_L ∅ (∪)). apply (comm_L (∪)).
      * rewrite elem_of_list_to_set, list_elem_of_In, first_seen_In, <- list_elem_of_In.
        exact Hnew.
Qed.

(** The unique keys are the keys of the matches, each once, in the order
    of first occurrence. *)
Lemma unique_citations_first_seen (citations : list (string * string)) :
  unique_citations citations = first_seen (map key_of citations).
Proof.
  unfold unique_citations.
  change (∅ : gset string, @nil string)
    with (list_to_set (first_seen (@nil string)) : gset string, first_seen (@nil string)).
  now rewrite unique_citations_fold.
Qed.

Lemma sources_fold (doc_metadata : gmap string DocMeta) (keys : list string)
  (text : string) (found : gmap string string) :
  fold_left
    (fun '(sources_text, citations_metadata) key =>
       match doc_metadata !! key with
       | Some meta =>
           (sources_text +:+ source_line meta, <[key := url meta]> citations_metadata)
       | None => (sources_text, citations_metadata)
       end)
    keys (text, found) =
  (text +:+ lines_text (listed doc_metadata keys),
   fold_left (fun m entry => <[entry.1 := url entry.2]> m)
     (listed doc_metadata keys) found).
Proof.
  revert text found. induction keys as [|key keys IH]; intros text found.
  - simpl. now rewrite str_app_nil_r.
  - cbn [fold_left]. unfold listed. cbn [omap list_omap].
    fold (listed doc_metadata keys).
    destruct (doc_metadata !! key) as [meta|]; cbn [fmap option_fmap option_map].
    + rewrite IH. cbn [lines_text foldr fold_left fst snd].
      now rewrite str_app_assoc.
    + apply IH.
Qed.

Lemma listed_In (doc_metadata : gmap string DocMeta) (keys : list string)
  (key : string) (meta : DocMeta) :
  In (key, meta) (listed doc_metadata keys) ↔
  In key keys ∧ doc_metadata !! key = Some meta.
Proof.
  unfold listed. rewrite <- !list_elem_of_In, list_elem_of_omap. split.
  - intros (k & Hk & Hsome). destruct (doc_metadata !! k) as [m|] eqn:E; [|discriminate].
    injection Hsome as <- <-. auto.
  - intros [Hk Hm]. exists key. now rewrite Hm.
Qed.

Lemma listed_keys (doc_metadata : gmap string DocMeta) (keys : list string) :
  map fst (listed doc_metadata keys) =
    List.filter (fun key => bool_decide (is_Some (doc_metadata !! key))) keys.
Proof.
  unfold listed. induction keys as [|key keys IH]; [reflexivity |].
  cbn [omap list_omap List.filter].
  destruct (doc_metadata !! key) as [meta|] eqn:E; cbn [fmap option_fmap option_map].
  - rewrite bool_decide_eq_true_2 by eauto. simpl. now rewrite <- IH.
  - rewrite bool_decide_eq_false_2; [exact IH |]. now intros [? ?].
Qed.

Lemma found_lookup (entries : list (string * DocMeta)) (found : gmap string string)
  (key : string) :
  (∀ meta meta', In (key, meta) entries → In (key, meta') entries → meta = meta') →
  fold_left (fun m entry => <[entry.1 := url entry.2]> m) entries found !! key =
    match List.find (fun entry => bool_decide (entry.1 = key)) entries with
    | Some entry => Some (url entry.2)
    | None => found !! key
    end.
Proof.
  revert found. induction entries as [|[k m] entries IH]; intros found Hfun;
    [reflexivity |].
  cbn [fold_left List.find fst snd].
  rewrite IH by (intros a b Ha Hb; apply Hfun; now right).
  destruct (decide (k = key)) as [->|Hne].
  - rewrite bool_decide_eq_true_2 by reflexivity.
    destruct (List.find _ entries) as [[k' m']|] eqn:Hfind.
    + apply find_some in Hfind as [Hin Hk']. apply bool_decide_eq_true in Hk'.
      simpl in Hk'. subst k'. simpl.
      rewrite (Hfun m m'); [reflexivity | now left | now right].
    + apply lookup_insert_eq.
  - rewrite bool_decide_eq_false_2 by exact Hne.
    destruct (List.find _ entries); [reflexivity |].
    now apply lookup_insert_ne.
Qed.

Lemma append_sources_spec (doc_metadata : gmap string DocMeta) (llm_answer : string) :
  let entries :=
    listed doc_metadata (first_seen (map key_of (Regex.findall llm_answer))) in
  append_sources doc_metadata llm_answer =
    (match Regex.findall llm_answer with
     | [] => llm_answer
     | _ :: _ => llm_answer +:+ sources_header +:+ lines_text entries
     end,
     fold_left (fun m entry => <[entry.1 := url entry.2]> m) entries ∅).
Proof.
  cbv zeta. unfold append_sources.
  destruct (Regex.findall llm_answer) as [|found citations]; [reflexivity |].
  rewrite unique_citations_first_seen, sources_fold. reflexivity.
Qed.

Lemma listed_functional (doc_metadata : gmap string DocMeta) (keys : list string)
  (key : string) (meta meta' : DocMeta) :
  In (key, meta) (listed doc_metadata keys) →
  In (key, meta') (listed doc_metadata keys) → meta = meta'.
Proof.
  rewrite !listed_In. intros [_ H1] [_ H2]. congruence.
Qed.

Lemma listed_none (doc_metadata : gmap string DocMeta) (keys : list string) :
  (∀ key, In key keys → doc_metadata !! key = None) →
  listed doc_metadata keys = [].
Proof.
  intros Hnone. destruct (listed doc_metadata keys) as [|[key meta] l] eqn:E;
    [reflexivity |].
  assert (In (key, meta) (listed doc_metadata keys)) as Hin by (rewrite E; now left).
  apply listed_In in Hin as [Hkey Hmeta]. rewrite (Hnone _ Hkey) in Hmeta. discriminate.
Qed.

(** C1, as amended. The Sources section lists, once each and in the order
    of their first occurrence, the keys of the markers of the answer that
    the index knows; the citations map holds exactly these keys, each with
    the link of its entry. Every listed key is the document id and the page
    text of a marker that occurs in the answer, joined by [", Page "]: the
    white space of the marker itself, after the comma and after [Page], may
    differ from that of the key. A key the index does not know is neither
    listed nor in the map. *)
Theorem sources_come_from_markers
  (doc_metadata : gmap string DocMeta) (llm_answer : string) :
  let entries :=
    listed doc_metadata (first_seen (map key_of (Regex.findall llm_answer))) in
  let result := append_sources doc_metadata llm_answer in
  result.1 =
    match Regex.findall llm_answer with
    | [] => llm_answer
    | _ :: _ => llm_answer +:+ sources_header +:+ lines_text entries
    end
  ∧ NoDup (map fst entries)
  ∧ map fst entries =
      List.filter (fun key => bool_decide (is_Some (doc_metadata !! key)))
        (first_seen (map key_of (Regex.findall llm_answer)))
  ∧ (∀ key meta,
       In (key, meta) entries →
       doc_metadata !! key = Some meta
       ∧ result.2 !! key = Some (url meta)
       ∧ ∃ doc_id page m,
           key = citation_key doc_id page
           ∧ Regex.is_marker m doc_id page
           ∧ Regex.occurs_in m llm_answer)
  ∧ (∀ key link,
       result.2 !! key = Some link →
       ∃ meta, In (key, meta) entries ∧ link = url meta)
  ∧ (∀ key,
       doc_metadata !! key = None →
       ¬ In key (map fst entries) ∧ result.2 !! key = None).
Proof.
  cbv zeta. rewrite append_sources_spec. cbn [fst snd].
  set (keys := first_seen (map key_of (Regex.findall llm_answer))).
  set (entries := listed doc_metadata keys).
  assert (∀ key,
            fold_left (fun m entry => <[entry.1 := url entry.2]> m) entries
              (∅ : gmap string string) !! key =
            match List.find (fun entry => bool_decide (entry.1 = key)) entries with
            | Some entry => Some (url entry.2)
            | None => None
            end) as Hlookup.
  { intros key. rewrite found_lookup; [now rewrite lookup_empty |].
    apply listed_functional. }
  split; [reflexivity |].
  split.
  { unfold entries. rewrite listed_keys.
    apply NoDup_ListNoDup, List.NoDup_filter, NoDup_ListNoDup, first_seen_NoDup. }
  split; [apply listed_keys |].
  split; [|split].
  - intros key meta Hin. pose proof Hin as Hin'.
    apply listed_In in Hin' as [Hkey Hmeta].
    split; [exact Hmeta | split].
    + rewrite Hlookup.
      destruct (List.find _ entries) as [[k m]|] eqn:Hfind.
      * apply find_some in Hfind as [Hin2 Hk]. apply bool_decide_eq_true in Hk.
        simpl in Hk. subst k. simpl.
        now rewrite (listed_functional _ _ _ _ _ Hin Hin2).
      * apply (find_none _ _ Hfind) in Hin.
        simpl in Hin. now rewrite bool_decide_eq_true_2 in Hin.
    + apply first_seen_In, in_map_iff in Hkey as ([doc_id pg] & <- & Hfound).
      apply findall_sound in Hfound as (m & Hocc & Hm).
      now exists doc_id, pg, m.
  - intros key link. rewrite Hlookup.
    destruct (List.find _ entries) as [[k m]|] eqn:Hfind; [|discriminate].
    apply find_some in Hfind as [Hin Hk]. apply bool_decide_eq_true in Hk.
    simpl in Hk. subst k. intros [= <-]. now exists m.
  - intros key Hnone. split.
    + intros Hin. apply in_map_iff in Hin as ([k meta] & <- & Hin).
      apply listed_In in Hin as [_ Hmeta]. simpl in Hnone. congruence.
    + rewrite Hlookup.
      destruct (List.find _ entries) as [[k m]|] eqn:Hfind; [|reflexivity].
      apply find_some in Hfind as [Hin Hk]. apply bool_decide_eq_true in Hk.
      simpl in Hk. subst k. apply listed_In in Hin as [_ Hmeta]. congruence.
Qed.

(** C10. When the answer holds a marker but the index knows none of its
    keys, the answer gets the Sources header, a rule of three dashes and
    the line [**Sources:**], with no entry under it, and the citations map
    is empty; an answer that holds no marker is returned as it is. *)
Theorem unresolved_markers_leave_empty_sources
  (doc_metadata : gmap string DocMeta) (llm_answer : string) :
  (Regex.has_marker llm_answer →
   (∀ key, In key (unique_citations (Regex.findall llm_answer)) →
           doc_metadata !! key = None) →
   append_sources doc_metadata llm_answer =
     (llm_answer +:+ PyStr.nl +:+ PyStr.nl +:+ "---" +:+ PyStr.nl +:+ PyStr.nl +:+
      "**Sources:**" +:+ PyStr.nl +:+ PyStr.nl, ∅))
  ∧ (¬ Regex.has_marker llm_answer →
     append_sources doc_metadata llm_answer = (llm_answer, ∅)).
Proof.
  split.
  - intros Hmarker Hnone. apply findall_nonempty in Hmarker.
    rewrite unique_citations_first_seen in Hnone.
    rewrite append_sources_spec, (listed_none _ _ Hnone).
    destruct (Regex.findall llm_answer); [contradiction |].
    simpl. rewrite str_app_nil_r. reflexivity.
  - intros Hnone. unfold append_sources.
    destruct (Regex.findall llm_answer) eqn:E; [reflexivity |].
    exfalso. apply Hnone, findall_nonempty. now rewrite E.
Qed.

End CitationFacts.

Lemma sources_come_from_markers_witness :
  let answer := "He flew (A, Page 1) twice (A,  Page 1), see (B, Page 2)." in
  (Citations.append_sources Citations.small_index answer).2 !! "A, Page 1" = Some "N/A"
  ∧ (Citations.append_sources Citations.small_index answer).2 !! "B, Page 2" = None
  ∧ ∃ doc_id page m,
      "A, Page 1" = Context.citation_key doc_id page
      ∧ Regex.is_marker m doc_id page
      ∧ Regex.occurs_in m answer.
Proof.
  cbv zeta.
  destruct (sources_come_from_markers Citations.small_index
              "He flew (A, Page 1) twice (A,  Page 1), see (B, Page 2).")
    as (_ & _ & _ & Hlisted & _ & Hunknown).
  destruct (Hlisted "A, Page 1"
              {| Context.source := "DOJ"; Context.document_id := "A";
                 Context.page := PageNumber (NInt 1); Context.s3_key := None;
                 Context.url := "N/A" |})
    as (_ & Hlink & Hmarker).
  { vm_compute. left. reflexivity. }
  split; [exact Hlink | split; [|exact Hmarker]].
  apply Hunknown. vm_compute. reflexivity.
Defined.

Lemma unresolved_markers_leave_empty_sources_witness :
  Citations.append_sources Citations.small_index "See (DOC-999, Page 1.0)." =
    ("See (DOC-999, Page 1.0).

---

**Sources:**

", ∅)
  ∧ Citations.append_sources Citations.small_index "I don't have information." =
      ("I don't have information.", ∅).
Proof.
  split.
  - apply (unresolved_markers_leave_empty_sources Citations.small_index
             "See (DOC-999, Page 1.0).").
    + apply findall_nonempty. vm_compute. discriminate.
    + intros key Hin. vm_compute in Hin. destruct Hin as [<-|[]].
      vm_compute. reflexivity.
  - apply (unresolved_markers_leave_empty_sources Citations.small_index
             "I don't have information.").
    intros Hmarker. apply findall_nonempty in Hmarker. apply Hmarker.
    vm_compute. reflexivity.
Defined.

Section OccurrenceFacts.

Import Regex.

Lemma prefix_app (m after : string) : String.prefix m (m +:+ after) = true.
Proof.
  induction m as [|c m IH]; [now destruct after |].
  rewrite str_app_cons. simpl. destruct (ascii_dec c c); [exact IH | contradiction].
Qed.

(** An occurrence is found by Python's [in]. *)
Lemma occurs_in_contains (m text : string) :
  occurs_in m text → PyStr.contains m text = true.
Proof.
  intros (before & after & ->). induction before as [|c before IH].
  - rewrite str_app_nil_l. pose proof (prefix_app m after) as Hp.
    destruct (m +:+ after); cbn [PyStr.contains]; now rewrite Hp.
  - rewrite str_app_cons. cbn [PyStr.contains]. rewrite IH. apply orb_true_r.
Qed.

End OccurrenceFacts.

(** C1 as stated fails: the marker [(A,Page 1)] puts the key ["A, Page 1"]
    into the Sources section and the citations map, yet neither
    [(A, Page 1)] nor the key occurs in the answer. *)
Lemma sources_key_not_verbatim_counterexample :
  let answer := "See (A,Page 1)." in
  let result := Citations.append_sources Citations.small_index answer in
  result.1 =
    answer +:+ Citations.sources_header +:+ "- **A, Page 1 - DOJ**" +:+ PyStr.nl
  ∧ result.2 !! "A, Page 1" = Some "N/A"
  ∧ ¬ Regex.occurs_in "(A, Page 1)" answer
  ∧ ¬ Regex.occurs_in "A, Page 1" answer.
Proof.
  cbv zeta. split; [vm_compute; reflexivity |].
  split; [vm_compute; reflexivity |].
  split; intros Hocc; apply occurs_in_contains in Hocc; vm_compute in Hocc;
    discriminate.
Qed.

(** ** Reading a marker back *)

Section MarkerFacts.

Import Regex Markers Context.

Lemma star_from_exact {R : Type} (p : ascii → bool) (taken a rest : string)
  (k : string → string → option R) (r : R) :
  PyStr.all_chars p a = true → stops p rest →
  k (taken +:+ a) rest = Some r →
  star_from p taken (a +:+ rest) k = Some r.
Proof.
  revert taken. induction a as [|c a IH]; intros taken Ha Hstop Hk.
  - rewrite str_app_nil_r in Hk. rewrite str_app_nil_l.
    destruct rest as [|c rest]; simpl; [exact Hk |].
    simpl in Hstop. now rewrite Hstop.
  - simpl in Ha. apply andb_prop in Ha as [Hc Ha].
    rewrite str_app_cons. simpl. rewrite Hc.
    rewrite (IH (taken +:+ String c "") Ha Hstop); [reflexivity |].
    now rewrite str_app_assoc.
Qed.

Lemma star_exact {R : Type} (p : ascii → bool) (a rest : string)
  (k : string → string → option R) (r : R) :
  PyStr.all_chars p a = true → stops p rest → k a rest = Some r →
  star p (a +:+ rest) k = Some r.
Proof. apply (star_from_exact p ""). Qed.

Lemma plus_exact {R : Type} (p : ascii → bool) (a rest : string)
  (k : string → string → option R) (r : R) :
  PyStr.all_chars p a = true → a ≠ "" → stops p rest → k a rest = Some r →
  plus p (a +:+ rest) k = Some r.
Proof.
  intros Ha Hne Hstop Hk. apply star_exact; [exact Ha | exact Hstop |].
  destruct a as [|c a]; [contradiction | exact Hk].
Qed.

(** On the marker of a key the pattern reads the two parts of the key. *)
Lemma citation_pattern_exact (doc_id page after : string) :
  citable_id doc_id →
  PyStr.all_chars not_rparen page = true → page ≠ "" → stops PyStr.is_space page →
  citation_pattern (marker_of doc_id page +:+ after) = Some (doc_id, page, after).
Proof.
  intros [Hid Hidne] Hpg Hpgne Hstart.
  unfold marker_of, citation_key, citation_pattern.
  rewrite !str_app_assoc. str_norm. rewrite lit_complete.
  apply plus_exact; [exact Hid | exact Hidne | reflexivity |].
  rewrite lit_complete.
  apply (star_exact PyStr.is_space " "); [reflexivity | reflexivity |].
  rewrite !lit_complete.
  apply (plus_exact PyStr.is_space " "); [reflexivity | discriminate | |].
  { destruct page as [|c page]; [contradiction | exact Hstart]. }
  apply plus_exact; [exact Hpg | exact Hpgne | reflexivity |].
  rewrite lit_complete. reflexivity.
Qed.

Lemma citation_pattern_needs_lparen (c : ascii) (s : string) :
  not_lparen c = true → citation_pattern (String c s) = None.
Proof.
  unfold not_lparen, citation_pattern. simpl. intros H.
  apply negb_true_iff in H. now rewrite H.
Qed.

Lemma str_page_shape (p : page_value) :
  PyStr.all_chars not_rparen (str_page p) = true
  ∧ str_page p ≠ ""
  ∧ stops PyStr.is_space (str_page p).
Proof.
  assert (PyStr.all_chars (fun c => not_rparen c && negb (PyStr.is_space c))
            (str_page p) = true) as Hchars.
  { apply str_page_class; [| | reflexivity];
      intros c; destruct c as [[] [] [] [] [] [] [] []]; vm_compute; congruence. }
  split; [|split].
  - apply (all_chars_weaken _ _ _ (fun c H => proj1 (andb_prop _ _ H)) Hchars).
  - destruct p as [[n|x]|]; simpl; [| |discriminate].
    + unfold PyStr.str_int. destruct n as [|q|q]; simpl; try discriminate.
      pose proof (DecimalPos.Unsigned.to_uint_nonnil q) as Hq.
      destruct (Pos.to_uint q); simpl; congruence.
    + destruct (float_repr_chars x) as [_ Hx]. intros Heq. rewrite Heq in Hx.
      discriminate.
  - destruct (str_page p) as [|c s]; [exact I |].
    simpl in Hchars. apply andb_prop in Hchars as [Hc _].
    apply andb_prop in Hc as [_ Hc]. now apply negb_true_iff in Hc.
Qed.

(** X1. The marker of a page key is read back as that key, for a page as
    [get_docs] prints it, an int as [1], a float as [1.0], or [N/A]: after
    text without an opening parenthesis, [findall] reports the document id
    and the page text of the marker first, and goes on behind it. *)
Theorem marker_of_page_read_back (doc_id before after : string) (p : page_value) :
  citable_id doc_id →
  PyStr.all_chars not_lparen before = true →
  findall (before +:+ marker_of doc_id (str_page p) +:+ after) =
    (doc_id, str_page p) :: findall after
  ∧ Citations.key_of (doc_id, str_page p) = citation_key doc_id (str_page p).
Proof.
  intros Hid Hbefore. split; [|reflexivity].
  induction before as [|c before IH].
  - rewrite str_app_nil_l, findall_unfold.
    destruct (str_page_shape p) as (Hpg & Hne & Hstart).
    now rewrite (citation_pattern_exact _ _ after Hid Hpg Hne Hstart).
  - simpl in Hbefore. apply andb_prop in Hbefore as [Hc Hbefore].
    rewrite str_app_cons, findall_unfold, (citation_pattern_needs_lparen _ _ Hc).
    now apply IH.
Qed.

End MarkerFacts.

Lemma marker_of_page_read_back_witness :
  Regex.findall
    ("Epstein knew Prince Andrew " +:+
     Markers.marker_of "DOJ-OGR-00024825" (str_page (PageNumber (NFloat float_1))) +:+
     " and Bill Clinton " +:+
     Markers.marker_of "DOJ-OGR-00024826" (str_page (PageNumber (NFloat float_2))) +:+
     ".") =
    [("DOJ-OGR-00024825", "1.0"); ("DOJ-OGR-00024826", "2.0")].
Proof.
  destruct (marker_of_page_read_back "DOJ-OGR-00024825" "Epstein knew Prince Andrew "
              (" and Bill Clinton " +:+
               Markers.marker_of "DOJ-OGR-00024826"
                 (str_page (PageNumber (NFloat float_2))) +:+ ".")
              (PageNumber (NFloat float_1))) as [Hfirst _].
  { split; [vm_compute; reflexivity | discriminate]. }
  { vm_compute. reflexivity. }
  destruct (marker_of_page_read_back "DOJ-OGR-00024826" " and Bill Clinton " "."
              (PageNumber (NFloat float_2))) as [Hsecond _].
  { split; [vm_compute; reflexivity | discriminate]. }
  { vm_compute. reflexivity. }
  rewrite Hfirst, Hsecond. vm_compute. reflexivity.
Defined.

(** ** The citation index that [get_docs] leaves behind *)

Section IndexFacts.

Import Context Index.

Variable s3 : Links.S3.

(** A string is cut in one way only at the last occurrence of a
    character, and at the first. *)
Lemma split_at_last (c : ascii) (a b r1 r2 : string) :
  PyStr.all_chars (fun x => negb (Ascii.eqb x c)) r1 = true →
  PyStr.all_chars (fun x => negb (Ascii.eqb x c)) r2 = true →
  a +:+ String c r1 = b +:+ String c r2 →
  a = b ∧ r1 = r2.
Proof.
  intros H1 H2. revert b.
  induction a as [|x a IH]; intros [|y b] Heq; str_norm_in Heq.
  - injection Heq as ->. now split.
  - exfalso. injection Heq as <- ->.
    rewrite all_chars_app in H1. apply andb_prop in H1 as [_ H1].
    simpl in H1. now rewrite Ascii.eqb_refl in H1.
  - exfalso. injection Heq as -> <-.
    rewrite all_chars_app in H2. apply andb_prop in H2 as [_ H2].
    simpl in H2. now rewrite Ascii.eqb_refl in H2.
  - injection Heq as -> Heq. destruct (IH _ Heq) as [-> ->]. now split.
Qed.

Lemma split_at_first (c : ascii) (a b r1 r2 : string) :
  PyStr.all_chars (fun x => negb (Ascii.eqb x c)) a = true →
  PyStr.all_chars (fun x => negb (Ascii.eqb x c)) b = true →
  a +:+ String c r1 = b +:+ String c r2 →
  a = b ∧ r1 = r2.
Proof.
  revert b. induction a as [|x a IH]; intros [|y b] Ha Hb Heq; str_norm_in Heq.
  - injection Heq as ->. now split.
  - exfalso. injection Heq as <- _. simpl in Hb. now rewrite Ascii.eqb_refl in Hb.
  - exfalso. injection Heq as -> _. simpl in Ha. now rewrite Ascii.eqb_refl in Ha.
  - injection Heq as -> Heq. simpl in Ha, Hb.
    apply andb_prop in Ha as [_ Ha], Hb as [_ Hb].
    destruct (IH _ Ha Hb Heq) as [-> ->]. now split.
Qed.

Lemma str_page_no_comma (p : page_value) :
  PyStr.all_chars (fun x => negb (Ascii.eqb x ",")) (str_page p) = true.
Proof.
  apply str_page_class; [| | reflexivity];
    intros c; destruct c as [[] [] [] [] [] [] [] []]; vm_compute; congruence.
Qed.

(** Distinct document pages have distinct citation keys. *)
Lemma key_of_page_inj (p q : string * page_value) :
  key_of_page p = key_of_page q → p = q.
Proof.
  destruct p as [id1 p1], q as [id2 p2]. unfold key_of_page, citation_key. simpl.
  intros Heq.
  apply (split_at_last ",") in Heq as [-> Hrest].
  - injection Hrest as Hpage. apply str_page_inj in Hpage. now subst.
  - simpl. apply str_page_no_comma.
  - simpl. apply str_page_no_comma.
Qed.

Lemma format_groups_index (groups : list (string * list Document)) (n : Z)
  (doc_data : list string) (doc_metadata : gmap string DocMeta) :
  Forall (fun chunks => chunks ≠ []) (map snd groups) →
  NoDup (map group_key (map snd groups)) →
  ∃ blocks doc_metadata',
    format_groups s3 groups n doc_data doc_metadata =
      Py.Returned (doc_data ++ blocks, doc_metadata')
    ∧ ∀ key meta,
        doc_metadata' !! key = Some meta ↔
        (∃ first_chunk chunks link,
            In (first_chunk :: chunks) (map snd groups)
            ∧ key = key_of_chunk first_chunk
            ∧ Links.source_url s3 (md_s3_key (metadata first_chunk)) = Py.Returned link
            ∧ meta = entry_of first_chunk link)
        ∨ (doc_metadata !! key = Some meta
           ∧ ¬ In key (map group_key (map snd groups))).
Proof.
  revert n doc_data doc_metadata.
  induction groups as [|[k chunks] groups IH]; intros n doc_data doc_metadata Hne Hnd.
  - exists [], doc_metadata. split; [simpl; now rewrite app_nil_r |].
    intros key meta. simpl. split; [auto |].
    intros [(f & c & l & [] & _)|[H _]]; exact H.
  - apply Forall_cons in Hne as [Hchunks Hne]. simpl in Hchunks.
    destruct chunks as [|first_chunk chunks]; [contradiction |].
    cbn [map snd] in Hnd. apply NoDup_cons in Hnd as [Hfresh Hnd].
    destruct (source_url_returns s3 (md_s3_key (metadata first_chunk))) as [link Hlink].
    cbn [format_groups]. rewrite Hlink. cbn [mbind Py.outcome_bind Py.bind].
    edestruct (IH (n + 1)%Z) as (blocks & md' & Hrun & Hidx); [exact Hne | exact Hnd |].
    rewrite Hrun. eexists (_ :: blocks), md'. split; [now rewrite <- app_assoc |].
    intros key meta. rewrite Hidx. cbn [map snd In group_key].
    change (citation_key (get_document_id first_chunk)
              (str_page (get_page_number first_chunk)))
      with (key_of_chunk first_chunk).
    change {| source := get_source first_chunk;
              document_id := get_document_id first_chunk;
              page := get_page_number first_chunk;
              s3_key := md_s3_key (metadata first_chunk);
              url := link |}
      with (entry_of first_chunk link).
    split.
    + intros [(f & c & l & Hin & Hk & Hl & Hm)|[Hlook Hnot]].
      * left. exists f, c, l. auto.
      * destruct (decide (key_of_chunk first_chunk = key)) as [Heq|Hneq].
        -- subst key. rewrite lookup_insert_eq in Hlook. injection Hlook as <-.
           left. exists first_chunk, chunks, link. auto.
        -- rewrite lookup_insert_ne in Hlook by exact Hneq.
           right. split; [exact Hlook |]. intros [H|H]; [congruence | contradiction].
    + intros [(f & c & l & [Hin|Hin] & Hk & Hl & Hm)|[Hlook Hnot]].
      * injection Hin as <- <-. right. subst key.
        rewrite Hlink in Hl. injection Hl as <-.
        split; [rewrite lookup_insert_eq; now subst meta |].
        intros Hin. apply Hfresh. now apply list_elem_of_In.
      * left. exists f, c, l. auto.
      * right. split; [|tauto].
        rewrite lookup_insert_ne; [exact Hlook |]. tauto.
Qed.

Lemma members_doc_page (pair : string * page_value) (docs : list Document)
  (first_chunk : Document) (chunks : list Document) :
  members pair docs = first_chunk :: chunks →
  doc_page first_chunk = pair ∧ In first_chunk docs.
Proof.
  intros Hm.
  assert (In first_chunk (members pair docs)) as Hin by (rewrite Hm; now left).
  unfold members in Hin. apply filter_In in Hin as [Hin Hp].
  apply bool_decide_eq_true in Hp. now split.
Qed.

Lemma group_keys_of_pages (docs : list Document) (pairs : list (string * page_value)) :
  (∀ pair, In pair pairs → In pair (map doc_page docs)) →
  map group_key (map (fun pair => members pair docs) pairs) = map key_of_page pairs.
Proof.
  intros Hsub. rewrite map_map. apply map_ext_in. intros pair Hin.
  pose proof (members_nonempty pair docs (Hsub _ Hin)) as Hne.
  destruct (members pair docs) as [|f c] eqn:Hm; [contradiction |].
  apply members_doc_page in Hm as [<- _]. reflexivity.
Qed.

(** The index after [get_docs]: an entry per document page, under the key
    of the page, with the metadata of the first passage of the page. *)
Lemma doc_metadata_lookup (docs : list Document) (context : string)
  (doc_metadata : gmap string DocMeta) :
  get_docs s3 docs = Py.Returned (context, doc_metadata) →
  ∀ key meta,
    doc_metadata !! key = Some meta ↔
    ∃ pair first_chunk chunks link,
      In pair (map doc_page docs)
      ∧ members pair docs = first_chunk :: chunks
      ∧ key = key_of_page pair
      ∧ Links.source_url s3 (md_s3_key (metadata first_chunk)) = Py.Returned link
      ∧ meta = entry_of first_chunk link.
Proof.
  intros Hrun key meta.
  assert (NoDup (map key_of_page (first_seen (map doc_page docs)))) as Hnd.
  { apply NoDup_fmap_2_strong; [|apply first_seen_NoDup].
    intros x y _ _. apply key_of_page_inj. }
  destruct (format_groups_index (doc_groups docs) 1 [] ∅)
    as (blocks & md & Hfmt & Hidx).
  { rewrite doc_groups_pages, Forall_forall. intros chunks Hin.
    apply list_elem_of_In, in_map_iff in Hin as (pair & <- & Hpair).
    now apply members_nonempty, first_seen_In. }
  { rewrite doc_groups_pages, group_keys_of_pages; [exact Hnd |].
    intros pair. apply first_seen_In. }
  unfold get_docs in Hrun. rewrite Hfmt in Hrun.
  cbn [mbind Py.outcome_bind Py.bind mret Py.outcome_ret] in Hrun.
  injection Hrun as _ <-.
  rewrite Hidx, doc_groups_pages. split.
  - intros [(f & c & l & Hin & Hk & Hl & Hm)|[Hlook _]];
      [|now rewrite lookup_empty in Hlook].
    apply in_map_iff in Hin as (pair & Hmem & Hpair).
    pose proof (proj1 (first_seen_In _ _) Hpair) as Hpair'.
    destruct (members_doc_page _ _ _ _ Hmem) as [Hdp _].
    exists pair, f, c, l.
    split; [exact Hpair' | split; [exact Hmem | split; [|now split]]].
    rewrite Hk, <- Hdp. reflexivity.
  - intros (pair & f & c & l & Hpair & Hmem & Hk & Hl & Hm).
    destruct (members_doc_page _ _ _ _ Hmem) as [Hdp _].
    left. exists f, c, l.
    split; [|split; [|now split]].
    + apply in_map_iff. exists pair.
      split; [exact Hmem | exact (proj2 (first_seen_In _ _) Hpair)].
    + rewrite Hk, <- Hdp. reflexivity.
Qed.

(** X2. After [get_docs] the index holds exactly one entry per document
    page of the passages: the key of the page maps to the source, document
    id, page and object key of the first passage of the page and to the
    link resolved for it. Every key of the index is built from the document
    id and page of its own entry. *)
Theorem get_docs_index (docs : list Document) (context : string)
  (doc_metadata : gmap string DocMeta) :
  get_docs s3 docs = Py.Returned (context, doc_metadata) →
  (∀ pair, In pair (map doc_page docs) →
     ∃ first_chunk chunks link,
       members pair docs = first_chunk :: chunks
       ∧ Links.source_url s3 (md_s3_key (metadata first_chunk)) = Py.Returned link
       ∧ doc_metadata !! key_of_page pair = Some (entry_of first_chunk link))
  ∧ (∀ key meta, doc_metadata !! key = Some meta →
       key = citation_key (document_id meta) (str_page (page meta))
       ∧ In (document_id meta, page meta) (map doc_page docs))
  ∧ (∀ doc_id p, ¬ In (doc_id, p) (map doc_page docs) →
       doc_metadata !! citation_key doc_id (str_page p) = None).
Proof.
  intros Hrun. pose proof (doc_metadata_lookup docs context doc_metadata Hrun) as Hidx.
  split; [|split].
  - intros pair Hpair.
    pose proof (members_nonempty pair docs Hpair) as Hne.
    destruct (members pair docs) as [|f c] eqn:Hm; [contradiction |].
    destruct (source_url_returns s3 (md_s3_key (metadata f))) as [link Hlink].
    exists f, c, link. repeat split; [exact Hlink |].
    apply Hidx. exists pair, f, c, link. now repeat split.
  - intros key meta Hlook.
    apply Hidx in Hlook as (pair & f & c & l & Hpair & Hm & -> & _ & ->).
    apply members_doc_page in Hm as [<- _]. split; [reflexivity | exact Hpair].
  - intros doc_id p Hnot.
    destruct (doc_metadata !! citation_key doc_id (str_page p)) as [meta|] eqn:Hlook;
      [|reflexivity].
    apply Hidx in Hlook as (pair & f & c & l & Hpair & _ & Hk & _).
    apply (key_of_page_inj (doc_id, p)) in Hk. now subst pair.
Qed.

End IndexFacts.

(** ** From retrieval to citations *)

Section TurnFacts.

Import Context Index Citations.

Lemma citations_lookup (doc_metadata : gmap string DocMeta) (llm_answer : string)
  (key link : string) :
  (append_sources doc_metadata llm_answer).2 !! key = Some link ↔
  In key (map key_of (Regex.findall llm_answer))
  ∧ ∃ meta, doc_metadata !! key = Some meta ∧ url meta = link.
Proof.
  rewrite append_sources_spec. cbn [snd].
  set (entries := listed doc_metadata _).
  rewrite found_lookup by apply listed_functional.
  rewrite lookup_empty. split.
  - destruct (List.find _ entries) as [[k m]|] eqn:Hfind; [|discriminate].
    apply find_some in Hfind as [Hin Hk]. apply bool_decide_eq_true in Hk.
    simpl in Hk. subst k. intros [= <-].
    apply listed_In in Hin as [Hkey Hmeta].
    split; [exact (proj1 (first_seen_In _ _) Hkey) | now exists m].
  - intros (Hkey & meta & Hmeta & <-).
    assert (In (key, meta) entries) as Hin.
    { apply listed_In. split; [exact (proj2 (first_seen_In _ _) Hkey) | exact Hmeta]. }
    destruct (List.find _ entries) as [[k m]|] eqn:Hfind.
    + apply find_some in Hfind as [Hin2 Hk]. apply bool_decide_eq_true in Hk.
      simpl in Hk. subst k. simpl.
      now rewrite (listed_functional _ _ _ _ _ Hin2 Hin).
    + apply (find_none _ _ Hfind) in Hin. simpl in Hin.
      now rewrite bool_decide_eq_true_2 in Hin.
Qed.

(** X3. One turn, from the retrieved passages to the citations map: every
    citation returned names a document page that was retrieved in this
    turn and carries the link resolved for that page; a retrieved page
    whose key the pattern finds in the answer is in the map; a page that
    was not retrieved never is. *)
Theorem citations_are_retrieved_pages (s3 : Links.S3) (docs : list Document)
  (context : string) (doc_metadata : gmap string DocMeta) (llm_answer : string) :
  get_docs s3 docs = Py.Returned (context, doc_metadata) →
  (∀ key link,
     (append_sources doc_metadata llm_answer).2 !! key = Some link →
     ∃ pair first_chunk chunks,
       In pair (map doc_page docs)
       ∧ key = key_of_page pair
       ∧ members pair docs = first_chunk :: chunks
       ∧ Links.source_url s3 (md_s3_key (metadata first_chunk)) = Py.Returned link)
  ∧ (∀ doc,
       In doc docs →
       In (get_document_id doc, str_page (get_page_number doc))
          (Regex.findall llm_answer) →
       ∃ first_chunk chunks link,
         members (doc_page doc) docs = first_chunk :: chunks
         ∧ Links.source_url s3 (md_s3_key (metadata first_chunk)) = Py.Returned link
         ∧ (append_sources doc_metadata llm_answer).2 !! key_of_chunk doc = Some link)
  ∧ (∀ doc_id p,
       ¬ In (doc_id, p) (map doc_page docs) →
       (append_sources doc_metadata llm_answer).2 !! citation_key doc_id (str_page p)
         = None).
Proof.
  intros Hrun. pose proof (doc_metadata_lookup s3 docs context doc_metadata Hrun) as Hidx.
  split; [|split].
  - intros key link Hlook.
    apply citations_lookup in Hlook as (_ & meta & Hmeta & <-).
    apply Hidx in Hmeta as (pair & f & c & l & Hpair & Hm & Hk & Hl & ->).
    exists pair, f, c. now repeat split.
  - intros doc Hdoc Hfound.
    assert (In (doc_page doc) (map doc_page docs)) as Hpair by now apply in_map.
    pose proof (members_nonempty _ docs Hpair) as Hne.
    destruct (members (doc_page doc) docs) as [|f c] eqn:Hm; [contradiction |].
    destruct (source_url_returns s3 (md_s3_key (metadata f))) as [link Hlink].
    exists f, c, link. repeat split; [exact Hlink |].
    apply citations_lookup. split.
    + apply in_map_iff. now exists (get_document_id doc, str_page (get_page_number doc)).
    + exists (entry_of f link). split; [|reflexivity].
      apply Hidx. exists (doc_page doc), f, c, link. now repeat split.
  - intros doc_id p Hnot.
    destruct ((append_sources doc_metadata llm_answer).2 !! _) as [link|] eqn:Hlook;
      [|reflexivity].
    apply citations_lookup in Hlook as (_ & meta & Hmeta & _).
    apply Hidx in Hmeta as (pair & f & c & l & Hpair & _ & Hk & _).
    apply (key_of_page_inj (doc_id, p)) in Hk. now subst pair.
Qed.

Lemma id_char_not_comma (c : ascii) :
  Regex.is_id_char c = true → Markers.not_comma c = true.
Proof. destruct c as [[] [] [] [] [] [] [] []]; vm_compute; congruence. Qed.

Lemma before_comma_no_comma (s : string) :
  PyStr.all_chars Markers.not_comma (Markers.before_comma s) = true.
Proof.
  induction s as [|c s IH]; [reflexivity |]. simpl.
  destruct (Ascii.eqb c ",") eqn:E; [reflexivity |].
  simpl. unfold Markers.not_comma at 1. now rewrite E, IH.
Qed.

Lemma before_comma_split (s t : string) :
  ∃ rest, s +:+ String "," t = Markers.before_comma s +:+ String "," rest.
Proof.
  induction s as [|c s [rest IH]]; [now exists t |]. simpl.
  destruct (Ascii.eqb_spec c ",") as [->|_].
  - exists (s +:+ String "," t). reflexivity.
  - exists rest. rewrite !str_app_cons. now rewrite IH.
Qed.

(** The id the pattern reads from a key is the part of the key before its
    first comma; a key whose part before the comma is not made of id
    characters is the key of no match. *)
Lemma unreadable_key (llm_answer doc_id page : string) :
  PyStr.all_chars Regex.is_id_char (Markers.before_comma doc_id) = false →
  ¬ In (citation_key doc_id page) (map key_of (Regex.findall llm_answer)).
Proof.
  intros Hbad Hin. apply in_map_iff in Hin as ([id pg] & Hk & Hfound).
  apply findall_sound in Hfound as (m & _ & ws1 & ws2 & _ & Hid & _).
  unfold key_of, citation_key in Hk. simpl in Hk.
  destruct (before_comma_split doc_id (" Page " +:+ page)) as [rest Hsplit].
  change (doc_id +:+ ", Page " +:+ page)
    with (doc_id +:+ String "," (" Page " +:+ page)) in Hk.
  rewrite Hsplit in Hk.
  apply (split_at_first ",") in Hk as [-> _].
  - congruence.
  - apply (all_chars_weaken Regex.is_id_char); [apply id_char_not_comma | exact Hid].
  - apply before_comma_no_comma.
Qed.

(** X4. A document whose id, up to its first comma, holds a character
    outside [A-Z0-9-_] can never be cited: whatever the answer says and
    whatever the index holds, no key of that document reaches the unique
    citations or the citations map. *)
Theorem uncitable_document_id (doc_metadata : gmap string DocMeta)
  (llm_answer doc_id page : string) :
  PyStr.all_chars Regex.is_id_char (Markers.before_comma doc_id) = false →
  (append_sources doc_metadata llm_answer).2 !! citation_key doc_id page = None
  ∧ ¬ In (citation_key doc_id page)
        (unique_citations (Regex.findall llm_answer)).
Proof.
  intros Hbad.
  pose proof (unreadable_key llm_answer doc_id page Hbad) as Hnot.
  split.
  - destruct (_ !! _) as [link|] eqn:Hlook; [|reflexivity].
    apply citations_lookup in Hlook as [Hin _]. contradiction.
  - rewrite unique_citations_first_seen. intros Hin.
    apply Hnot. exact (proj1 (first_seen_In _ _) Hin).
Qed.

End TurnFacts.

Lemma get_docs_index_witness :
  ∃ context doc_metadata,
    Context.get_docs Links.flaky_s3 (Retrieval.float_store "Who is he?" 16 None) =
      Py.Returned (context, doc_metadata)
    ∧ doc_metadata !! "DOC-002, Page 1.0" =
        Some (Index.entry_of
                (Retrieval.float_passage "DOC-002" float_1
                   "The flight log lists two passengers.")
                "N/A")
    ∧ doc_metadata !! "DOC-002, Page 1" = None.
Proof.
  destruct (get_docs_blocks Links.flaky_s3 (Retrieval.float_store "Who is he?" 16 None))
    as (blocks & md & Hrun & _).
  eexists _, md. split; [exact Hrun |].
  destruct (get_docs_index Links.flaky_s3 _ _ _ Hrun) as (Hpages & _ & Habsent).
  split.
  - destruct (Hpages ("DOC-002", PageNumber (NFloat float_1)))
      as (f & c & l & Hm & Hl & Hlook).
    { vm_compute. right. left. reflexivity. }
    vm_compute in Hm. injection Hm as <- <-.
    vm_compute in Hl. injection Hl as <-.
    exact Hlook.
  - apply (Habsent "DOC-002" (PageNumber (NInt 1))).
    vm_compute. intros [H|[H|[H|[]]]]; discriminate.
Defined.

Lemma citations_are_retrieved_pages_witness :
  ∃ context doc_metadata,
    Context.get_docs Links.flaky_s3 (Retrieval.float_store "Who is he?" 16 None) =
      Py.Returned (context, doc_metadata)
    ∧ (Citations.append_sources doc_metadata
         "He flew to Paris (DOC-001, Page 3.0), not to Rome (DOC-999, Page 1.0).").2
        !! "DOC-999, Page 1.0" = None
    ∧ is_Some
        ((Citations.append_sources doc_metadata
            "He flew to Paris (DOC-001, Page 3.0), not to Rome (DOC-999, Page 1.0).").2
           !! "DOC-001, Page 3.0").
Proof.
  destruct (get_docs_blocks Links.flaky_s3 (Retrieval.float_store "Who is he?" 16 None))
    as (blocks & md & Hrun & _).
  eexists _, md. split; [exact Hrun |].
  destruct (citations_are_retrieved_pages Links.flaky_s3 _ _ _
              "He flew to Paris (DOC-001, Page 3.0), not to Rome (DOC-999, Page 1.0)." Hrun)
    as (_ & Hfound & Habsent).
  split.
  - apply (Habsent "DOC-999" (PageNumber (NFloat float_1))).
    vm_compute. intros [H|[H|[H|[]]]]; discriminate.
  - destruct (Hfound (Retrieval.float_passage "DOC-001" float_3 "Epstein flew to Paris."))
      as (f & c & l & _ & _ & Hlook).
    + vm_compute. left. reflexivity.
    + vm_compute. left. reflexivity.
    + exists l. exact Hlook.
Defined.

Lemma uncitable_document_id_witness :
  (Citations.append_sources
     {[ "dataset1_EFTA00001, Page 1" :=
          {| Context.source := "DOJ"; Context.document_id := "dataset1_EFTA00001";
             Context.page := PageNumber (NInt 1); Context.s3_key := None;
             Context.url := "N/A" |} ]}
     "It is on file (dataset1_EFTA00001, Page 1).").2
    !! "dataset1_EFTA00001, Page 1" = None.
Proof.
  apply (uncitable_document_id _ _ "dataset1_EFTA00001" "1").
  vm_compute. reflexivity.
Defined.

(** ** More on the session store *)

Section SessionIsolation.

Import Sessions.

Lemma messages_of_set_ne (sid sid' : string) (msgs : list Message) (store : Store) :
  sid' ≠ sid →
  messages_of sid' (set_messages sid msgs store) = messages_of sid' store.
Proof.
  intros Hne. induction store as [|[k old] rest IH]; [reflexivity |].
  simpl. destruct (String.eqb_spec k sid) as [->|Hk]; simpl.
  - destruct (String.eqb_spec sid sid') as [->|_]; [contradiction | reflexivity].
  - now rewrite IH.
Qed.

Lemma messages_of_app_r (sid : string) (front back : Store) (msgs : list Message) :
  NoDup (map fst (front ++ back)) →
  messages_of sid back = Some msgs →
  messages_of sid (front ++ back) = Some msgs.
Proof.
  intros Hnd Hback. induction front as [|[k old] front IH]; [exact Hback |].
  simpl in *. apply NoDup_cons in Hnd as [Hk Hnd].
  destruct (String.eqb_spec k sid) as [->|_]; [|now apply IH].
  exfalso. apply Hk. rewrite map_app. apply elem_of_app. right.
  apply list_elem_of_In, has_session_true.
  destruct (has_session sid back) eqn:E; [reflexivity |].
  apply messages_of_none in E. congruence.
Qed.

Lemma messages_of_app_l (sid : string) (front back : Store) :
  has_session sid back = false →
  messages_of sid (front ++ back) = messages_of sid front.
Proof.
  intros Hback. induction front as [|[k old] front IH].
  - simpl. now apply messages_of_none.
  - simpl. destruct (String.eqb k sid); [reflexivity | exact IH].
Qed.

(** X5. Fetching a history twice in a row is the same as fetching it once:
    the second fetch deletes nothing, leaves the store as it is and
    returns the same messages. *)
Theorem get_session_history_idempotent (sid : string) (store : Store) :
  get_session_history sid (get_session_history sid store).1.1 =
    ((get_session_history sid store).1.1, (get_session_history sid store).1.2, 0).
Proof.
  destruct (get_session_history_history sid store) as [Hh Hs].
  rewrite (get_session_history_known _ _ _ Hs).
  assert (PyStr.last_items 4 (get_session_history sid store).1.2 =
          (get_session_history sid store).1.2) as Hsame.
  { apply last_items_short. rewrite Hh, last_items_length. lia. }
  rewrite Hsame, (set_messages_same _ _ _ Hs). reflexivity.
Qed.

(** X6. Sessions do not touch each other's histories: in a store with
    distinct ids, a history found under another id after a fetch, an
    append or a whole turn of [sid] is the history that id had before. *)
Theorem other_sessions_untouched (sid sid' : string) (store : Store) :
  NoDup (map fst store) → sid' ≠ sid →
  (∀ msgs, messages_of sid' (get_session_history sid store).1.1 = Some msgs →
           messages_of sid' store = Some msgs)
  ∧ (has_session sid store = true →
     messages_of sid' (get_session_history sid store).1.1 = messages_of sid' store)
  ∧ (∀ m, messages_of sid' (add_message sid m store) = messages_of sid' store)
  ∧ (∀ q a msgs, messages_of sid' (turn sid q a store) = Some msgs →
                 messages_of sid' store = Some msgs).
Proof.
  intros Hnd Hne.
  assert (∀ m st, messages_of sid' (add_message sid m st) = messages_of sid' st)
    as Hadd.
  { intros m st. unfold add_message.
    destruct (messages_of sid st); [now apply messages_of_set_ne | reflexivity]. }
  assert (∀ msgs, messages_of sid' (get_session_history sid store).1.1 = Some msgs →
                  messages_of sid' store = Some msgs) as Hget.
  { intros msgs. destruct (has_session sid store) eqn:E.
    - destruct (messages_of_some _ _ E) as [old Hold].
      rewrite (get_session_history_known _ _ _ Hold). simpl.
      now rewrite messages_of_set_ne.
    - rewrite (get_session_history_new _ _ E). simpl.
      rewrite messages_of_app_l.
      + intros Hkept. rewrite <- (firstn_skipn (length store - (MAX_SESSIONS - 1)) store).
        apply messages_of_app_r; [now rewrite firstn_skipn | exact Hkept].
      + unfold has_session. simpl.
        destruct (String.eqb_spec sid' sid) as [->|_]; [contradiction | reflexivity]. }
  split; [exact Hget | split; [|split; [exact (fun m => Hadd m store) |]]].
  - intros Hk. destruct (messages_of_some _ _ Hk) as [old Hold].
    rewrite (get_session_history_known _ _ _ Hold). simpl.
    now apply messages_of_set_ne.
  - intros q a msgs. unfold turn.
    pose proof Hget as Hget'.
    destruct (get_session_history sid store) as [[store' h] n]. simpl in Hget'.
    rewrite !Hadd. apply Hget'.
Qed.

End SessionIsolation.

Lemma other_sessions_untouched_witness :
  Sessions.messages_of "bob"
    [("bob", [Sessions.human "hi"; Sessions.ai "hello"]); ("alice", [])] =
    Some [Sessions.human "hi"; Sessions.ai "hello"].
Proof.
  assert (NoDup (map fst [("bob", [Sessions.human "hi"; Sessions.ai "hello"]);
                          ("alice", @nil Sessions.Message)])) as Hnd.
  { apply (bool_decide_unpack _). vm_compute. reflexivity. }
  assert ("bob" ≠ "alice") as Hne by discriminate.
  destruct (other_sessions_untouched "alice" "bob" _ Hnd Hne) as (_ & _ & _ & Hturn).
  apply (Hturn "Who is he?" "I don't know."). vm_compute. reflexivity.
Defined.

(** ** The chat endpoint *)

Section ApiFacts.

Import Api.

(** X7. A request without a message of 1 to 2000 characters or without
    the key header is refused with 422, and a valid one the limiter does
    not admit with 429. An admitted request is answered 500 when no key is
    configured, 403 when its key is not the configured one, 503 when the
    chain is not initialised, 500 with the message when the chain raises,
    and otherwise with the answer and citations of the run under its
    session id. The chain runs at most once, and only in the last two
    cases. *)
Theorem chat_runs_chain_only_when_authorized (limiter : list string → string → bool)
  (expected_key : option string) (rag_chain : option Chain) (incoming : Incoming) :
  let result := chat limiter expected_key rag_chain incoming in
  (is_Some (validate incoming) ↔
   ∃ message x_api_key,
     body_message incoming = Some message
     ∧ header_x_api_key incoming = Some x_api_key
     ∧ 1 ≤ String.length message ≤ 2000)
  ∧ (validate incoming = None → result = (Refused 422, []))
  ∧ ∀ chat_request x_api_key,
      validate incoming = Some (chat_request, x_api_key) →
      (limiter ["300/hour"; "10/minute"] (remote_address incoming) = false →
       result = (Refused 429, []))
      ∧ (limiter ["300/hour"; "10/minute"] (remote_address incoming) = true →
         (PyStr.truthy expected_key = false →
          result = (HTTPException 500 "Server configuration error", []))
         ∧ (PyStr.truthy expected_key = true → expected_key ≠ Some x_api_key →
            result = (HTTPException 403 "Invalid API key", []))
         ∧ (PyStr.truthy expected_key = true → expected_key = Some x_api_key →
            rag_chain = None →
            result = (HTTPException 503 "RAG chain not initialized", []))
         ∧ ∀ chain,
             PyStr.truthy expected_key = true → expected_key = Some x_api_key →
             rag_chain = Some chain →
             result.2 = [(message chat_request, session_id chat_request)]
             ∧ match chain (message chat_request) (session_id chat_request) with
               | Py.Returned run =>
                   result.1 =
                     Replied {| answer := run_answer run;
                                citations := run_citations run;
                                tokens_used := run_total_tokens run;
                                prompt_tokens := run_prompt_tokens run;
                                completion_tokens := run_completion_tokens run;
                                response_session_id := session_id chat_request |}
               | Py.Raised e =>
                   result.1 = HTTPException 500 ("Error processing request: " +:+ e)
               end).
Proof.
  cbv zeta. split; [|split].
  - unfold validate.
    destruct (body_message incoming) as [m|], (header_x_api_key incoming) as [key|].
    2-4: (split; [intros [? [=]] | intros (? & ? & H1 & H2 & _); discriminate]).
    destruct ((1 <=? String.length m) && (String.length m <=? 2000)) eqn:Hlen.
    + split; [|eauto]. intros _. exists m, key.
      apply andb_prop in Hlen as [H1 H2].
      apply Nat.leb_le in H1, H2. now repeat split.
    + split; [intros [? [=]] |]. intros (m' & key' & [= <-] & _ & H1 & H2).
      apply Nat.leb_le in H1, H2. rewrite H1, H2 in Hlen. discriminate.
  - unfold chat. now intros ->.
  - intros chat_request x_api_key Hvalid. unfold chat. rewrite Hvalid.
    unfold rate_limits. split; [now intros -> |]. intros ->.
    unfold chat_body.
    destruct expected_key as [[|c expected]|].
    1,3: (split; [reflexivity |]; repeat split; intros; discriminate).
    split; [discriminate |].
    destruct (String.eqb_spec x_api_key (String c expected)) as [->|Hkey]; cbn [negb].
    + split; [congruence |]. split.
      * now intros _ _ ->.
      * intros chain _ _ ->.
        destruct (chain (message chat_request) (session_id chat_request));
          now split.
    + split; [reflexivity |]. split; intros; congruence.
Qed.

End ApiFacts.

Lemma chat_runs_chain_only_when_authorized_witness :
  Api.chat Api.busy_limiter (Some "secret") (Some Api.echo_chain)
    {| Api.body_message := Some "Who is he?"; Api.body_session_id := None;
       Api.header_x_api_key := Some "secret";
       Api.remote_address := "203.0.113.7" |} =
    (Api.Refused 429, [])
  ∧ Api.chat Api.busy_limiter (Some "secret") None
      {| Api.body_message := Some "Who is he?"; Api.body_session_id := None;
         Api.header_x_api_key := Some "secret";
         Api.remote_address := "198.51.100.2" |} =
      (Api.HTTPException 503 "RAG chain not initialized", []).
Proof.
  split.
  - destruct (chat_runs_chain_only_when_authorized Api.busy_limiter (Some "secret")
                (Some Api.echo_chain)
                {| Api.body_message := Some "Who is he?"; Api.body_session_id := None;
                   Api.header_x_api_key := Some "secret";
                   Api.remote_address := "203.0.113.7" |})
      as (_ & _ & Hvalid).
    destruct (Hvalid {| Api.message := "Who is he?"; Api.session_id := "default" |}
                "secret" eq_refl) as [Hbusy _].
    apply Hbusy. reflexivity.
  - destruct (chat_runs_chain_only_when_authorized Api.busy_limiter (Some "secret") None
                {| Api.body_message := Some "Who is he?"; Api.body_session_id := None;
                   Api.header_x_api_key := Some "secret";
                   Api.remote_address := "198.51.100.2" |})
      as (_ & _ & Hvalid).
    destruct (Hvalid {| Api.message := "Who is he?"; Api.session_id := "default" |}
                "secret" eq_refl) as [_ Hadmitted].
    destruct (Hadmitted eq_refl) as (_ & _ & Hchain & _).
    apply Hchain; reflexivity.
Defined.

(** ** Paths *)

Section PathFacts.

Import Paths.

Lemma split_nonempty (c : ascii) (s : string) : split c s ≠ [].
Proof.
  induction s as [|x s IH]; simpl; [discriminate |].
  destruct (Ascii.eqb x c); [discriminate |].
  destruct (split c s); [contradiction | discriminate].
Qed.

Lemma split_app (c : ascii) (a b : string) :
  split c (a +:+ String c b) = split c a ++ split c b.
Proof.
  induction a as [|x a IH].
  - rewrite str_app_nil_l. simpl. now rewrite Ascii.eqb_refl.
  - rewrite str_app_cons. simpl. rewrite IH.
    destruct (Ascii.eqb x c); [reflexivity |].
    pose proof (split_nonempty c a) as Hne.
    destruct (split c a); [contradiction | reflexivity].
Qed.

Lemma split_plain (c : ascii) (s : string) :
  PyStr.all_chars (fun x => negb (Ascii.eqb x c)) s = true → split c s = [s].
Proof.
  induction s as [|x s IH]; [reflexivity |]. simpl. intros H.
  apply andb_prop in H as [Hx Hs]. apply negb_true_iff in Hx.
  now rewrite Hx, (IH Hs).
Qed.

Lemma split_parts_plain (c : ascii) (s part : string) :
  In part (split c s) → PyStr.all_chars (fun x => negb (Ascii.eqb x c)) part = true.
Proof.
  revert part. induction s as [|x s IH]; intros part; simpl.
  - intros [<-|[]]. reflexivity.
  - destruct (Ascii.eqb x c) eqn:Hx.
    + intros [<-|Hin]; [reflexivity | now apply IH].
    + pose proof (split_nonempty c s) as Hne.
      destruct (split c s) as [|p ps]; [contradiction |].
      intros [<-|Hin].
      * simpl. rewrite Hx. simpl. apply IH. now left.
      * apply IH. now right.
Qed.

Lemma last_in_or_default {A : Type} (l : list A) (d : A) :
  List.last l d = d ∧ l = [] ∨ In (List.last l d) l.
Proof.
  induction l as [|x l IH]; [now left |]. right.
  destruct l as [|y l]; [now left |].
  destruct IH as [[_ H]|H]; [discriminate |]. right. exact H.
Qed.

(** The name of a path is a component: it has no slash, and it is not
    ["."]. *)
Lemma name_component (path : string) :
  PyStr.all_chars not_slash (name path) = true ∧ name path ≠ ".".
Proof.
  unfold name. destruct (last_in_or_default (parts path) "") as [[-> _]|Hin].
  - now split.
  - unfold parts in Hin. apply filter_In in Hin as [Hin Hkeep].
    split; [now apply (split_parts_plain "/" path) |].
    apply andb_prop in Hkeep as [_ Hdot]. apply negb_true_iff in Hdot.
    apply String.eqb_neq in Hdot. exact Hdot.
Qed.

(** The name of [dir/component]. *)
Lemma name_of_component (dir component : string) :
  PyStr.all_chars not_slash component = true →
  component ≠ "" → component ≠ "." →
  name (dir +:+ String "/" component) = component.
Proof.
  intros Hplain Hne Hdot. unfold name, parts.
  rewrite split_app, List.filter_app, (split_plain "/" component Hplain).
  simpl. apply String.eqb_neq in Hne, Hdot. rewrite Hne, Hdot. simpl.
  apply last_last.
Qed.




(** The stem starts like the name. *)
Lemma stem_first_char (path : string) (c : ascii) (rest : string) :
  name path = String c rest → ∃ rest', stem path = String c rest'.
Proof.
  intros Hname. unfold stem. rewrite Hname.
  destruct (suffix_at (String c rest)) as [i|] eqn:E; [|eauto].
  unfold suffix_at in E. destruct (rfind_dot (String c rest)) as [j|]; [|discriminate].
  destruct (0 <? j) eqn:Hj; [|discriminate]. simpl in E.
  destruct (j + 1 <? _); [|discriminate]. injection E as <-.
  apply Nat.ltb_lt in Hj. destruct j as [|j]; [lia |]. simpl. eauto.
Qed.




End PathFacts.

(** ** Organising the bucket *)

Section OrganizeFacts.

Import Organize.

Lemma prefix_occurs (m h : string) :
  String.prefix m h = true → ∃ after, h = m +:+ after.
Proof.
  revert h. induction m as [|c m IH]; intros h H.
  - exists h. reflexivity.
  - destruct h as [|x h]; simpl in H; [discriminate |].
    destruct (ascii_dec c x) as [->|_]; [|discriminate].
    destruct (IH _ H) as [after ->]. now exists after.
Qed.

Lemma contains_occurs (m text : string) :
  PyStr.contains m text = true → Regex.occurs_in m text.
Proof.
  induction text as [|c text IH]; cbn [PyStr.contains]; intros H.
  - rewrite orb_false_r in H. apply prefix_occurs in H as [after ->].
    now exists "", after.
  - apply orb_prop in H as [H|H].
    + apply prefix_occurs in H as [after ->]. now exists "", after.
    + destruct (IH H) as (before & after & ->). now exists (String c before), after.
Qed.

Lemma fold_keys (keep : string → bool) (contents acc : list string) :
  fold_left (fun files key => if keep key then files ++ [key] else files)
    contents acc =
  acc ++ List.filter keep contents.
Proof.
  revert acc. induction contents as [|key contents IH]; intros acc; simpl.
  - now rewrite app_nil_r.
  - rewrite IH. destruct (keep key); [now rewrite <- app_assoc | reflexivity].
Qed.

Lemma fold_pages (keep : string → bool) (pages : list (option (list string)))
  (acc : list string) :
  fold_left
    (fun files page =>
       match page with
       | Some contents =>
           fold_left (fun files key => if keep key then files ++ [key] else files)
             contents files
       | None => files
       end)
    pages acc =
  acc ++ List.filter keep (listed_keys pages).
Proof.
  revert acc. induction pages as [|page pages IH]; intros acc.
  - simpl. now rewrite app_nil_r.
  - cbn [fold_left]. rewrite IH. unfold listed_keys. cbn [map concat].
    rewrite List.filter_app, app_assoc. f_equal.
    destruct page as [contents|]; simpl; [apply fold_keys | now rewrite app_nil_r].
Qed.

(** X8. [get_all_files_in_prefix] returns the listed keys in which the
    organised prefix does not occur, in listing order and as often as they
    are listed, so a key that a file was copied to is never picked up
    again; with an empty organised prefix it returns nothing at all, since
    the empty string occurs in every key. *)
Theorem organized_files_are_skipped (organized_prefix : string)
  (pages : list (option (list string))) :
  get_all_files_in_prefix organized_prefix pages =
    List.filter (fun key => negb (PyStr.contains organized_prefix key))
      (listed_keys pages)
  ∧ (∀ key, PyStr.contains organized_prefix key = true ↔
            Regex.occurs_in organized_prefix key)
  ∧ (∀ key, In key (get_all_files_in_prefix organized_prefix pages) ↔
          In key (listed_keys pages) ∧ ¬ Regex.occurs_in organized_prefix key)
  ∧ (∀ s3_key, ¬ In (new_s3_key organized_prefix s3_key)
                   (get_all_files_in_prefix organized_prefix pages))
  ∧ get_all_files_in_prefix "" pages = [].
Proof.
  assert (∀ prefix, get_all_files_in_prefix prefix pages =
            List.filter (fun key => negb (PyStr.contains prefix key)) (listed_keys pages))
    as Hfilter.
  { intros prefix. unfold get_all_files_in_prefix.
    now rewrite (fold_pages (fun key => negb (PyStr.contains prefix key))). }
  assert (∀ key, In key (get_all_files_in_prefix organized_prefix pages) ↔
            In key (listed_keys pages) ∧ ¬ Regex.occurs_in organized_prefix key)
    as Hkept.
  { intros key. rewrite Hfilter, filter_In, negb_true_iff. split.
    - intros [Hin Hc]. split; [exact Hin |]. intros Hocc.
      apply occurs_in_contains in Hocc. congruence.
    - intros [Hin Hocc]. split; [exact Hin |].
      destruct (PyStr.contains organized_prefix key) eqn:Hc; [|reflexivity].
      exfalso. apply Hocc. now apply contains_occurs. }
  split; [apply Hfilter |].
  split; [intros key; split; [apply contains_occurs | apply occurs_in_contains] |].
  split; [exact Hkept | split].
  - intros s3_key Hin. apply Hkept in Hin as [_ Hocc]. apply Hocc.
    exists "". eexists. unfold new_s3_key. reflexivity.
  - rewrite Hfilter. clear Hfilter Hkept.
    induction (listed_keys pages) as [|key keys IH]; [reflexivity |].
    simpl. destruct key; exact IH.
Qed.

End OrganizeFacts.

(** ** Selecting the PDFs to ingest *)

Section IngestKeyFacts.

Import Ingest.

Lemma pdf_keys_unlimited (pages : list (option (list string))) :
  pdf_keys pages None =
    List.filter (fun key => Paths.ends_with ".pdf" (PyStr.lower key))
      (Organize.listed_keys pages).
Proof.
  unfold pdf_keys.
  now rewrite (fold_pages (fun key => Paths.ends_with ".pdf" (PyStr.lower key))).
Qed.

(** X9. The PDFs to process are the listed keys that end in [.pdf] in any
    case, in listing order. A positive limit keeps the first [limit] of
    them; no limit and a limit of 0 keep them all; a negative limit drops
    that many from the end. *)
Theorem pdf_keys_limit (pages : list (option (list string))) :
  let all := pdf_keys pages None in
  all = List.filter (fun key => Paths.ends_with ".pdf" (PyStr.lower key))
          (Organize.listed_keys pages)
  ∧ pdf_keys pages (Some 0%Z) = all
  ∧ (∀ n, (0 < n)%Z → pdf_keys pages (Some n) = firstn (Z.to_nat n) all)
  ∧ (∀ n, (n < 0)%Z →
       pdf_keys pages (Some n) = firstn (length all - Z.to_nat (- n)) all).
Proof.
  cbv zeta. split; [apply pdf_keys_unlimited |].
  split; [reflexivity | split].
  - intros n Hn. unfold pdf_keys.
    destruct (Z.eqb_spec n 0); [lia |]. unfold slice_to.
    destruct (Z.leb_spec 0 n); [reflexivity | lia].
  - intros n Hn. unfold pdf_keys.
    destruct (Z.eqb_spec n 0); [lia |]. unfold slice_to.
    destruct (Z.leb_spec 0 n); [lia |]. f_equal. lia.
Qed.

End IngestKeyFacts.

Lemma pdf_keys_limit_witness :
  Ingest.pdf_keys [Some ["a.pdf"; "b.txt"; "c.PDF"]; None; Some ["d.pdf"]] (Some 2%Z) =
    ["a.pdf"; "c.PDF"]
  ∧ Ingest.pdf_keys [Some ["a.pdf"; "b.txt"; "c.PDF"]; None; Some ["d.pdf"]]
      (Some (-1)%Z) = ["a.pdf"; "c.PDF"].
Proof.
  destruct (pdf_keys_limit [Some ["a.pdf"; "b.txt"; "c.PDF"]; None; Some ["d.pdf"]])
    as (_ & _ & Hpos & Hneg).
  split.
  - rewrite Hpos by lia. vm_compute. reflexivity.
  - rewrite Hneg by lia. vm_compute. reflexivity.
Defined.

(** ** From the organised bucket to the document id *)

Section OrganizedDocuments.

Import Organize.

Lemma stem_of_name (a b : string) :
  Paths.name a = Paths.name b → Paths.stem a = Paths.stem b.
Proof. unfold Paths.stem. now intros ->. Qed.

Lemma suffix_of_name (a b : string) :
  Paths.name a = Paths.name b → Paths.suffix a = Paths.suffix b.
Proof. unfold Paths.suffix. now intros ->. Qed.

Lemma new_s3_key_name (organized_prefix s3_key : string) :
  Paths.name s3_key ≠ "" →
  Paths.name (new_s3_key organized_prefix s3_key) = Paths.name s3_key.
Proof.
  intros Hne. destruct (name_component s3_key) as [Hplain Hdot].
  unfold new_s3_key.
  rewrite <- (str_app_assoc organized_prefix).
  now apply name_of_component.
Qed.



(** X10. Organising a file keeps its name, so the document id the
    ingestion derives from the new key, [Path(key).stem], is the one of the
    original key, and the new key is classified as the original was. It
    holds for every key that has a name. *)
Theorem organizing_keeps_document_id (organized_prefix s3_key : string) :
  Paths.name s3_key ≠ "" →
  Ingest.document_id_of (new_s3_key organized_prefix s3_key) =
    Ingest.document_id_of s3_key
  ∧ get_file_type (new_s3_key organized_prefix s3_key) = get_file_type s3_key.
Proof.
  intros Hne. pose proof (new_s3_key_name organized_prefix s3_key Hne) as Hname.
  split.
  - now apply stem_of_name.
  - unfold get_file_type. now rewrite (suffix_of_name _ _ Hname).
Qed.


Lemma int_char_not_slash (c : ascii) :
  PyStr.is_int_char c = true → Paths.not_slash c = true.
Proof.
  destruct c as [[] [] [] [] [] [] [] []]; vm_compute; congruence.
Qed.

Lemma doj_component (dataset_num : Z) (filename : string) :
  PyStr.all_chars Paths.not_slash filename = true →
  PyStr.all_chars Paths.not_slash
    ("dataset" +:+ PyStr.str_int dataset_num +:+ "_" +:+ filename) = true.
Proof.
  intros Hplain. rewrite !all_chars_app, Hplain.
  rewrite (all_chars_weaken PyStr.is_int_char Paths.not_slash _
             int_char_not_slash (str_int_chars dataset_num)).
  reflexivity.
Qed.

Lemma doj_document_id (dataset_num : Z) (file_path key : string) :
  doj_s3_key dataset_num file_path = Some key →
  ∃ rest, Ingest.document_id_of key = String "d" rest.
Proof.
  unfold doj_s3_key. destruct (Paths.ends_with "/" file_path); [discriminate |].
  intros [= <-]. destruct (name_component file_path) as [Hplain _].
  apply (stem_first_char _ "d"
           ("ataset" +:+ PyStr.str_int dataset_num +:+ "_" +:+ Paths.name file_path)).
  change ("organized/" +:+ get_file_type file_path +:+ "/dataset"
          +:+ PyStr.str_int dataset_num +:+ "_" +:+ Paths.name file_path)
    with ("organized/" +:+ get_file_type file_path
          +:+ String "/" ("dataset" +:+ PyStr.str_int dataset_num +:+ "_"
                          +:+ Paths.name file_path)).
  rewrite <- str_app_assoc.
  apply name_of_component; [now apply doj_component | discriminate | discriminate].
Qed.

(** X12. Every file of a DOJ data set is stored under a name that starts
    with [dataset], so its document id starts with a lowercase letter,
    which the citation pattern [[A-Z0-9\-_]+] does not read. Whatever the
    answer says and whatever the index holds, no citation key of such a
    document is among the unique citations or in the citations map; and
    when the index is the one [get_docs] left behind, no entry listed in
    the Sources section carries the id of such a document. *)
Theorem doj_documents_are_never_cited (dataset_num : Z) (file_path key : string) :
  doj_s3_key dataset_num file_path = Some key →
  let doc_id := Ingest.document_id_of key in
  (∃ rest, doc_id = String "d" rest)
  ∧ (∀ (doc_metadata : gmap string Context.DocMeta) (llm_answer page : string),
       (Citations.append_sources doc_metadata llm_answer).2
         !! Context.citation_key doc_id page = None
       ∧ ¬ In (Context.citation_key doc_id page)
             (Citations.unique_citations (Regex.findall llm_answer)))
  ∧ ∀ (s3 : Links.S3) (docs : list Document) (context : string)
      (doc_metadata : gmap string Context.DocMeta) (llm_answer : string),
      Context.get_docs s3 docs = Py.Returned (context, doc_metadata) →
      let entries :=
        Citations.listed doc_metadata
          (Context.first_seen (map Citations.key_of (Regex.findall llm_answer))) in
      (Citations.append_sources doc_metadata llm_answer).1 =
        match Regex.findall llm_answer with
        | [] => llm_answer
        | _ :: _ =>
            llm_answer +:+ Citations.sources_header +:+ Citations.lines_text entries
        end
      ∧ ∀ entry, In entry entries → Context.document_id entry.2 ≠ doc_id.
Proof.
  intros Hkey doc_id. destruct (doj_document_id _ _ _ Hkey) as [rest Hid].
  fold doc_id in Hid.
  assert (∀ llm_answer page,
            ¬ In (Context.citation_key doc_id page)
                (map Citations.key_of (Regex.findall llm_answer))) as Hnot.
  { intros llm_answer page. apply unreadable_key. rewrite Hid. reflexivity. }
  split; [now exists rest | split].
  - intros doc_metadata llm_answer page. split.
    + destruct (_ !! _) as [link|] eqn:Hlook; [|reflexivity].
      apply citations_lookup in Hlook as [Hin _]. now apply Hnot in Hin.
    + rewrite unique_citations_first_seen. intros Hin.
      apply (Hnot llm_answer page). exact (proj1 (first_seen_In _ _) Hin).
  - intros s3 docs context doc_metadata llm_answer Hrun. cbv zeta. split.
    + now rewrite append_sources_spec.
    + intros [k meta] Hin Hsame. simpl in Hsame.
      apply listed_In in Hin as [Hk Hmeta].
      apply (doc_metadata_lookup s3 docs context doc_metadata Hrun) in Hmeta
        as (pair & first_chunk & chunks & link & _ & Hmembers & -> & _ & ->).
      assert (Context.doc_page first_chunk = pair) as Hpair.
      { assert (In first_chunk (Context.members pair docs)) as Hfirst
          by (rewrite Hmembers; now left).
        unfold Context.members in Hfirst. apply filter_In in Hfirst as [_ Hfirst].
        now apply bool_decide_eq_true in Hfirst. }
      subst pair. simpl in Hsame.
      apply (Hnot llm_answer (str_page (get_page_number first_chunk))).
      rewrite <- Hsame. exact (proj1 (first_seen_In _ _) Hk).
Qed.

End OrganizedDocuments.

Lemma organizing_keeps_document_id_witness :
  Ingest.document_id_of (Organize.new_s3_key "organized/" "inbox/EFTA-001.pdf") =
    "EFTA-001".
Proof.
  rewrite (proj1 (organizing_keeps_document_id "organized/" "inbox/EFTA-001.pdf"
                    ltac:(vm_compute; discriminate))).
  vm_compute. reflexivity.
Defined.


Lemma doj_documents_are_never_cited_witness :
  Organize.doj_s3_key 3 "VOL00001/IMAGES/0001.pdf" =
    Some "organized/pdfs/dataset3_0001.pdf"
  ∧ (Citations.append_sources Citations.small_index
       "See (dataset3_0001, Page 1.0).").2
      !! Context.citation_key (Ingest.document_id_of "organized/pdfs/dataset3_0001.pdf")
           "1.0"
    = None.
Proof.
  split; [vm_compute; reflexivity |].
  destruct (doj_documents_are_never_cited 3 "VOL00001/IMAGES/0001.pdf"
              "organized/pdfs/dataset3_0001.pdf") as (_ & Hkeys & _).
  { vm_compute. reflexivity. }
  apply (Hkeys Citations.small_index "See (dataset3_0001, Page 1.0)." "1.0").
Defined.

(** ** Chunks and their ids *)

Section ChunkFacts.

Import Chunking Upload.

Variable chunk_size : Z.
Variable split_text : string → list string.
Variable nlp : string → list Entities.Ent.

(** The chunks of a page are the whole page, or what the splitter makes of
    it, or nothing, each with the fields of its position. *)
Lemma chunk_page_shape (page_text : string) (page_number : Z)
  (base_metadata : option (gmap string Value)) :
  ∃ texts,
    chunk_page chunk_size split_text nlp page_text page_number base_metadata =
      imap
        (fun idx chunk =>
           {| chunk_text_of := chunk;
              chunk_metadata :=
                with_chunk_fields nlp (Z.of_nat idx) chunk (Z.of_nat (length texts))
                  (<["page_number" := VInt page_number]> (default ∅ base_metadata)) |})
        texts
    ∧ (texts = [page_text] ∨ texts = split_text page_text ∨ texts = []).
Proof.
  unfold chunk_page. destruct (_ && _).
  - exists [page_text]. split; [reflexivity | now left].
  - unfold chunk_text. destruct (_ || _).
    + exists []. split; [reflexivity | now right; right].
    + exists (split_text page_text). split; [reflexivity | now right; left].
Qed.

Lemma with_chunk_fields_lookup (idx total : Z) (chunk : string)
  (metadata : gmap string Value) :
  let md := with_chunk_fields nlp idx chunk total metadata in
  md !! "chunk_index" = Some (VInt idx)
  ∧ md !! "total_chunks" = Some (VInt total)
  ∧ md !! "text_length" = Some (VInt (Z.of_nat (String.length chunk)))
  ∧ md !! "entities" = Some (VStrs (map PyStr.lower (extract_entities nlp chunk)))
  ∧ ∀ k, k ≠ "chunk_index" → k ≠ "total_chunks" → k ≠ "text_length" →
         k ≠ "entities" → md !! k = metadata !! k.
Proof.
  cbv zeta. unfold with_chunk_fields.
  repeat split; [by simplify_map_eq .. |].
  intros k H1 H2 H3 H4. by simplify_map_eq.
Qed.

(** X13. Every chunk of a page carries the page number it was cut from,
    its position as [chunk_index], the number of chunks of the page as
    [total_chunks], the length of its own text and the lowercased entities
    of its own text; every other key has the value of the base metadata. *)
Theorem chunk_page_metadata (page_text : string) (page_number : Z)
  (base_metadata : option (gmap string Value)) (i : nat) (chunk : Chunk) :
  let chunks :=
    chunk_page chunk_size split_text nlp page_text page_number base_metadata in
  chunks !! i = Some chunk →
  let md := chunk_metadata chunk in
  md !! "page_number" = Some (VInt page_number)
  ∧ md !! "chunk_index" = Some (VInt (Z.of_nat i))
  ∧ md !! "total_chunks" = Some (VInt (Z.of_nat (length chunks)))
  ∧ md !! "text_length" = Some (VInt (Z.of_nat (String.length (chunk_text_of chunk))))
  ∧ md !! "entities" =
      Some (VStrs (map PyStr.lower (extract_entities nlp (chunk_text_of chunk))))
  ∧ ∀ k, ¬ In k chunk_fields → md !! k = default ∅ base_metadata !! k.
Proof.
  cbv zeta.
  destruct (chunk_page_shape page_text page_number base_metadata) as (texts & -> & _).
  rewrite list_lookup_imap, length_imap.
  destruct (texts !! i) as [text|]; [|discriminate]. intros [= <-].
  cbn [chunk_metadata chunk_text_of].
  destruct (with_chunk_fields_lookup (Z.of_nat i) (Z.of_nat (length texts)) text
              (<["page_number" := VInt page_number]> (default ∅ base_metadata)))
    as (Hidx & Htotal & Hlen & Hents & Hother).
  split; [|split; [exact Hidx | split; [exact Htotal | split; [exact Hlen | split;
    [exact Hents |]]]]].
  - rewrite Hother by discriminate. by simplify_map_eq.
  - intros k Hk. unfold chunk_fields in Hk. cbn [In] in Hk.
    rewrite Hother by (intros ->; tauto).
    apply lookup_insert_ne. intros <-. tauto.
Qed.

Lemma chunk_page_lookup (page_text : string) (page_number : Z)
  (base_metadata : option (gmap string Value)) (chunk : Chunk) :
  In chunk (chunk_page chunk_size split_text nlp page_text page_number base_metadata) →
  chunk_metadata chunk !! "page_number" = Some (VInt page_number)
  ∧ ∀ k, ¬ In k chunk_fields →
         chunk_metadata chunk !! k = default ∅ base_metadata !! k.
Proof.
  intros Hin. apply (proj2 (list_elem_of_In _ _)) in Hin.
  apply (proj1 (list_elem_of_lookup _ _)) in Hin as [i Hi].
  destruct (chunk_page_shape page_text page_number base_metadata)
    as (texts & Hshape & _).
  rewrite Hshape, list_lookup_imap in Hi.
  destruct (texts !! i) as [text|]; [|discriminate]. injection Hi as <-.
  cbn [chunk_metadata].
  destruct (with_chunk_fields_lookup (Z.of_nat i) (Z.of_nat (length texts)) text
              (<["page_number" := VInt page_number]> (default ∅ base_metadata)))
    as (_ & _ & _ & _ & Hother).
  split.
  - rewrite Hother by discriminate. by simplify_map_eq.
  - intros k Hk. unfold chunk_fields in Hk. cbn [In] in Hk.
    rewrite Hother by (intros ->; tauto).
    apply lookup_insert_ne. intros <-. tauto.
Qed.

End ChunkFacts.

Section UploadFacts.

Import Chunking Upload.

Variable chunk_size : Z.
Variable split_text : string → list string.
Variable nlp : string → list Entities.Ent.
Variable format_value : Value → string.
Variable md5_hexdigest : string → string.
Variable add_documents : AddCall → Py.outcome unit.

Lemma chunk_ids_returns (s3_key : string) (page_of : Chunk → Value)
  (chunks : list Chunk) :
  Forall (fun c => chunk_metadata c !! "page_number" = Some (page_of c)) chunks →
  chunk_ids format_value md5_hexdigest s3_key chunks =
    Py.Returned
      (map (fun c => generate_id format_value md5_hexdigest s3_key (page_of c)
                       (chunk_text_of c))
         chunks).
Proof.
  induction 1 as [|c chunks Hc _ IH]; [reflexivity |].
  cbn [chunk_ids map]. now rewrite Hc, IH.
Qed.

Lemma chunk_ids_raises (s3_key : string) (chunks : list Chunk) :
  Exists (fun c => chunk_metadata c !! "page_number" = None) chunks →
  chunk_ids format_value md5_hexdigest s3_key chunks =
    Py.Raised "KeyError: 'page_number'".
Proof.
  induction 1 as [c chunks Hc|c chunks _ IH]; cbn [chunk_ids].
  - now rewrite Hc.
  - rewrite IH. now destruct (chunk_metadata c !! "page_number").
Qed.

(** X14. Uploading the chunks of a page never fails on a missing page
    number. For no chunk it returns 0 without a call; otherwise it calls
    [add_documents] once, with the chunks as documents and one id per
    chunk, the id being made of the key, the page number and the text of
    the chunk alone, and returns the number of chunks unless the store
    raises. *)
Theorem upload_of_chunk_page (s3_key page_text : string) (page_number : Z)
  (base_metadata : option (gmap string Value)) :
  let chunks :=
    chunk_page chunk_size split_text nlp page_text page_number base_metadata in
  let call :=
    {| documents := map (fun c => (chunk_text_of c, chunk_metadata c)) chunks;
       ids := map (fun c => generate_id format_value md5_hexdigest s3_key
                              (VInt page_number) (chunk_text_of c)) chunks |} in
  length (ids call) = length (documents call)
  ∧ upload_chunks_to_chroma format_value md5_hexdigest add_documents chunks s3_key =
      match chunks with
      | [] => (Py.Returned 0%Z, [])
      | _ :: _ =>
          match add_documents call with
          | Py.Returned _ => (Py.Returned (Z.of_nat (length chunks)), [call])
          | Py.Raised e => (Py.Raised e, [call])
          end
      end.
Proof.
  cbv zeta. split; [cbn [ids documents]; now rewrite !length_map |].
  set (chunks := chunk_page _ _ _ _ _ _).
  assert (Forall (fun c => chunk_metadata c !! "page_number" = Some (VInt page_number))
            chunks) as Hpages.
  { apply Forall_forall. intros c Hin.
    apply (proj1 (list_elem_of_lookup _ _)) in Hin as [i Hi].
    unfold chunks in Hi.
    destruct (chunk_page_shape chunk_size split_text nlp page_text page_number
                base_metadata) as (texts & Hshape & _).
    rewrite Hshape, list_lookup_imap in Hi.
    destruct (texts !! i) as [text|]; [|discriminate]. injection Hi as <-.
    cbn [chunk_metadata].
    destruct (with_chunk_fields_lookup nlp (Z.of_nat i) (Z.of_nat (length texts)) text
                (<["page_number" := VInt page_number]> (default ∅ base_metadata)))
      as (_ & _ & _ & _ & Hother).
    rewrite Hother by discriminate. by simplify_map_eq. }
  unfold upload_chunks_to_chroma.
  rewrite (chunk_ids_returns s3_key (fun _ => VInt page_number) chunks Hpages).
  destruct chunks; reflexivity.
Qed.

(** X15. If any chunk lacks a page number, the upload raises [KeyError]
    before the store is called: nothing is uploaded, wherever in the list
    the chunk is. *)
Theorem upload_without_page_number (chunks : list Chunk) (s3_key : string) :
  Exists (fun c => chunk_metadata c !! "page_number" = None) chunks →
  upload_chunks_to_chroma format_value md5_hexdigest add_documents chunks s3_key =
    (Py.Raised "KeyError: 'page_number'", []).
Proof.
  intros Hmissing. unfold upload_chunks_to_chroma.
  rewrite (chunk_ids_raises s3_key chunks Hmissing).
  destruct chunks; [inversion Hmissing | reflexivity].
Qed.

Lemma upload_returns (s3_key : string) (chunks : list Chunk) :
  Forall (fun c => is_Some (chunk_metadata c !! "page_number")) chunks →
  chunks ≠ [] →
  ∃ call,
    documents call = map (fun c => (chunk_text_of c, chunk_metadata c)) chunks
    ∧ length (ids call) = length chunks
    ∧ upload_chunks_to_chroma format_value md5_hexdigest add_documents chunks s3_key =
        match add_documents call with
        | Py.Returned _ => (Py.Returned (Z.of_nat (length chunks)), [call])
        | Py.Raised e => (Py.Raised e, [call])
        end.
Proof.
  intros Hpages Hne.
  set (page_of := fun c : Chunk => default (VInt 0) (chunk_metadata c !! "page_number")).
  assert (Forall (fun c => chunk_metadata c !! "page_number" = Some (page_of c)) chunks)
    as Hall.
  { eapply Forall_impl; [exact Hpages |]. intros c [v Hv]. unfold page_of.
    now rewrite Hv. }
  eexists {| documents := _; ids := _ |}. split; [reflexivity |].
  split; [|unfold upload_chunks_to_chroma;
           rewrite (chunk_ids_returns s3_key page_of chunks Hall);
           destruct chunks; [contradiction | reflexivity]].
  cbn [ids]. now rewrite length_map.
Qed.

Lemma str_app_inv_head (a b c : string) : a +:+ b = a +:+ c → b = c.
Proof.
  induction a as [|x a IH]; [trivial |].
  rewrite !str_app_cons. intros [= H]. auto.
Qed.

(** X16. With page numbers printed in decimal, the text that is hashed for
    an id determines the page number and the chunk text once the key is
    fixed. It does not determine the key: a key that ends in [_p] and a
    number gives the same text as the shorter key with that page number,
    so the two chunks get the same id whatever the hash. *)
Theorem unique_input_page_and_text (s3_key : string) :
  (∀ n, format_value (VInt n) = PyStr.str_int n) →
  (∀ p p' t t',
     unique_input format_value s3_key (VInt p) t =
       unique_input format_value s3_key (VInt p') t' →
     p = p' ∧ t = t')
  ∧ (∀ p q t,
       generate_id format_value md5_hexdigest
         (s3_key +:+ "_p" +:+ PyStr.str_int p) (VInt q) t =
       generate_id format_value md5_hexdigest
         s3_key (VInt p) ("p" +:+ PyStr.str_int q +:+ "_" +:+ t)).
Proof.
  intros Hformat. split.
  - intros p p' t t'. unfold unique_input. rewrite !Hformat. intros Heq.
    apply str_app_inv_head in Heq. apply (str_app_inv_head "_p") in Heq.
    apply (split_at_first "_") in Heq as [Hp ->].
    + split; [now apply str_int_inj | reflexivity].
    + apply (all_chars_weaken PyStr.is_int_char); [|apply str_int_chars].
      apply int_char_not_underscore.
    + apply (all_chars_weaken PyStr.is_int_char); [|apply str_int_chars].
      apply int_char_not_underscore.
  - intros p q t. unfold generate_id, unique_input. rewrite !Hformat.
    f_equal. now rewrite !str_app_assoc.
Qed.

End UploadFacts.

Lemma chunk_page_metadata_witness :
  ∃ chunk,
    Chunking.chunk_page 1000 Chunking.split_lines Chunking.no_entities
      ("Flight log" +:+ PyStr.nl +:+ "Passengers") 3
      (Some (<["total_pages" := Chunking.VInt 12]> ∅)) !! 1 = Some chunk
    ∧ Chunking.chunk_metadata chunk !! "page_number" = Some (Chunking.VInt 3).
Proof.
  assert (Chunking.chunk_page 1000 Chunking.split_lines Chunking.no_entities
            ("Flight log" +:+ PyStr.nl +:+ "Passengers") 3
            (Some (<["total_pages" := Chunking.VInt 12]> ∅)) !! 1 =
          Some {| Chunking.chunk_text_of := "Passengers";
                  Chunking.chunk_metadata :=
                    Chunking.with_chunk_fields Chunking.no_entities 1 "Passengers" 2
                      (<["page_number" := Chunking.VInt 3]>
                         (<["total_pages" := Chunking.VInt 12]> ∅)) |}) as H.
  { vm_compute. reflexivity. }
  eexists. split; [exact H |].
  exact (proj1 (chunk_page_metadata 1000 Chunking.split_lines Chunking.no_entities
                  _ 3 _ 1 _ H)).
Defined.

Lemma upload_without_page_number_witness :
  Upload.upload_chunks_to_chroma Upload.format_simple (fun text => text)
    (fun _ => Py.Returned ())
    (Chunking.chunk_text Chunking.split_lines Chunking.no_entities "Flight log" None)
    "organized/pdfs/log.pdf" =
    (Py.Raised "KeyError: 'page_number'", []).
Proof.
  apply upload_without_page_number.
  apply Exists_cons_hd. vm_compute. reflexivity.
Defined.

Lemma unique_input_page_and_text_witness :
  Upload.generate_id Upload.format_simple (fun text => text)
    ("a.pdf" +:+ "_p" +:+ PyStr.str_int 1) (Chunking.VInt 2) "text" =
  Upload.generate_id Upload.format_simple (fun text => text)
    "a.pdf" (Chunking.VInt 1) ("p" +:+ PyStr.str_int 2 +:+ "_" +:+ "text").
Proof.
  apply (proj2 (unique_input_page_and_text Upload.format_simple (fun text => text)
                  "a.pdf" (fun n => eq_refl))).
Defined.

(** ** Reading a PDF *)

Section PdfFacts.

Import Ingest.

Lemma has_text_spec (extracted : option string) :
  has_text extracted = true ↔ ∃ t, extracted = Some t ∧ PyStr.strip t ≠ "".
Proof.
  destruct extracted as [t|]; simpl.
  - split.
    + intros H. apply andb_prop in H as [_ H]. exists t. split; [reflexivity |].
      intros Heq. rewrite Heq in H. discriminate.
    + intros (t' & [= <-] & Hne). destruct t as [|c t]; [now elim Hne |].
      destruct (PyStr.strip (String c t)); [now elim Hne | reflexivity].
  - split; [discriminate | intros (t & [=] & _)].
Qed.

Lemma pages_loop_app (total n : Z) (pages : list (Py.outcome (option string)))
  (acc : list PageData) :
  pages_loop total n pages acc = acc ++ pages_loop total n pages [].
Proof.
  revert n acc. induction pages as [|[extracted|e] rest IH]; intros n acc;
    cbn [pages_loop]; [now rewrite app_nil_r | | now rewrite app_nil_r].
  rewrite IH, (IH _ (if has_text extracted then _ else _)).
  destruct (has_text extracted); [now rewrite <- app_assoc | reflexivity].
Qed.

Lemma pages_loop_spec (total n : Z) (pages : list (Py.outcome (option string)))
  (pd : PageData) :
  In pd (pages_loop total n pages []) ↔
  ∃ i t, before_failure pages !! i = Some (Some t) ∧ PyStr.strip t ≠ ""
         ∧ pd = {| text := t; page_number := (n + Z.of_nat i)%Z;
                   total_pages := total |}.
Proof.
  revert n. induction pages as [|[extracted|e] rest IH]; intros n;
    cbn [pages_loop before_failure].
  - split; [intros [] | intros (i & t & H & _); discriminate].
  - rewrite pages_loop_app, in_app_iff, IH. split.
    + intros [Hin|(i & t & Hi & Hne & ->)].
      * destruct (has_text extracted) eqn:Hhas; [|destruct Hin].
        apply has_text_spec in Hhas as (t & -> & Hne).
        destruct Hin as [<-|[]]. exists 0, t. simpl.
        repeat split; [exact Hne | f_equal; lia].
      * exists (S i), t. repeat split; [exact Hi | exact Hne | f_equal; lia].
    + intros ([|i] & t & Hi & Hne & ->).
      * left. injection Hi as ->.
        rewrite (proj2 (has_text_spec (Some t))) by eauto.
        left. simpl. f_equal. lia.
      * right. exists i, t. repeat split; [exact Hi | exact Hne | f_equal; lia].
  - split; [intros [] | intros (i & t & H & _); discriminate].
Qed.

Lemma pages_loop_sorted (total n : Z) (pages : list (Py.outcome (option string))) :
  StronglySorted (fun a b => (page_number a < page_number b)%Z)
    (pages_loop total n pages []).
Proof.
  revert n. induction pages as [|[extracted|e] rest IH]; intros n;
    cbn [pages_loop]; [constructor | | constructor].
  rewrite pages_loop_app. destruct (has_text extracted); [|apply IH].
  cbn [app]. constructor; [apply IH |].
  apply List.Forall_forall. intros pd Hin.
  apply pages_loop_spec in Hin as (i & t & _ & _ & ->). simpl. lia.
Qed.

(** X17. The pages [extract_text_from_pdf] returns are the pages before
    the first one that fails to extract whose text is not blank: each with
    its text, its 1-based position in the document and the page count of
    the whole document. They come in strictly increasing page order, so no
    page is returned twice. *)
Theorem extracted_pages (pages : list (Py.outcome (option string))) :
  let pages_data := extract_text_from_pdf (Py.Returned pages) in
  (∀ pd, In pd pages_data ↔
         ∃ i t, before_failure pages !! i = Some (Some t) ∧ PyStr.strip t ≠ ""
                ∧ pd = {| text := t; page_number := Z.of_nat i + 1;
                          total_pages := Z.of_nat (length pages) |})
  ∧ StronglySorted (fun a b => (page_number a < page_number b)%Z) pages_data.
Proof.
  cbv zeta. unfold extract_text_from_pdf. split; [|apply pages_loop_sorted].
  intros pd. rewrite pages_loop_spec.
  split; intros (i & t & Hi & Hne & ->); exists i, t;
    (repeat split; [exact Hi | exact Hne | f_equal; lia]).
Qed.

End PdfFacts.

(** ** Dates in file names *)

Section DateFacts.

Import Ingest.

Lemma digits_sound (n : nat) (s d rest : string) :
  digits n s = Some (d, rest) →
  s = d +:+ rest ∧ String.length d = n ∧ PyStr.all_chars is_digit d = true.
Proof.
  revert s d rest. induction n as [|n IH]; intros s d rest; cbn [digits].
  - intros [= <- <-]. now repeat split.
  - destruct s as [|c s]; [discriminate |].
    destruct (is_digit c) eqn:Hc; [|discriminate].
    destruct (digits n s) as [[d' rest']|] eqn:Hd; [|discriminate].
    intros [= <- <-]. destruct (IH _ _ _ Hd) as (-> & <- & Hall).
    repeat split. simpl. now rewrite Hc, Hall.
Qed.

Lemma search_sound {A : Type} (pattern : string → option A) (s : string) (found : A) :
  search pattern s = Some found →
  ∃ before tail, s = before +:+ tail ∧ pattern tail = Some found.
Proof.
  induction s as [|c s IH]; cbn [search].
  - destruct (pattern "") eqn:E; [|discriminate]. intros [= <-]. now exists "", "".
  - destruct (pattern (String c s)) eqn:E.
    + intros [= <-]. now exists "", (String c s).
    + intros H. destruct (IH H) as (before & tail & -> & Htail).
      now exists (String c before), tail.
Qed.

Lemma search_none {A : Type} (pattern : string → option A) (s : string) :
  (∀ before tail, s = before +:+ tail → pattern tail = None) →
  search pattern s = None.
Proof.
  induction s as [|c s IH]; intros Hnone; cbn [search].
  - now rewrite (Hnone "" "").
  - rewrite (Hnone "" (String c s)) by reflexivity. apply IH.
    intros before tail ->. now apply (Hnone (String c before)).
Qed.

Lemma dashed_date_sound (s year month : string) :
  dashed_date s = Some (year, month) →
  (String.length year = 4 ∧ PyStr.all_chars is_digit year = true)
  ∧ (String.length month = 2 ∧ PyStr.all_chars is_digit month = true)
  ∧ ∃ rest, s = year +:+ rest.
Proof.
  unfold dashed_date.
  destruct (digits 4 s) as [[y s1]|] eqn:Hy; [|discriminate]. cbn [mbind option_bind].
  destruct (separator s1) as [s2|]; [|discriminate]. cbn [mbind option_bind].
  destruct (digits 2 s2) as [[m s3]|] eqn:Hm; [|discriminate]. cbn [mbind option_bind].
  destruct (separator s3) as [s4|]; [|discriminate]. cbn [mbind option_bind].
  destruct (digits 2 s4) as [[d s5]|]; [|discriminate]. cbn [mbind option_bind].
  intros [= <- <-].
  destruct (digits_sound _ _ _ _ Hy) as (-> & Hly & Hdy).
  destruct (digits_sound _ _ _ _ Hm) as (_ & Hlm & Hdm).
  repeat split; eauto.
Qed.

Lemma compact_date_sound (s year month : string) :
  compact_date s = Some (year, month) →
  (String.length year = 4 ∧ PyStr.all_chars is_digit year = true)
  ∧ (String.length month = 2 ∧ PyStr.all_chars is_digit month = true)
  ∧ ∃ rest, s = year +:+ rest.
Proof.
  unfold compact_date.
  destruct (digits 4 s) as [[y s1]|] eqn:Hy; [|discriminate]. cbn [mbind option_bind].
  destruct (digits 2 s1) as [[m s2]|] eqn:Hm; [|discriminate]. cbn [mbind option_bind].
  destruct (digits 2 s2) as [[d s3]|]; [|discriminate]. cbn [mbind option_bind].
  intros [= <- <-].
  destruct (digits_sound _ _ _ _ Hy) as (-> & Hly & Hdy).
  destruct (digits_sound _ _ _ _ Hm) as (_ & Hlm & Hdm).
  repeat split; eauto.
Qed.

Lemma year_only_digits (s : string) :
  digits 4 s = None → year_only s = None.
Proof.
  unfold year_only. intros H4.
  destruct s as [|c1 s]; [reflexivity |].
  destruct s as [|c2 s];
    [destruct c1 as [[] [] [] [] [] [] [] []]; reflexivity |].
  assert (∀ a b, is_digit a = true → is_digit b = true →
            c1 = a → c2 = b → digits 2 s = None) as Hrest.
  { intros a b Ha Hb -> ->. cbn [digits] in H4. rewrite Ha, Hb in H4.
    cbn [digits]. destruct s as [|c3 s]; [reflexivity |].
    destruct (is_digit c3); [|reflexivity].
    destruct s as [|c4 s]; [reflexivity |].
    destruct (is_digit c4); [discriminate | reflexivity]. }
  destruct c1 as [[] [] [] [] [] [] [] []]; try reflexivity;
    destruct c2 as [[] [] [] [] [] [] [] []]; try reflexivity.
  - now rewrite (Hrest "1" "9")%char.
  - now rewrite (Hrest "2" "0")%char.
Qed.

Lemma year_only_sound (s year : string) :
  year_only s = Some year →
  String.length year = 4 ∧ PyStr.all_chars is_digit year = true
  ∧ (String.prefix "19" year = true ∨ String.prefix "20" year = true)
  ∧ ∃ rest, s = year +:+ rest.
Proof.
  unfold year_only.
  destruct s as [|c1 [|c2 s]]; try discriminate.
  - destruct c1 as [[] [] [] [] [] [] [] []]; discriminate.
  - destruct c1 as [[] [] [] [] [] [] [] []]; try discriminate;
      destruct c2 as [[] [] [] [] [] [] [] []]; try discriminate;
      (destruct (digits 2 s) as [[d rest]|] eqn:Hd; [|discriminate]);
      cbn [mbind option_bind]; intros [= <-];
      destruct (digits_sound _ _ _ _ Hd) as (-> & Hl & Hall);
      str_norm; cbn [String.length PyStr.all_chars]; rewrite Hl, Hall.
    + repeat split; [left; exact (prefix_app "19" d) | now exists rest].
    + repeat split; [right; exact (prefix_app "20" d) | now exists rest].
Qed.

(** X18. The date read from a file name is either [YYYY-MM], four digits,
    a dash and two digits, the digits being the first six of a date found
    in the name, or a bare year of four digits that starts with 19 or 20
    and occurs in the name, without a month. A name without four digits in
    a row has no date. *)
Theorem extract_date_is_month_or_year (filename : string) :
  (∀ date, extract_date_from_filename filename = Some date →
     (∃ year month,
        date = year +:+ "-" +:+ month
        ∧ String.length year = 4 ∧ PyStr.all_chars is_digit year = true
        ∧ String.length month = 2 ∧ PyStr.all_chars is_digit month = true
        ∧ Regex.occurs_in year filename)
     ∨ (String.length date = 4 ∧ PyStr.all_chars is_digit date = true
        ∧ (String.prefix "19" date = true ∨ String.prefix "20" date = true)
        ∧ Regex.occurs_in date filename))
  ∧ ((∀ before tail, filename = before +:+ tail → digits 4 tail = None) →
     extract_date_from_filename filename = None).
Proof.
  unfold extract_date_from_filename. split.
  - intros date.
    destruct (search dashed_date filename) as [[year month]|] eqn:Hdashed.
    { intros [= <-]. left. exists year, month.
      apply search_sound in Hdashed as (before & tail & -> & Hfound).
      apply dashed_date_sound in Hfound as ((Hly & Hdy) & (Hlm & Hdm) & rest & ->).
      repeat split; try assumption. now exists before, rest. }
    destruct (search compact_date filename) as [[year month]|] eqn:Hcompact.
    { intros [= <-]. left. exists year, month.
      apply search_sound in Hcompact as (before & tail & -> & Hfound).
      apply compact_date_sound in Hfound as ((Hly & Hdy) & (Hlm & Hdm) & rest & ->).
      repeat split; try assumption. now exists before, rest. }
    destruct (search year_only filename) as [year|] eqn:Hyear; [|discriminate].
    intros [= <-]. right.
    apply search_sound in Hyear as (before & tail & -> & Hfound).
    apply year_only_sound in Hfound as (Hl & Hd & Hprefix & rest & ->).
    repeat split; try assumption. now exists before, rest.
  - intros Hnone.
    rewrite (search_none dashed_date), (search_none compact_date),
      (search_none year_only); [reflexivity | | |].
    + intros before tail Heq. apply year_only_digits. now apply (Hnone before).
    + intros before tail Heq. unfold compact_date.
      now rewrite (Hnone before tail Heq).
    + intros before tail Heq. unfold dashed_date.
      now rewrite (Hnone before tail Heq).
Qed.

End DateFacts.

Lemma extract_date_is_month_or_year_witness :
  Ingest.extract_date_from_filename "flight_log_2004.pdf" = Some "2004"
  ∧ String.length "2004" = 4.
Proof.
  assert (Ingest.extract_date_from_filename "flight_log_2004.pdf" = Some "2004") as H.
  { vm_compute. reflexivity. }
  split; [exact H |].
  destruct (proj1 (extract_date_is_month_or_year "flight_log_2004.pdf") "2004" H)
    as [(year & month & Heq & Hly & _ & Hlm & _)|(Hl & _)]; [|exact Hl].
  apply (f_equal String.length) in Heq. rewrite !str_length_app in Heq.
  rewrite Hly, Hlm in Heq. simpl in Heq. lia.
Defined.

(** ** One PDF from the bucket to the store *)

Section PipelineFacts.

Import Chunking Upload Pdfs.

Variable source_dict : gmap string string.
Variable split_text : string → list string.
Variable nlp : string → list Entities.Ent.
Variable format_value : Value → string.
Variable md5_hexdigest : string → string.
Variable add_documents : AddCall → Py.outcome unit.

Lemma fold_left_extend {A B : Type} (f : A → list B) (l : list A) (acc : list B) :
  fold_left (fun all x => all ++ f x) l acc = acc ++ flat_map f l.
Proof.
  revert acc. induction l as [|x l IH]; intros acc; simpl.
  - now rewrite app_nil_r.
  - now rewrite IH, app_assoc.
Qed.

Lemma all_chunks_In (base_metadata : gmap string Value)
  (pages_data : list Ingest.PageData) (chunk : Chunk) :
  In chunk (all_chunks_of split_text nlp base_metadata pages_data) →
  ∃ page_data,
    In page_data pages_data
    ∧ In chunk (chunk_page 1024 split_text nlp (Ingest.text page_data)
                  (Ingest.page_number page_data) (Some base_metadata)).
Proof.
  unfold all_chunks_of.
  rewrite (fold_left_extend
             (fun page_data =>
                chunk_page 1024 split_text nlp (Ingest.text page_data)
                  (Ingest.page_number page_data) (Some base_metadata))).
  cbn [app]. intros Hin. apply in_flat_map in Hin. exact Hin.
Qed.

Lemma extracted_total_pages (pdf : Ingest.Pdf) (a b : Ingest.PageData) :
  In a (Ingest.extract_text_from_pdf pdf) → In b (Ingest.extract_text_from_pdf pdf) →
  Ingest.total_pages a = Ingest.total_pages b.
Proof.
  destruct pdf as [pages|e]; [|intros []]. unfold Ingest.extract_text_from_pdf.
  intros Ha Hb.
  apply pages_loop_spec in Ha as (i & t & _ & _ & ->).
  apply pages_loop_spec in Hb as (j & u & _ & _ & ->). reflexivity.
Qed.

(** X19. Processing a PDF calls the store at most once, and never with an
    empty batch. It returns the number of documents it handed over when the
    store accepts them and 0 in every other case, also when the store
    raises. Every document handed over carries the stem of the key as
    [document_id] and the number and page count of a page that was
    extracted from this PDF. *)
Theorem process_pdf_uploads_extracted_pages (download : Py.outcome Ingest.Pdf)
  (s3_key source : string) :
  let result :=
    process_pdf source_dict split_text nlp format_value md5_hexdigest add_documents
      download s3_key source in
  (result = (0%Z, [])
   ∨ ∃ call,
       result.2 = [call]
       ∧ documents call ≠ []
       ∧ length (ids call) = length (documents call)
       ∧ result.1 = match add_documents call with
                    | Py.Returned _ => Z.of_nat (length (documents call))
                    | Py.Raised _ => 0%Z
                    end)
  ∧ ∀ call text md,
      In call result.2 → In (text, md) (documents call) →
      md !! "document_id" = Some (VStr (Ingest.document_id_of s3_key))
      ∧ ∃ pdf page_data,
          download = Py.Returned pdf
          ∧ In page_data (Ingest.extract_text_from_pdf pdf)
          ∧ md !! "page_number" = Some (VInt (Ingest.page_number page_data))
          ∧ md !! "total_pages" = Some (VInt (Ingest.total_pages page_data)).
Proof.
  cbv zeta. unfold process_pdf.
  destruct download as [pdf|e]; [|split; [now left | intros ? ? ? []]].
  destruct (Ingest.extract_text_from_pdf pdf) as [|first_page rest] eqn:Hpages;
    [split; [now left | intros ? ? ? []] |].
  destruct (source_dict !! source) as [source_name|];
    [|split; [now left | intros ? ? ? []]].
  cbv zeta.
  set (base := base_metadata_of s3_key source_name (Ingest.total_pages first_page)).
  destruct (all_chunks_of split_text nlp base (first_page :: rest))
    as [|c cs] eqn:Hchunks; [split; [now left | intros ? ? ? []] |].
  assert (∀ chunk, In chunk (c :: cs) →
            chunk_metadata chunk !! "document_id" =
              Some (VStr (Ingest.document_id_of s3_key))
            ∧ ∃ page_data,
                In page_data (first_page :: rest)
                ∧ chunk_metadata chunk !! "page_number" =
                    Some (VInt (Ingest.page_number page_data))
                ∧ chunk_metadata chunk !! "total_pages" =
                    Some (VInt (Ingest.total_pages page_data))) as Hmeta.
  { intros chunk Hin. rewrite <- Hchunks in Hin.
    apply all_chunks_In in Hin as (page_data & Hpage & Hin).
    apply chunk_page_lookup in Hin as [Hnumber Hother].
    split.
    - rewrite Hother by (unfold chunk_fields; cbn [In]; intuition discriminate).
      unfold base, base_metadata_of. by simplify_map_eq.
    - exists page_data. split; [exact Hpage | split; [exact Hnumber |]].
      rewrite Hother by (unfold chunk_fields; cbn [In]; intuition discriminate).
      rewrite (extracted_total_pages pdf page_data first_page);
        [| rewrite Hpages; exact Hpage | rewrite Hpages; now left].
      unfold base, base_metadata_of. by simplify_map_eq. }
  destruct (upload_returns format_value md5_hexdigest add_documents s3_key (c :: cs))
    as (call & Hdocs & Hids & Hupload).
  { apply List.Forall_forall. intros chunk Hin.
    destruct (Hmeta chunk Hin) as (_ & page_data & _ & Hnumber & _). eauto. }
  { discriminate. }
  rewrite Hupload.
  assert (length (documents call) = length (c :: cs)) as Hlen
    by now rewrite Hdocs, length_map.
  assert (∀ text md, In (text, md) (documents call) →
            md !! "document_id" = Some (VStr (Ingest.document_id_of s3_key))
            ∧ ∃ pdf' page_data,
                Py.Returned pdf = Py.Returned pdf'
                ∧ In page_data (Ingest.extract_text_from_pdf pdf')
                ∧ md !! "page_number" = Some (VInt (Ingest.page_number page_data))
                ∧ md !! "total_pages" = Some (VInt (Ingest.total_pages page_data)))
    as Hdocuments.
  { intros text md Hin. rewrite Hdocs in Hin.
    apply in_map_iff in Hin as (chunk & [= <- <-] & Hin).
    destruct (Hmeta chunk Hin) as (Hid & page_data & Hpage & Hnumber & Htotal).
    split; [exact Hid |]. exists pdf, page_data. rewrite Hpages. now repeat split. }
  destruct (add_documents call) eqn:Hstore; cbn [fst snd].
  - split.
    + right. exists call. rewrite Hstore.
      repeat split;
        [rewrite Hdocs; discriminate | now rewrite Hids, Hlen | now rewrite Hlen].
    + intros call' text md [<-|[]]. apply Hdocuments.
  - split.
    + right. exists call. rewrite Hstore.
      repeat split; [rewrite Hdocs; discriminate | now rewrite Hids, Hlen].
    + intros call' text md [<-|[]]. apply Hdocuments.
Qed.

(** X20. A text file or an image whose stripped text is not empty and has
    at most 2048 characters, under a source the pipeline has a description
    for, is stored as one document, whatever the splitter would make of
    it: the whole stripped text, as page 1, chunk 0 of 1, under the stem of
    the key, with the id of that text. The result is 1 when the store
    accepts it and 0 when the store raises. Under a source the pipeline
    does not know the store is not called and the result is 0. *)
Theorem short_file_is_one_document (document_type : string)
  (decoded s3_key source : string) :
  let text := PyStr.strip decoded in
  text ≠ "" →
  String.length text ≤ 2048 →
  (source_dict !! source = None →
   process_page source_dict split_text nlp format_value md5_hexdigest add_documents
     document_type (Py.Returned (Py.Returned decoded)) s3_key source = (0%Z, []))
  ∧ ∀ source_name,
  source_dict !! source = Some source_name →
  ∃ md,
    let call :=
      {| documents := [(text, md)];
         ids := [generate_id format_value md5_hexdigest s3_key (VInt 1) text] |} in
    process_page source_dict split_text nlp format_value md5_hexdigest add_documents
      document_type (Py.Returned (Py.Returned decoded)) s3_key source =
      (match add_documents call with
       | Py.Returned _ => 1%Z
       | Py.Raised _ => 0%Z
       end, [call])
    ∧ md !! "page_number" = Some (VInt 1)
    ∧ md !! "chunk_index" = Some (VInt 0)
    ∧ md !! "total_chunks" = Some (VInt 1)
    ∧ md !! "document_id" = Some (VStr (Ingest.document_id_of s3_key))
    ∧ md !! "document_type" = Some (VStr document_type).
Proof.
  cbv zeta. intros Hne Hshort. split.
  { intros Hsource. unfold process_page, extract_text. rewrite Hsource.
    destruct (PyStr.strip decoded); [contradiction | reflexivity]. }
  intros source_name Hsource.
  unfold process_page, extract_text. rewrite Hsource.
  destruct (PyStr.strip decoded) as [|c text] eqn:Htext; [contradiction |].
  cbn [PyStr.truthy negb]. cbv zeta.
  set (base := page_metadata_of _ _ _ _).
  assert (chunk_page 1024 split_text nlp (String c text) 1 (Some base) =
          [ {| chunk_text_of := String c text;
               chunk_metadata :=
                 with_chunk_fields nlp 0 (String c text) 1
                   (<["page_number" := VInt 1]> base) |} ]) as Hchunks.
  { unfold chunk_page. cbn [default mbind option_bind].
    replace (Some base ≫= lookup "total_pages") with (Some (VInt 1))
      by (unfold base, page_metadata_of; cbn [mbind option_bind];
          symmetry; by simplify_map_eq).
    cbn [default]. rewrite bool_decide_eq_true_2 by reflexivity.
    replace (Z.of_nat (String.length (String c text)) <=? 1024 * 2)%Z with true
      by (symmetry; apply Z.leb_le; lia).
    reflexivity. }
  rewrite Hchunks.
  exists (with_chunk_fields nlp 0 (String c text) 1 (<["page_number" := VInt 1]> base)).
  split.
  - unfold upload_chunks_to_chroma. cbn [chunk_ids chunk_metadata chunk_text_of map].
    replace (with_chunk_fields nlp 0 (String c text) 1
               (<["page_number" := VInt 1]> base) !! "page_number")
      with (Some (VInt 1))
      by (symmetry; unfold with_chunk_fields; by simplify_map_eq).
    cbn [mbind mret Py.outcome_bind Py.outcome_ret Py.bind length Z.of_nat
         Pos.of_succ_nat].
    destruct (add_documents _); reflexivity.
  - unfold with_chunk_fields, base, page_metadata_of.
    repeat split; by simplify_map_eq.
Qed.

End PipelineFacts.

Lemma short_file_is_one_document_witness :
  (∃ md,
     Pdfs.process_text (<["HC" := "House Committee"]> ∅) Chunking.split_lines
       Chunking.no_entities Upload.format_simple (fun text => text) Pdfs.accepting
       (Py.Returned (Py.Returned "  Flight log  ")) "HC_organized/documents/log.txt"
       "HC" =
     (1%Z, [ {| Upload.documents := [("Flight log", md)];
                Upload.ids := ["HC_organized/documents/log.txt_p1_Flight log"] |} ]))
  ∧ Pdfs.process_text (<["HC" := "House Committee"]> ∅) Chunking.split_lines
      Chunking.no_entities Upload.format_simple (fun text => text) Pdfs.accepting
      (Py.Returned (Py.Returned "  Flight log  ")) "HC_organized/documents/log.txt"
      "XX" = (0%Z, []).
Proof.
  split.
  - destruct (short_file_is_one_document (<["HC" := "House Committee"]> ∅)
                Chunking.split_lines Chunking.no_entities Upload.format_simple
                (fun text => text) Pdfs.accepting "text" "  Flight log  "
                "HC_organized/documents/log.txt" "HC") as [_ Hknown].
    + vm_compute. discriminate.
    + apply Nat.leb_le. vm_compute. reflexivity.
    + destruct (Hknown "House Committee") as (md & Hrun & _).
      * vm_compute. reflexivity.
      * exists md. exact Hrun.
  - apply (short_file_is_one_document (<["HC" := "House Committee"]> ∅)
             Chunking.split_lines Chunking.no_entities Upload.format_simple
             (fun text => text) Pdfs.accepting "text" "  Flight log  "
             "HC_organized/documents/log.txt" "XX").
    + vm_compute. discriminate.
    + apply Nat.leb_le. vm_compute. reflexivity.
    + vm_compute. reflexivity.
Defined.
